(** * stormpath.js: the ID Site client, embedded in Rocq

    The development follows the layout of the repository:
    - [Js]     the fragment of the JavaScript runtime the sources rely on
               (JSON-shaped values, truthiness, property reads, string
               conversion, the Array and String built-ins that are called,
               URI component coding and base64);
    - [Dom]    [window.location] and [document.cookie];
    - [Utils]  [lib/utils.js];
    - [Client] [lib/client.js];
    - [Samples] pages, claims and clients that the examples run on.
    The properties come last.

    Strings are sequences of 8-bit code units: text outside ASCII is held
    as its UTF-8 bytes, which is also the form in which the URI coding
    functions see it. *)

From Stdlib Require Import String Ascii List ZArith NArith Bool Lia Arith.
From Stdlib Require Import DecimalString.
Import ListNotations.
Open Scope string_scope.
Set Warnings "-register-all".

(* ================================================================== *)
(** * The JavaScript fragment                                          *)
(* ================================================================== *)

Module Js.

(** ** Values

    The values that reach the client are the ones [JSON.parse] builds, plus
    [undefined].  A [VObj] lists the own enumerable properties of an object
    in the order [Object.keys] reports them, each key once.  Numbers are
    the integers that print in plain decimal notation. *)
Inductive value : Type :=
| VUndefined
| VNull
| VBool (b : bool)
| VNum (n : Z)
| VStr (s : string)
| VArr (items : list value)
| VObj (props : list (string * value)).

(** Exceptions that the modelled code lets escape. *)
Inductive exn : Type :=
| TypeError
| URIError
| SyntaxError
| InvalidCharacterError
| Error (message : string).

(** The completion of an expression or of a call: a value or a throw. *)
Inductive completion (A : Type) : Type :=
| Normal (a : A)
| Throw (e : exn).
Arguments Normal {A} a.
Arguments Throw {A} e.

Definition cbind {A B} (c : completion A) (k : A -> completion B) : completion B :=
  match c with
  | Normal a => k a
  | Throw e => Throw e
  end.

Declare Scope js_scope.
Delimit Scope js_scope with js.
Notation "x <-? c ;; k" := (cbind c (fun x => k))
  (at level 61, c at next level, right associativity) : js_scope.
Open Scope js_scope.

Definition of_option {A} (e : exn) (o : option A) : completion A :=
  match o with
  | Some a => Normal a
  | None => Throw e
  end.

(** [ToBoolean]. *)
Definition truthy (v : value) : bool :=
  match v with
  | VUndefined | VNull => false
  | VBool b => b
  | VNum n => negb (n =? 0)%Z
  | VStr s => negb (s =? "")
  | VArr _ | VObj _ => true
  end.

(** [typeof v]. *)
Definition typeof (v : value) : string :=
  match v with
  | VUndefined => "undefined"
  | VNull => "object"
  | VBool _ => "boolean"
  | VNum _ => "number"
  | VStr _ => "string"
  | VArr _ | VObj _ => "object"
  end.

(** [a || b], on values that are already evaluated. *)
Definition or_else (a b : value) : value := if truthy a then a else b.

(** ** Property reads *)

Fixpoint lookup (k : string) (props : list (string * value)) : option value :=
  match props with
  | [] => None
  | (k', v) :: rest => if k' =? k then Some v else lookup k rest
  end.

(** A canonical array index: decimal digits without a superfluous zero. *)
Definition index_of_key (k : string) : option nat :=
  match NilZero.uint_of_string k with
  | Some u =>
      let n := Nat.of_uint u in
      if NilZero.string_of_uint (Nat.to_uint n) =? k then Some n else None
  | None => None
  end.

Definition num_of_nat (n : nat) : value := VNum (Z.of_nat n).

(** [v[k]], also written [v.k].  Reading a property of [undefined] or
    [null] throws; a primitive has no data property besides the length and
    the code units of a string.  Members inherited from the built-in
    prototypes are functions and are not values of this model: the keys
    the client reads are data keys. *)
Definition prop (v : value) (k : string) : completion value :=
  match v with
  | VUndefined | VNull => Throw TypeError
  | VBool _ | VNum _ => Normal VUndefined
  | VStr s =>
      if k =? "length" then Normal (num_of_nat (String.length s))
      else match index_of_key k with
           | Some i => match String.get i s with
                       | Some c => Normal (VStr (String c ""))
                       | None => Normal VUndefined
                       end
           | None => Normal VUndefined
           end
  | VArr items =>
      if k =? "length" then Normal (num_of_nat (List.length items))
      else match index_of_key k with
           | Some i => Normal (nth i items VUndefined)
           | None => Normal VUndefined
           end
  | VObj props =>
      match lookup k props with
      | Some x => Normal x
      | None => Normal VUndefined
      end
  end.

(** [o.k = x] on an object: the property keeps its place when it exists
    and is added last otherwise. *)
Fixpoint assign (k : string) (x : value) (props : list (string * value))
  : list (string * value) :=
  match props with
  | [] => [(k, x)]
  | (k', v) :: rest =>
      if k' =? k then (k', x) :: rest else (k', v) :: assign k x rest
  end.

(** [Object.keys(v)] for the objects and arrays the client passes. *)
Definition keys (v : value) : list string :=
  match v with
  | VObj props => map fst props
  | VArr items =>
      map (fun i => NilZero.string_of_uint (Nat.to_uint i)) (seq 0 (List.length items))
  | _ => []
  end.

(** [xs[0]] on a list of strings. *)
Definition first_key (ks : list string) : value :=
  match ks with
  | k :: _ => VStr k
  | [] => VUndefined
  end.

(** ** Conversion to string *)

(** The decimal digits of an integer.  This is how JavaScript prints the
    integers of magnitude below 10^21; from there on it prints an
    exponent, and the numbers of the model are meant below that bound. *)
Definition string_of_Z (n : Z) : string := NilZero.string_of_int (Z.to_int n).

(** [ToString].  An array joins its elements with commas, [null] and
    [undefined] elements printing as nothing; a plain object prints as
    ["[object Object]"], unless an own [toString] data property hides the
    inherited method, in which case no primitive can be produced. *)
Fixpoint to_string (v : value) : completion string :=
  match v with
  | VUndefined => Normal "undefined"
  | VNull => Normal "null"
  | VBool true => Normal "true"
  | VBool false => Normal "false"
  | VNum n => Normal (string_of_Z n)
  | VStr s => Normal s
  | VArr items =>
      let elem x :=
        match x with
        | VUndefined | VNull => Normal ""
        | _ => to_string x
        end in
      (fix join (l : list value) : completion string :=
         match l with
         | [] => Normal ""
         | x :: rest =>
             s <-? elem x ;;
             match rest with
             | [] => Normal s
             | _ :: _ => r <-? join rest ;; Normal (s ++ "," ++ r)
             end
         end) items
  | VObj props =>
      match lookup "toString" props with
      | Some _ => Throw TypeError
      | None => Normal "[object Object]"
      end
  end.

(** [a + b] with a string on one side. *)
Definition concat (a b : value) : completion string :=
  x <-? to_string a ;; y <-? to_string b ;; Normal (x ++ y).

(** ** Array built-ins *)

Fixpoint map_each (f : value -> completion value) (l : list value)
  : completion (list value) :=
  match l with
  | [] => Normal []
  | x :: rest => y <-? f x ;; ys <-? map_each f rest ;; Normal (y :: ys)
  end.

(** [v.map(f)]: only an array has the method. *)
Definition array_map (v : value) (f : value -> completion value)
  : completion (list value) :=
  match v with
  | VArr items => map_each f items
  | _ => Throw TypeError
  end.
Arguments array_map : simpl never.

(** [xs.reduce(f)] without an initial value: the first element seeds the
    fold, and an empty array throws. *)
Definition array_reduce (xs : list value) (f : value -> value -> value)
  : completion value :=
  match xs with
  | [] => Throw TypeError
  | x :: rest => Normal (fold_left f rest x)
  end.

(** ** String built-ins *)

Fixpoint strip_prefix (p s : string) : option string :=
  match p, s with
  | EmptyString, _ => Some s
  | String a p', String b s' => if Ascii.eqb a b then strip_prefix p' s' else None
  | String _ _, EmptyString => None
  end.

Fixpoint drop (n : nat) (s : string) : string :=
  match n, s with
  | O, _ => s
  | S n', String _ s' => drop n' s'
  | S _, EmptyString => EmptyString
  end.

(** The longest prefix of [s] without the character [stop]. *)
Fixpoint take_until (stop : ascii) (s : string) : string :=
  match s with
  | EmptyString => EmptyString
  | String c s' => if Ascii.eqb c stop then EmptyString else String c (take_until stop s')
  end.

(** [s.split(sep)] for a one-character separator. *)
Fixpoint split (sep : ascii) (s : string) : list string :=
  match s with
  | EmptyString => [EmptyString]
  | String c s' =>
      if Ascii.eqb c sep then EmptyString :: split sep s'
      else match split sep s' with
           | seg :: segs => String c seg :: segs
           | [] => [String c EmptyString]
           end
  end.

(** How often [c] occurs in [s]. *)
Fixpoint occurrences (c : ascii) (s : string) : nat :=
  match s with
  | EmptyString => 0
  | String d s' => (if Ascii.eqb d c then 1 else 0) + occurrences c s'
  end.

(** [s.split(sep, limit)]: the first [limit] pieces, the rest dropped. *)
Definition split_limit (sep : ascii) (limit : nat) (s : string) : list string :=
  firstn limit (split sep s).

(** A regular expression made of a literal followed by [([^stop]+)],
    tried at the start of [s]: the captured group. *)
Definition capture_here (lit : string) (stop : ascii) (s : string) : option string :=
  match strip_prefix lit s with
  | Some rest =>
      match take_until stop rest with
      | EmptyString => None
      | v => Some v
      end
  | None => None
  end.

(** [s.match(/lit([^stop]+)/)]: the group of the leftmost match. *)
Fixpoint capture (lit : string) (stop : ascii) (s : string) : option string :=
  match capture_here lit stop s with
  | Some v => Some v
  | None =>
      match s with
      | EmptyString => None
      | String _ s' => capture lit stop s'
      end
  end.

(** [s.replace(/lit([^stop]+)/, '')]: the leftmost match removed. *)
Fixpoint remove_capture (lit : string) (stop : ascii) (s : string) : string :=
  match capture_here lit stop s with
  | Some v => drop (String.length lit + String.length v) s
  | None =>
      match s with
      | EmptyString => EmptyString
      | String c s' => String c (remove_capture lit stop s')
      end
  end.

(** ** URI component coding and base64 *)

Definition in_range (lo hi : N) (c : ascii) : bool :=
  ((lo <=? N_of_ascii c) && (N_of_ascii c <=? hi))%N.

Definition is_digit (c : ascii) : bool := in_range 48 57 c.

Fixpoint mem_char (c : ascii) (s : string) : bool :=
  match s with
  | EmptyString => false
  | String d s' => Ascii.eqb c d || mem_char c s'
  end.

(** The characters [encodeURIComponent] leaves alone. *)
Definition unreserved (c : ascii) : bool :=
  in_range 65 90 c || in_range 97 122 c || is_digit c || mem_char c "-_.!~*'()".

Definition hex_char (n : N) : ascii :=
  match String.get (N.to_nat n) "0123456789ABCDEF" with
  | Some c => c
  | None => "0"%char
  end.

(** A hexadecimal digit written in upper case, as [[0-9A-F]] wants it. *)
Definition upper_hex_value (c : ascii) : option N :=
  if is_digit c then Some (N_of_ascii c - 48)%N
  else if in_range 65 70 c then Some (N_of_ascii c - 55)%N
  else None.

Definition hex_value (c : ascii) : option N :=
  if in_range 97 102 c then Some (N_of_ascii c - 87)%N else upper_hex_value c.

(** [encodeURIComponent(s)]: every octet outside the unreserved set
    becomes [%XX]. *)
Fixpoint encodeURIComponent (s : string) : string :=
  match s with
  | EmptyString => EmptyString
  | String c s' =>
      if unreserved c then String c (encodeURIComponent s')
      else String "%" (String (hex_char (N_of_ascii c / 16))
             (String (hex_char (N_of_ascii c mod 16)) (encodeURIComponent s')))
  end.

Inductive token : Type :=
| Lit (c : ascii)
| Esc (byte : N).

(** The escapes of a component; [None] when a [%] lacks its two digits. *)
Fixpoint tokens (s : string) : option (list token) :=
  match s with
  | EmptyString => Some []
  | String c s1 =>
      if Ascii.eqb c "%" then
        match s1 with
        | String x (String y rest) =>
            match hex_value x, hex_value y, tokens rest with
            | Some h, Some l, Some ts => Some (Esc (16 * h + l) :: ts)
            | _, _, _ => None
            end
        | _ => None
        end
      else option_map (cons (Lit c)) (tokens s1)
  end.

Definition continuation (b : N) : bool := ((128 <=? b) && (b <=? 191))%N.
Definition between (lo hi b : N) : bool := ((lo <=? b) && (b <=? hi))%N.

Definition put (bs : list N) (s : string) : string :=
  fold_right (fun b acc => String (ascii_of_N b) acc) s bs.

(** Escaped octets above 127 must spell one well-formed UTF-8 sequence. *)
Fixpoint decode_tokens (ts : list token) : option string :=
  match ts with
  | [] => Some EmptyString
  | Lit c :: rest => option_map (String c) (decode_tokens rest)
  | Esc b0 :: rest =>
      if (b0 <? 128)%N then option_map (put [b0]) (decode_tokens rest)
      else if between 194 223 b0 then
        match rest with
        | Esc b1 :: rest1 =>
            if continuation b1 then option_map (put [b0; b1]) (decode_tokens rest1)
            else None
        | _ => None
        end
      else if between 224 239 b0 then
        match rest with
        | Esc b1 :: Esc b2 :: rest2 =>
            if between (if (b0 =? 224)%N then 160 else 128)
                       (if (b0 =? 237)%N then 159 else 191) b1
               && continuation b2
            then option_map (put [b0; b1; b2]) (decode_tokens rest2)
            else None
        | _ => None
        end
      else if between 240 244 b0 then
        match rest with
        | Esc b1 :: Esc b2 :: Esc b3 :: rest3 =>
            if between (if (b0 =? 240)%N then 144 else 128)
                       (if (b0 =? 244)%N then 143 else 191) b1
               && continuation b2 && continuation b3
            then option_map (put [b0; b1; b2; b3]) (decode_tokens rest3)
            else None
        | _ => None
        end
      else None
  end.

(** [decodeURIComponent(s)], which throws [URIError] on a malformed
    component. *)
Definition decodeURIComponent (s : string) : completion string :=
  match tokens s with
  | Some ts => of_option URIError (decode_tokens ts)
  | None => Throw URIError
  end.

(** [s.replace(/%([0-9A-F]{2})/g, function (m, p1) {
       return String.fromCharCode('0x' + p1) })]. *)
Fixpoint unescape_octets (s : string) : string :=
  match s with
  | EmptyString => EmptyString
  | String c s1 =>
      match (if Ascii.eqb c "%" then
               match s1 with
               | String x (String y rest) =>
                   match upper_hex_value x, upper_hex_value y with
                   | Some h, Some l => Some (ascii_of_N (16 * h + l), unescape_octets rest)
                   | _, _ => None
                   end
               | _ => None
               end
             else None) with
      | Some (b, r) => String b r
      | None => String c (unescape_octets s1)
      end
  end.

Definition base64_char (n : N) : ascii :=
  match String.get (N.to_nat n)
          "ABCDEFGHIJKLMNOPQRSTUVWXYZabcdefghijklmnopqrstuvwxyz0123456789+/" with
  | Some c => c
  | None => "="%char
  end.

(** The browser's [btoa] on a string of octets. *)
Fixpoint btoa (s : string) : string :=
  match s with
  | EmptyString => EmptyString
  | String a EmptyString =>
      let x := N_of_ascii a in
      String (base64_char (x / 4)) (String (base64_char (x mod 4 * 16)) "==")
  | String a (String b EmptyString) =>
      let x := N_of_ascii a in
      let y := N_of_ascii b in
      String (base64_char (x / 4))
        (String (base64_char (x mod 4 * 16 + y / 16))
           (String (base64_char (y mod 16 * 4)) "="))
  | String a (String b (String c rest)) =>
      let x := N_of_ascii a in
      let y := N_of_ascii b in
      let z := N_of_ascii c in
      String (base64_char (x / 4))
        (String (base64_char (x mod 4 * 16 + y / 16))
           (String (base64_char (y mod 16 * 4 + z / 64))
              (String (base64_char (z mod 64)) (btoa rest))))
  end.

(** ** More of the String built-ins and predicates on text *)

(** [s.replace(/a/g, b)] for characters [a] and [b]. *)
Fixpoint replace_char (a b : ascii) (s : string) : string :=
  match s with
  | EmptyString => EmptyString
  | String c s' => String (if Ascii.eqb c a then b else c) (replace_char a b s')
  end.

(** Whether every character of [s] passes [p]. *)
Fixpoint all_chars (p : ascii -> bool) (s : string) : bool :=
  match s with
  | EmptyString => true
  | String c s' => p c && all_chars p s'
  end.

Definition starts_with (lit s : string) : bool :=
  match strip_prefix lit s with
  | Some _ => true
  | None => false
  end.

(** Whether [lit] occurs somewhere in [s]. *)
Fixpoint occurs (lit s : string) : bool :=
  starts_with lit s ||
  match s with
  | EmptyString => false
  | String _ s' => occurs lit s'
  end.

(** A place where [/lit([^stop]+)/] can match: [lit] stands in [s] with a
    character other than [stop] behind it. *)
Definition value_after (lit : string) (stop : ascii) (s : string) : Prop :=
  exists pre c rest, s = pre ++ lit ++ String c rest /\ c <> stop.

(** What [encodeURIComponent] writes: an unreserved character or the
    percent sign of an escape. *)
Definition uri_safe (c : ascii) : bool := unreserved c || Ascii.eqb c "%".

(** Well-formed UTF-8, the texts a JavaScript string without lone
    surrogates stands for. *)
Fixpoint well_formed_utf8 (s : string) : bool :=
  match s with
  | EmptyString => true
  | String c0 rest =>
      let b0 := N_of_ascii c0 in
      if (b0 <? 128)%N then well_formed_utf8 rest
      else if between 194 223 b0 then
        match rest with
        | String c1 rest1 =>
            continuation (N_of_ascii c1) && well_formed_utf8 rest1
        | _ => false
        end
      else if between 224 239 b0 then
        match rest with
        | String c1 (String c2 rest2) =>
            between (if (b0 =? 224)%N then 160 else 128)
                    (if (b0 =? 237)%N then 159 else 191) (N_of_ascii c1)
            && continuation (N_of_ascii c2) && well_formed_utf8 rest2
        | _ => false
        end
      else if between 240 244 b0 then
        match rest with
        | String c1 (String c2 (String c3 rest3)) =>
            between (if (b0 =? 240)%N then 144 else 128)
                    (if (b0 =? 244)%N then 143 else 191) (N_of_ascii c1)
            && continuation (N_of_ascii c2) && continuation (N_of_ascii c3)
            && well_formed_utf8 rest3
        | _ => false
        end
      else false
  end.

(** The token that [encodeURIComponent] writes for an octet. *)
Definition written_token (c : ascii) : token :=
  if unreserved c then Lit c else Esc (N_of_ascii c).

End Js.

(* ================================================================== *)
(** * The page: location and cookies                                   *)
(* ================================================================== *)

Module Dom.
Import Js.

(** What the scripts of a page see of the browser.  [jar] holds the
    cookies of the page, name and value, in the order [document.cookie]
    lists them; [assigned] records every string assigned to
    [document.cookie], oldest first. *)
Record browser : Type := {
  href : string;
  jar : list (string * string);
  assigned : list string
}.

Definition cookie_pair (c : string * string) : string :=
  match fst c with
  | EmptyString => snd c
  | name => name ++ "=" ++ snd c
  end.

Fixpoint join (sep : string) (l : list string) : string :=
  match l with
  | [] => EmptyString
  | [x] => x
  | x :: rest => x ++ sep ++ join sep rest
  end.

(** Reading [document.cookie]. *)
Definition document_cookie (b : browser) : string :=
  join "; " (map cookie_pair (jar b)).

Definition is_blank (c : ascii) : bool :=
  Ascii.eqb c " " || Ascii.eqb c (ascii_of_N 9).

Fixpoint trim_left (s : string) : string :=
  match s with
  | String c s' => if is_blank c then trim_left s' else s
  | EmptyString => EmptyString
  end.

Fixpoint trim_right (s : string) : string :=
  match s with
  | EmptyString => EmptyString
  | String c s' =>
      match trim_right s' with
      | EmptyString => if is_blank c then EmptyString else String c EmptyString
      | r => String c r
      end
  end.

Definition trim (s : string) : string := trim_right (trim_left s).

(** The text before the first [sep] and the text after it. *)
Fixpoint cut (sep : ascii) (s : string) : option (string * string) :=
  match s with
  | EmptyString => None
  | String c s' =>
      if Ascii.eqb c sep then Some (EmptyString, s')
      else match cut sep s' with
           | Some (l, r) => Some (String c l, r)
           | None => None
           end
  end.

Fixpoint store (name val : string) (cs : list (string * string))
  : list (string * string) :=
  match cs with
  | [] => [(name, val)]
  | (n, v) :: rest =>
      if n =? name then (n, val) :: rest else (n, v) :: store name val rest
  end.

(** The control characters, the tab apart. *)
Definition control_character (c : ascii) : bool :=
  ((N_of_ascii c <? 32) && negb (N_of_ascii c =? 9) || (N_of_ascii c =? 127))%N.

(** Assigning to [document.cookie].  The cookie store ignores a text with
    a control character in it.  In any other text, what comes before the
    first [;] names one cookie and its value, which replaces the cookie of
    that name or joins the jar.  The attributes that follow are not
    interpreted; those the client writes are absent or an expiry in the
    far future. *)
Definition set_document_cookie (s : string) (b : browser) : browser :=
  if all_chars (fun c => negb (control_character c)) s then
    let pair := take_until ";" s in
    let '(name, val) :=
      match cut "=" pair with
      | Some (n, v) => (trim n, trim v)
      | None => (EmptyString, trim pair)
      end in
    {| href := href b;
       jar := store name val (jar b);
       assigned := assigned b ++ [s] |}
  else
    {| href := href b; jar := jar b; assigned := assigned b ++ [s] |}.

(** The value of the cookie called [name], if the jar has one. *)
Fixpoint cookie_value (name : string) (cs : list (string * string)) : option string :=
  match cs with
  | [] => None
  | (n, v) :: rest => if n =? name then Some v else cookie_value name rest
  end.

(** [window.location.replace(url)]. *)
Definition location_replace (url : string) (b : browser) : browser :=
  {| href := url; jar := jar b; assigned := assigned b |}.

End Dom.

(* ================================================================== *)
(** * lib/utils.js                                                     *)
(* ================================================================== *)

Module Utils.
Import Js Dom.

(** The library and host functions that [utils.js] calls and the
    repository does not define: [window.atob], [JSON.parse] and the
    [base64] decoding of the [buffer] package,
    [new Buffer(str, 'base64').toString()]. *)
Record platform : Type := {
  window_atob : string -> completion string;
  JSON_parse : string -> completion value;
  Buffer_base64 : string -> completion string
}.

(** What [parseJwt] returns: [false], or the parsed token, whose
    [toString] gives back the raw text. *)
Inductive parsed_jwt : Type :=
| NoJwt
| Jwt (header body : value) (signature : string) (raw : string).

Definition b64EncodeUnicode (str : string) : string :=
  btoa (unescape_octets (encodeURIComponent str)).

Definition base64Decode (str : string) : string :=
  let v := b64EncodeUnicode str in v.

(** [getCookie(name)], for a name free of regular expression operators:
    [undefined] when [document.cookie] has no match. *)
Definition getCookie (name : string) (b : browser) : value :=
  match capture (name ++ "=") ";" (document_cookie b) with
  | Some v => VStr v
  | None => VUndefined
  end.

Section WithPlatform.
Variable P : platform.

Definition base64Encode (str : string) : completion string :=
  Buffer_base64 P str.

Definition parseJwt (rawJwt : value) : completion parsed_jwt :=
  if negb (truthy rawJwt) then Normal NoJwt
  else
    match rawJwt with
    | VStr raw =>
        let segments := split_limit "." 3 raw in
        if negb (Nat.eqb (List.length segments) 3) then Normal NoJwt
        else
          h <-? window_atob P (nth 0 segments EmptyString) ;;
          header <-? JSON_parse P h ;;
          b <-? window_atob P (nth 1 segments EmptyString) ;;
          body <-? JSON_parse P b ;;
          Normal (Jwt header body (nth 2 segments EmptyString) raw)
    | _ => Throw TypeError
    end.

(** The exported [base64] object: [{ atob: base64Encode, btoa: base64Decode }]. *)
Definition base64_atob : string -> completion string := base64Encode.
Definition base64_btoa : string -> string := base64Decode.

End WithPlatform.

End Utils.

(* ================================================================== *)
(** * lib/client.js                                                    *)
(* ================================================================== *)

Module Client.
Import Js Dom Utils.

(** ** Requests, callbacks and the state the client works on *)

(** The keys of [strings.errors] that the client names; the texts live in
    [lib/strings.js]. *)
Inductive error_key : Type :=
| JWT_NOT_FOUND
| NOT_A_JWT
| MALFORMED_JWT_CLAIMS
| SESSION_EXPIRED
| NO_AUTH_TOKEN_HEADER.

(** An argument handed to a callback: a value, or
    [new Error(strings.errors.k)]. *)
Inductive cb_arg : Type :=
| Val (v : value)
| Err (k : error_key).

(** The options object given to [requestExecutor.execute]; [json] is
    [VUndefined] when the key is left out. *)
Record request : Type := {
  method : string;
  url : string;
  json : value
}.

(** The request executor as the client sees it: the credential it holds
    and the requests it was handed, oldest first. *)
Record executor : Type := {
  authToken : value;
  issued : list request
}.

(** Modelled from the spec: [lib/idsite-request-executor.js] is not part
    of the sources at hand; the executor is "constructed with an initial
    Credential", here the argument of [new IdSiteRequestExecutor]. *)
Definition IdSiteRequestExecutor (token : value) : executor :=
  {| authToken := token; issued := [] |}.

Record world : Type := {
  page : browser;
  requestExecutor : executor
}.

(** Statements run on the world and complete normally or throw; what
    they did before a throw stays done. *)
Definition M (A : Type) : Type := world -> completion A * world.

Definition ret {A} (a : A) : M A := fun w => (Normal a, w).
Definition throw {A} (e : exn) : M A := fun w => (Throw e, w).
Definition bind {A B} (m : M A) (k : A -> M B) : M B :=
  fun w =>
    match m w with
    | (Normal a, w') => k a w'
    | (Throw e, w') => (Throw e, w')
    end.
Definition lift {A} (c : completion A) : M A := fun w => (c, w).
Definition on_page (f : browser -> browser) : M unit :=
  fun w => (Normal tt, {| page := f (page w); requestExecutor := requestExecutor w |}).
Definition read {A} (f : world -> A) : M A := fun w => (Normal (f w), w).

Notation "x <- c ;; k" := (bind c (fun x => k))
  (at level 61, c at next level, right associativity) : js_scope.
Notation "c ;; k" := (bind c (fun _ => k))
  (at level 61, right associativity) : js_scope.

(** Modelled from the spec: [execute] belongs to
    [lib/idsite-request-executor.js], which is not part of the sources at
    hand; [execute(request, callback)] "issues the HTTP call" and calls
    back when the response has come.  Here the request joins the issued
    ones; the response, and the callback with it, come later. *)
Definition execute (r : request) : M unit :=
  fun w =>
    (Normal tt,
     {| page := page w;
        requestExecutor :=
          {| authToken := authToken (requestExecutor w);
             issued := issued (requestExecutor w) ++ [r] |} |}).

(** The object under construction, [self]. *)
Record client : Type := {
  jwt : string;
  jwtPayload : value;
  appHref : string;
  sptoken : value;
  baseurl : string;
  idSiteParentResource : value;
  requireMfa : value
}.

(** The first argument of the constructor, an object or left out:
    [token] is [VUndefined] and [suppliedExecutor] is [None] when the
    field is missing. *)
Record options : Type := {
  token : value;
  suppliedExecutor : option executor
}.

(** Modelled from the spec: [lib/defer-callback.js] is not part of the
    sources at hand; [deferCallback(cb, args)] has [cb] called with [args]
    later, failure paths being the ones that "defer invocation".  The
    constructor ends with such a deferred call, or with the object built
    and the first request out. *)
Inductive construction : Type :=
| Deferred (args : list cb_arg)
| Constructed (self : client).

(** ** The regular expressions of the constructor *)

Fixpoint no_slash (s : string) : bool :=
  match s with
  | EmptyString => true
  | String c s' => negb (Ascii.eqb c "/") && no_slash s'
  end.

(** [s.match(/[^\/]+$/)]: the whole match, [None] for [null]. *)
Fixpoint last_segment (s : string) : option string :=
  match s with
  | EmptyString => None
  | String _ s' => if no_slash s then Some s else last_segment s'
  end.

(** The characters [.] refuses: LF, CR, and U+2028 and U+2029 in UTF-8. *)
Definition line_terminator_at (s : string) : bool :=
  match s with
  | String c rest =>
      Ascii.eqb c (ascii_of_N 10) || Ascii.eqb c (ascii_of_N 13) ||
      match rest with
      | String d (String e _) =>
          Ascii.eqb c (ascii_of_N 226) && Ascii.eqb d (ascii_of_N 128) &&
          (Ascii.eqb e (ascii_of_N 168) || Ascii.eqb e (ascii_of_N 169))
      | _ => false
      end
  | EmptyString => false
  end.

(** [/v\d/] with its two slashes, tried at the start of [s]. *)
Definition version_at (s : string) : bool :=
  match s with
  | String a (String b (String d (String e _))) =>
      Ascii.eqb a "/" && Ascii.eqb b "v" && is_digit d && Ascii.eqb e "/"
  | _ => false
  end.

(** The lazy [.+?] after its first character: stop at the first slash
    that opens a version segment. *)
Fixpoint lazy_until_version (s : string) : option string :=
  if version_at s then Some "/"
  else
    match s with
    | EmptyString => None
    | String c s' =>
        if line_terminator_at s then None
        else option_map (String c) (lazy_until_version s')
    end.

(** [s.match('(^.+?/)v\\d/')]: the first group, [None] for [null]. *)
Definition base_prefix (s : string) : option string :=
  match s with
  | EmptyString => None
  | String c s' =>
      if line_terminator_at s then None
      else option_map (String c) (lazy_until_version s')
  end.

(** The reading of the base URL as "the prefix up to and including the
    slash that opens the first version segment", to compare
    [base_prefix] with. *)
Fixpoint before_first_version (s : string) : option string :=
  if version_at s then Some "/"
  else
    match s with
    | EmptyString => None
    | String c s' => option_map (String c) (before_first_version s')
    end.

Fixpoint free_of_line_terminators (s : string) : bool :=
  match s with
  | EmptyString => true
  | String _ s' => negb (line_terminator_at s) && free_of_line_terminators s'
  end.

(** The receiver of [.match(...)] has to be a string. *)
Definition as_string (v : value) : completion string :=
  match v with
  | VStr s => Normal s
  | _ => Throw TypeError
  end.

(** ** Methods that read and write the page *)

Definition organizationNameKeyCookieKey : string := "sp.onk".
Definition organizationNameKeyCookieExpiration : string :=
  "expires=Fri, 31 Dec 9999 23:59:59 GMT".

Definition setCachedOrganizationNameKey (nameKey : value) : M unit :=
  k <- lift (to_string nameKey) ;;
  on_page (set_document_cookie
             (encodeURIComponent organizationNameKeyCookieKey ++ "=" ++
              encodeURIComponent k ++ "; " ++ organizationNameKeyCookieExpiration)).

Definition getJwtFromUrl : M value :=
  jwtMatch <- read (fun w => capture "jwt=" "&" (href (page w))) ;;
  jwtCookie <- read (fun w => getCookie "idSiteJwt" (page w)) ;;
  match jwtMatch with
  | Some m =>
      on_page (fun b => location_replace (remove_capture "?jwt=" "&" (href b)) b) ;;
      d <- lift (decodeURIComponent m) ;;
      ret (VStr d)
  | None =>
      if truthy jwtCookie then
        on_page (set_document_cookie ("idSiteJwt=" ++ "")) ;;
        ret jwtCookie
      else ret (VStr "")
  end.

Definition getSessionToken : M value :=
  read (fun w => authToken (requestExecutor w)).

Definition saveSessionToken : M unit :=
  t <- getSessionToken ;;
  s <- lift (to_string t) ;;
  on_page (set_document_cookie ("idSiteJwt=" ++ s)).

(** ** The password reset token of the claims *)

Definition getPasswordResetToken (jwtPayload appHref : value) : completion value :=
  sp_token <-? prop jwtPayload "sp_token" ;;
  if truthy sp_token then Normal sp_token
  else
    h <-? as_string appHref ;;
    applicationId <-? of_option TypeError (last_segment h) ;;
    scope <-? prop jwtPayload "scope" ;;
    applications <-? prop scope "application" ;;
    application <-? prop applications applicationId ;;
    tokens <-? array_map application
                 (fun contents => prop contents "passwordResetToken") ;;
    found <-? array_reduce tokens or_else ;;
    objects <-? array_map found
                  (fun contents =>
                     Normal (if typeof contents =? "object" then contents else VNull)) ;;
    passwordResetTokens <-? array_reduce objects or_else ;;
    Normal (if truthy passwordResetTokens
            then first_key (keys passwordResetTokens)
            else VNull).

(** Vocabulary for the entries of [scope.application[id]]: an entry whose
    properties can be read, the value of its [passwordResetToken], an
    entry that carries no truthy one, and a value that survives the
    [typeof contents == 'object'] filter as a truthy one. *)
Definition readable (x : value) : bool :=
  match x with
  | VUndefined | VNull => false
  | _ => true
  end.

Definition falsy_prop (x : value) (k : string) : bool :=
  match prop x k with
  | Normal v => negb (truthy v)
  | Throw _ => false
  end.

Definition lacks_token (x : value) : bool := falsy_prop x "passwordResetToken".

(** Whether reading [x.k] gives anything but [undefined]. *)
Definition has_field (x : value) (k : string) : bool :=
  match prop x k with
  | Normal VUndefined | Throw _ => false
  | Normal _ => true
  end.

Definition is_record (x : value) : bool := (typeof x =? "object") && truthy x.

(** [self.appHref.match('(^.+?/)v\\d/')[1]]. *)
Definition derive_baseurl (appHref : value) : completion string :=
  h <-? as_string appHref ;;
  of_option TypeError (base_prefix h).

(** ** The constructor *)

Section WithPlatform.
Variable P : platform.

(** The callback of the first request, lines 72 to 95 of the source, run
    with the error and the body the executor reports. *)
Definition handshake_callback (opts : options) (err application : value)
  : M (list cb_arg) :=
  if truthy err then
    status <- lift (prop err "status") ;;
    match status with
    | VNum 401 => ret [Err SESSION_EXPIRED]
    | _ => ret [Val err]
    end
  else
    t <- getSessionToken ;;
    if negb (truthy t) then ret [Err NO_AUTH_TOKEN_HEADER]
    else
      (if negb (truthy (token opts)) then saveSessionToken else ret tt) ;;
      idSiteModel <- lift (prop application "idSiteModel") ;;
      customData <- lift (prop application "customData") ;;
      ret [Val VNull; Val idSiteModel; Val customData].

(** The [try] block of the constructor: [None] when anything in it
    throws. *)
Definition parse_claims (segment : string) : option value :=
  match (text <-? base64_atob P segment ;; JSON_parse P text) with
  | Normal payload => Some payload
  | Throw _ => None
  end.

(** Lines 46 to 96: the fields derived from the claims, the first
    request, and the object that results. *)
Definition initialize (opts : options) (jwt : string) (jwtPayload : value)
  : M construction :=
  app_href <- lift (prop jwtPayload "app_href") ;;
  sptoken <- lift (getPasswordResetToken jwtPayload app_href) ;;
  baseurl <- lift (derive_baseurl app_href) ;;
  appHref <- lift (as_string app_href) ;;
  onk <- lift (prop jwtPayload "onk") ;;
  (if truthy onk then setCachedOrganizationNameKey onk else ret tt) ;;
  asnk <- lift (prop jwtPayload "asnk") ;;
  ash <- lift (prop jwtPayload "ash") ;;
  let idSiteParentResource := if truthy asnk then ash else app_href in
  require_mfa <- lift (prop jwtPayload "require_mfa") ;;
  let requireMfa := if truthy require_mfa then require_mfa else VUndefined in
  (fun w =>
     (Normal tt,
      {| page := page w;
         requestExecutor :=
           match suppliedExecutor opts with
           | Some e => e
           | None => IdSiteRequestExecutor (VStr jwt)
           end |})) ;;
  target <- lift (concat idSiteParentResource (VStr "?expand=idSiteModel,customData")) ;;
  execute {| method := "GET"; url := target; json := VBool true |} ;;
  ret (Constructed
         {| jwt := jwt; jwtPayload := jwtPayload; appHref := appHref;
            sptoken := sptoken; baseurl := baseurl;
            idSiteParentResource := idSiteParentResource;
            requireMfa := requireMfa |}).

(** Lines 34 to 44, on the token once it is there. *)
Definition decode (opts : options) (jwt : string) : M construction :=
  let jwtSegments := split "." jwt in
  if (List.length jwtSegments <? 2)%nat || (3 <? List.length jwtSegments)%nat
  then ret (Deferred [Err NOT_A_JWT])
  else
    match parse_claims (nth 1 jwtSegments EmptyString) with
    | None => ret (Deferred [Err MALFORMED_JWT_CLAIMS])
    | Some jwtPayload => initialize opts jwt jwtPayload
    end.

(** [opts.token || self.getJwtFromUrl()]. *)
Definition resolve_jwt (opts : options) : M value :=
  if truthy (token opts) then ret (token opts) else getJwtFromUrl.

(** [new Client(options, readyCallback)]. *)
Definition Client (opts : options) : M construction :=
  jwt <- resolve_jwt opts ;;
  if negb (truthy jwt) then ret (Deferred [Err JWT_NOT_FOUND])
  else
    raw <- lift (as_string jwt) ;;
    decode opts raw.

Definition getSessionJwt : M parsed_jwt :=
  t <- getSessionToken ;;
  lift (parseJwt P t).

End WithPlatform.

(** ** Operations after the handshake *)

(** [o.k = x] where [o] is an object of the model. *)
Definition set_prop (o : value) (k : string) (x : value) : value :=
  match o with
  | VObj props => VObj (assign k x props)
  | other => other
  end.

(** Lines 213 to 232 of [login]: the body of the request. *)
Definition login_data (credentials : value) : M value :=
  let creds := if typeof credentials =? "object" then credentials else VNull in
  data <- (if negb (truthy creds) then throw (Error "must provide an object")
           else
             providerData <- lift (prop creds "providerData") ;;
             if truthy providerData then ret creds
             else
               login <- lift (prop creds "login") ;;
               if truthy login then
                 l <- lift (concat login (VStr ":")) ;;
                 password <- lift (prop creds "password") ;;
                 lp <- lift (concat (VStr l) password) ;;
                 ret (VObj [("type", VStr "basic"); ("value", VStr (base64_btoa lp))])
               else throw (Error "unsupported credentials object")) ;;
  accountStore <- lift (prop creds "accountStore") ;;
  ret (if truthy accountStore then set_prop data "accountStore" accountStore else data).

(** Lines 234 to 238 and the conditional of line 243: the query string.
    A callback given in the place of [options] has no [redirect] and
    counts as [VUndefined] here. *)
Definition login_query (options : value) : M string :=
  queryString <-
    (if truthy options then
       redirect <- lift (prop options "redirect") ;;
       if truthy redirect then
         r <- lift (to_string redirect) ;;
         ret (VStr ("?redirect=" ++ encodeURIComponent r))
       else ret VNull
     else ret VNull) ;;
  lift (if truthy queryString then to_string queryString else Normal "").

Definition login (self : client) (credentials options : value) : M unit :=
  data <- login_data credentials ;;
  q <- login_query options ;;
  execute {| method := "POST";
             url := appHref self ++ "/loginAttempts" ++ q;
             json := data |}.

Definition register (self : client) (data : value) : M unit :=
  if negb (typeof data =? "object")
  then throw (Error "client.register() must be called with a data object")
  else
    target <- lift (concat (idSiteParentResource self) (VStr "/accounts")) ;;
    execute {| method := "POST"; url := target; json := data |}.

(** [callback] tells whether the argument is a function. *)
Definition verifyEmailToken (self : client) (callback : bool) : M unit :=
  if negb callback
  then throw (Error "client.verifyEmailToken() takes a function as it's only argument")
  else
    target <- lift (concat (VStr (baseurl self ++ "v1/accounts/emailVerificationTokens/"))
                           (sptoken self)) ;;
    execute {| method := "POST"; url := target; json := VUndefined |}.

(** The callback this one hands to the executor saves the session token
    once the response has come, with [saveSessionToken]. *)
Definition verifyPasswordResetToken (self : client) (callback : bool) : M unit :=
  if negb callback
  then throw (Error "client.verifyPasswordResetToken() takes a function as it's only argument")
  else
    target <- lift (concat (VStr (appHref self ++ "/passwordResetTokens/"))
                           (sptoken self)) ;;
    execute {| method := "GET"; url := target; json := VBool true |}.

Definition sendPasswordResetEmail (self : client) (emailOrObject : value) : M unit :=
  body <- (if typeof emailOrObject =? "string" then ret (VObj [("email", emailOrObject)])
           else if typeof emailOrObject =? "object" then ret emailOrObject
           else throw (Error "sendPasswordResetEmail must be called with an email/username as the first argument, or an options object")) ;;
  execute {| method := "POST";
             url := appHref self ++ "/passwordResetTokens";
             json := body |}.

(** ** Multi-factor operations *)

(** The guard [!account || !account.href] and what it lets through. *)
Definition href_of (resource : value) (message : string) : M value :=
  if negb (truthy resource) then throw (Error message)
  else
    h <- lift (prop resource "href") ;;
    if negb (truthy h) then throw (Error message) else ret h.

Definition getFactors (account : value) : M unit :=
  h <- href_of account
         "Client.getFactors(account[, callback]) must be called with a valid account object." ;;
  target <- lift (concat h (VStr "/factors")) ;;
  execute {| method := "GET"; url := target; json := VBool true |}.

Definition createFactor (account data : value) : M unit :=
  h <- href_of account
         "Client.createFactor(account, data, [, callback]) must be called with a valid account object." ;;
  target <- lift (concat h (VStr "/factors")) ;;
  execute {| method := "POST"; url := target; json := or_else data (VObj []) |}.

(** ** The cached organization name key *)

(** The white space of [\s]: the ASCII six, and in UTF-8 U+00A0, U+1680,
    U+2000 to U+200A, U+2028, U+2029, U+202F, U+205F, U+3000 and U+FEFF.
    [skip_white_space] is [\s*] taken as far as it goes. *)
Definition ascii_white_space (c : ascii) : bool :=
  in_range 9 13 c || Ascii.eqb c " ".

Definition white_space_2 (c d : ascii) : bool :=
  Ascii.eqb c (ascii_of_N 194) && Ascii.eqb d (ascii_of_N 160).

Definition white_space_3 (c d e : ascii) : bool :=
  let x := N_of_ascii c in
  let y := N_of_ascii d in
  let z := N_of_ascii e in
  ((x =? 225) && (y =? 154) && (z =? 128) ||
   (x =? 226) && (y =? 128) &&
     ((128 <=? z) && (z <=? 138) || (z =? 168) || (z =? 169) || (z =? 175)) ||
   (x =? 226) && (y =? 129) && (z =? 159) ||
   (x =? 227) && (y =? 128) && (z =? 128) ||
   (x =? 239) && (y =? 187) && (z =? 191))%N.

Fixpoint skip_white_space (s : string) : string :=
  match s with
  | EmptyString => EmptyString
  | String c r =>
      if ascii_white_space c then skip_white_space r
      else
        match r with
        | String d r1 =>
            if white_space_2 c d then skip_white_space r1
            else
              match r1 with
              | String e r2 =>
                  if white_space_3 c d e then skip_white_space r2 else s
              | EmptyString => s
              end
        | EmptyString => s
        end
  end.

(** The tail of the pattern, tried at the start of [s]: white space, the
    key [sp\.onk], white space, [\=], white space, the group of
    characters other than [;], and [.*$]; the result is the group.  Each
    run of white space has to go as far as it can for the next character
    to match, the group runs to the next semicolon, and [.*$] reaches the
    end when no line terminator is in the way; a shorter group would leave
    the same line terminator in the way. *)
Definition key_value (s : string) : option string :=
  match strip_prefix organizationNameKeyCookieKey (skip_white_space s) with
  | Some r =>
      match skip_white_space r with
      | String c r' =>
          if Ascii.eqb c "=" then
            let body := skip_white_space r' in
            let group := take_until ";" body in
            if free_of_line_terminators (drop (String.length group) body)
            then Some group
            else None
          else None
      | EmptyString => None
      end
  | None => None
  end.

(** [.*;] and then the pattern above, tried at the start of [s]: the
    greedy [.*] stops before a line terminator and gives way from the
    right, so that the last semicolon that works is taken. *)
Fixpoint after_semicolon (s : string) : option string :=
  match s with
  | EmptyString => None
  | String c r =>
      if line_terminator_at s then None
      else
        match after_semicolon r with
        | Some g => Some g
        | None => if Ascii.eqb c ";" then key_value r else None
        end
  end.

(** The search for a match that starts after the first character: the
    text up to the match stays, the match becomes its group.  U+2028 and
    U+2029 are stepped over whole. *)
Fixpoint replace_later (s : string) : option string :=
  match after_semicolon s with
  | Some g => Some g
  | None =>
      match s with
      | EmptyString => None
      | String c r =>
          match r with
          | String d (String e r2) =>
              if line_terminator_at s && Ascii.eqb c (ascii_of_N 226)
              then option_map (fun x => String c (String d (String e x)))
                              (replace_later r2)
              else option_map (String c) (replace_later r)
          | _ => option_map (String c) (replace_later r)
          end
      end
  end.

(** [document.cookie.replace(new RegExp(...), '$1')] with the pattern of
    the source: at the start of the text or after [.*;] the tail above,
    or else [^.*$]; the key [sp.onk] is escaped as the source escapes
    it. *)
Definition replace_with_key_value (s : string) : string :=
  match key_value s with
  | Some g => g
  | None =>
      match after_semicolon s with
      | Some g => g
      | None =>
          if free_of_line_terminators s then EmptyString
          else
            match s with
            | EmptyString => EmptyString
            | String c r =>
                match
                  match r with
                  | String d (String e r2) =>
                      if line_terminator_at s && Ascii.eqb c (ascii_of_N 226)
                      then option_map (fun x => String c (String d (String e x)))
                                      (replace_later r2)
                      else option_map (String c) (replace_later r)
                  | _ => option_map (String c) (replace_later r)
                  end
                with
                | Some x => x
                | None => s
                end
            end
      end
  end.

Definition getCachedOrganizationNameKey : M value :=
  text <- read (fun w => document_cookie (page w)) ;;
  d <- lift (decodeURIComponent (replace_with_key_value text)) ;;
  ret (or_else (VStr d) VNull).

(** ** Vocabulary for the cookies of a jar *)

(** The text a cookie adds to [document.cookie] when others follow it. *)
Fixpoint cookie_texts (cs : list (string * string)) : string :=
  match cs with
  | [] => EmptyString
  | c :: rest => cookie_pair c ++ "; " ++ cookie_texts rest
  end.

(** A cookie that does not have the text [idSiteJwt=] in it. *)
Definition not_session (c : string * string) : bool :=
  negb (occurs "idSiteJwt=" (cookie_pair c)).

(** The characters of a cookie value: the printable ASCII characters
    other than the space, the double quote, the comma, the semicolon and
    the backslash. *)
Definition cookie_octet (c : ascii) : bool :=
  in_range 33 126 c &&
  negb (Ascii.eqb c (ascii_of_N 34) || Ascii.eqb c "," || Ascii.eqb c ";" ||
        Ascii.eqb c (ascii_of_N 92)).

(** A token that a cookie holds as it is: not empty, and made of the
    characters of a cookie value. *)
Definition cookie_safe (t : string) : bool :=
  negb (t =? "") && all_chars cookie_octet t.

(** A cookie that has neither the text [sp.onk] nor a line terminator. *)
Definition plain_cookie (c : string * string) : bool :=
  negb (occurs "sp.onk" (cookie_pair c)) &&
  free_of_line_terminators (cookie_pair c).

Definition organization_cookie (c : string * string) : bool :=
  fst c =? "sp.onk".

(** ** Vocabulary for the operations *)

(** The world once the executor has been handed the request [r]. *)
Definition handed (r : request) (w : world) : world :=
  {| page := page w;
     requestExecutor :=
       {| authToken := authToken (requestExecutor w);
          issued := issued (requestExecutor w) ++ [r] |} |}.

(** An operation that either throws with the world as it was, or returns
    with one request handed to the executor and nothing else changed. *)
Definition all_or_nothing (m : M unit) (w : world) : Prop :=
  (exists e, m w = (Throw e, w)) \/
  (exists r, m w = (Normal tt, handed r w)).

End Client.

(* ================================================================== *)
(** * The utilities with base64url                                     *)
(* ================================================================== *)

(** A second utilities module of the repository, whose [base64] object
    decodes base64url. *)
Module UtilsUrl.
Import Js.

Definition b64EncodeUnicode (str : string) : string :=
  btoa (unescape_octets (encodeURIComponent str)).

Definition base64urlToBase64 (base64 : string) : string :=
  replace_char "_" "/" (replace_char "-" "+" base64).

(** The alphabets: base64url differs from base64 in its last two
    characters. *)
Definition base64_alphabet (c : ascii) : bool :=
  in_range 65 90 c || in_range 97 122 c || is_digit c ||
  Ascii.eqb c "+" || Ascii.eqb c "/" || Ascii.eqb c "=".

Definition base64url_alphabet (c : ascii) : bool :=
  in_range 65 90 c || in_range 97 122 c || is_digit c ||
  Ascii.eqb c "-" || Ascii.eqb c "_" || Ascii.eqb c "=".

End UtilsUrl.

(* ================================================================== *)
(** * Sample data                                                      *)
(* ================================================================== *)

Module Samples.
Import Js Dom Utils Client.

Definition blank_page : browser :=
  {| href := "https://id.example.com/"; jar := []; assigned := [] |}.

(** A page reached with a token in the address while the session cookie
    is set, and one that only has the cookie. *)
Definition page_with_both : browser :=
  {| href := "https://id.example.com/?jwt=a.b%2Ec";
     jar := [("idSiteJwt", "x.y.z")];
     assigned := [] |}.

Definition page_with_cookie : browser :=
  {| href := "https://id.example.com/#/";
     jar := [("lang", "en"); ("idSiteJwt", "x.y.z")];
     assigned := [] |}.

(** A world whose executor holds the credential [t]. *)
Definition world_with (b : browser) (t : value) : world :=
  {| page := b; requestExecutor := IdSiteRequestExecutor t |}.

Definition no_options : options :=
  {| token := VUndefined; suppliedExecutor := None |}.

(** Claims of an application, with a direct single-use token. *)
Definition app_claims : value :=
  VObj [("app_href", VStr "https://x/v1/applications/app1");
        ("sp_token", VStr "tok")].

(** The same claims scoped to an organization: [asnk] and [ash]. *)
Definition org_claims : value :=
  VObj [("app_href", VStr "https://x/v1/applications/app1");
        ("sp_token", VStr "tok");
        ("asnk", VStr "org1");
        ("ash", VStr "https://x/v1/organizations/org1")].

(** The client [initialize] builds from [app_claims] and from
    [org_claims]. *)
Definition app_client : client :=
  {| jwt := "h.p.s"; jwtPayload := app_claims;
     appHref := "https://x/v1/applications/app1";
     sptoken := VStr "tok"; baseurl := "https://x/";
     idSiteParentResource := VStr "https://x/v1/applications/app1";
     requireMfa := VUndefined |}.

Definition org_client : client :=
  {| jwt := "h.p.s"; jwtPayload := org_claims;
     appHref := "https://x/v1/applications/app1";
     sptoken := VStr "tok"; baseurl := "https://x/";
     idSiteParentResource := VStr "https://x/v1/organizations/org1";
     requireMfa := VUndefined |}.

(** A platform that knows one base64 text, ["e30"] for ["{}"], and one
    JSON text, ["{}"]. *)
Definition table_platform : platform :=
  {| window_atob := fun s => if s =? "e30" then Normal "{}"
                             else Throw InvalidCharacterError;
     JSON_parse := fun s => if s =? "{}" then Normal (VObj [])
                            else Throw SyntaxError;
     Buffer_base64 := fun s => if s =? "e30" then Normal "{}"
                               else Throw (Error "Invalid string") |}.

(** Credentials of a federated login that also name a user, and
    credentials with a user and a password only. *)
Definition social_credentials : value :=
  VObj [("providerData",
         VObj [("providerId", VStr "google"); ("accessToken", VStr "abc")]);
        ("login", VStr "u");
        ("password", VStr "p");
        ("accountStore", VObj [("href", VStr "https://x/v1/directories/d1")])].

Definition password_credentials : value :=
  VObj [("login", VStr "u"); ("password", VStr "p")].

End Samples.

(* ================================================================== *)
(** * Properties                                                       *)
(* ================================================================== *)

Import Js Dom Utils Client Samples.

(** ** The runtime fragment *)

Lemma append_assoc (a b c : string) : (a ++ b) ++ c = a ++ b ++ c.
Proof. induction a as [|x a IH]; simpl; [reflexivity|now rewrite IH]. Qed.

Lemma append_nil_r (a : string) : a ++ "" = a.
Proof. induction a as [|x a IH]; simpl; [reflexivity|now rewrite IH]. Qed.

Lemma fold_or_else_truthy (l : list value) (a : value) :
  truthy a = true -> fold_left or_else l a = a.
Proof.
  revert a. induction l as [|x l IH]; intros a Ha; simpl.
  - reflexivity.
  - unfold or_else at 2. rewrite Ha. now apply IH.
Qed.

Lemma fold_or_else_skip (pre post : list value) (a x : value) :
  truthy a = false ->
  forallb (fun y => negb (truthy y)) pre = true ->
  truthy x = true ->
  fold_left or_else (pre ++ x :: post) a = x.
Proof.
  revert a. induction pre as [|p pre IH]; intros a Ha Hpre Hx; simpl.
  - unfold or_else at 2. rewrite Ha. now apply fold_or_else_truthy.
  - simpl in Hpre. apply andb_true_iff in Hpre as [Hp Hpre].
    apply negb_true_iff in Hp.
    unfold or_else at 2. rewrite Ha. now apply IH.
Qed.

(** [reduce(function (previous, current) { return previous || current })]
    picks the first truthy element. *)
Lemma array_reduce_first_truthy (pre post : list value) (x : value) :
  forallb (fun y => negb (truthy y)) pre = true ->
  truthy x = true ->
  array_reduce (pre ++ x :: post) or_else = Normal x.
Proof.
  intros Hpre Hx. destruct pre as [|p pre]; simpl.
  - now rewrite fold_or_else_truthy.
  - simpl in Hpre. apply andb_true_iff in Hpre as [Hp Hpre].
    apply negb_true_iff in Hp.
    now rewrite fold_or_else_skip.
Qed.

Lemma array_map_normal (f : value -> completion value) (g : value -> value)
      (l : list value) :
  (forall x, In x l -> f x = Normal (g x)) ->
  array_map (VArr l) f = Normal (map g l).
Proof.
  unfold array_map. induction l as [|x l IH]; intros H; simpl.
  - reflexivity.
  - rewrite (H x (or_introl eq_refl)). simpl.
    rewrite IH by (intros y Hy; apply H; now right). reflexivity.
Qed.

Lemma prop_readable (x : value) (k : string) :
  readable x = true -> exists v, prop x k = Normal v.
Proof.
  destruct x; simpl; try discriminate; intros _; eauto.
  - destruct (k =? "length"); eauto.
    destruct (index_of_key k); eauto. destruct (get n s); eauto.
  - destruct (k =? "length"); eauto. destruct (index_of_key k); eauto.
  - destruct (lookup k props); eauto.
Qed.

(** ** The password reset token *)

Lemma no_slash_app_slash (a b : string) : no_slash (a ++ String "/" b) = false.
Proof.
  induction a as [|c a IH]; simpl; [reflexivity|].
  rewrite IH. apply andb_false_r.
Qed.

(** [last_segment] is the text after the last slash. *)
Lemma last_segment_spec (pre seg : string) :
  seg <> "" -> no_slash seg = true ->
  last_segment seg = Some seg /\
  last_segment (pre ++ String "/" seg) = Some seg.
Proof.
  intros Hne Hseg.
  assert (Hlast : last_segment seg = Some seg).
  { destruct seg as [|c seg]; [congruence|].
    cbn [last_segment]. now rewrite Hseg. }
  split; [exact Hlast|].
  induction pre as [|c pre IH].
  - cbn [append last_segment no_slash Ascii.eqb Bool.eqb negb andb]. exact Hlast.
  - change (String c pre ++ String "/" seg) with (String c (pre ++ String "/" seg)).
    cbn [last_segment].
    change (no_slash (String c (pre ++ String "/" seg)))
      with (negb (Ascii.eqb c "/") && no_slash (pre ++ String "/" seg)).
    rewrite no_slash_app_slash, andb_false_r. exact IH.
Qed.

Lemma forallb_map_falsy (f : value -> value) (p : value -> bool) (l : list value) :
  (forall x, p x = true -> truthy (f x) = false) ->
  forallb p l = true ->
  forallb (fun y => negb (truthy y)) (map f l) = true.
Proof.
  intros Hf. induction l as [|x l IH]; simpl; intros H.
  - reflexivity.
  - apply andb_true_iff in H as [Hx Hl].
    rewrite (Hf x Hx). simpl. now apply IH.
Qed.

(** C1, as amended: when the claims have no truthy [sp_token], the
    application id is the last path segment of the application href, and
    [scope.application[id]] is an array of readable entries, the entries
    that carry no truthy [passwordResetToken] are skipped, the first truthy
    one wins, and when that one is an array whose first record is an object,
    the first key of the record is returned.  With the one-entry array
    [[{passwordResetToken: [{slug: {}}]}]] the result is [slug]. *)
Theorem getPasswordResetToken_first_record :
  forall (jwtPayload : value) (h appId : string)
         (before after skipped records : list value) (winner : value)
         (slug : string) (v : value) (more : list (string * value)),
    falsy_prop jwtPayload "sp_token" = true ->
    last_segment h = Some appId ->
    (scope <-? prop jwtPayload "scope" ;;
     applications <-? prop scope "application" ;;
     prop applications appId) = Normal (VArr (before ++ winner :: after)) ->
    forallb lacks_token before = true ->
    prop winner "passwordResetToken"
      = Normal (VArr (skipped ++ VObj ((slug, v) :: more) :: records)) ->
    forallb readable after = true ->
    forallb (fun x => negb (is_record x)) skipped = true ->
    getPasswordResetToken jwtPayload (VStr h) = Normal (VStr slug).
Proof.
  intros jwtPayload h appId before after skipped records winner slug v more
         Hsp Hseg Happ Hbefore Hwin Hafter Hskipped.
  unfold getPasswordResetToken.
  unfold falsy_prop in Hsp.
  destruct (prop jwtPayload "sp_token") as [sp|] eqn:Esp; [|discriminate].
  apply negb_true_iff in Hsp. simpl. rewrite Hsp. rewrite Hseg. simpl.
  destruct (prop jwtPayload "scope") as [scope|] eqn:Escope; [|discriminate].
  simpl in Happ |- *.
  destruct (prop scope "application") as [apps|] eqn:Eapps; [|discriminate].
  simpl in Happ |- *. rewrite Happ. simpl cbind at 1.
  pose (token_of := fun x => match prop x "passwordResetToken" with
                             | Normal t => t
                             | Throw _ => VUndefined
                             end).
  rewrite (array_map_normal _ token_of).
  2:{ intros x Hx. unfold token_of.
      apply in_app_or in Hx as [Hx|[Hx|Hx]].
      - rewrite forallb_forall in Hbefore. specialize (Hbefore x Hx).
        unfold lacks_token, falsy_prop in Hbefore.
        destruct (prop x "passwordResetToken"); [reflexivity|discriminate].
      - subst x. now rewrite Hwin.
      - rewrite forallb_forall in Hafter.
        destruct (prop_readable x "passwordResetToken" (Hafter x Hx)) as [t Ht].
        now rewrite Ht. }
  simpl cbind at 1. rewrite map_app. simpl map.
  assert (Hw : token_of winner
               = VArr (skipped ++ VObj ((slug, v) :: more) :: records))
    by (unfold token_of; now rewrite Hwin).
  rewrite array_reduce_first_truthy.
  2:{ apply forallb_map_falsy with (p := lacks_token); [|assumption].
      intros x Hx. unfold lacks_token, falsy_prop in Hx. unfold token_of.
      destruct (prop x "passwordResetToken"); [|discriminate].
      now apply negb_true_iff. }
  2:{ now rewrite Hw. }
  simpl cbind at 1. rewrite Hw.
  rewrite (array_map_normal _
             (fun contents => if typeof contents =? "object" then contents else VNull))
    by reflexivity.
  simpl cbind at 1. rewrite map_app. simpl map.
  rewrite array_reduce_first_truthy.
  - reflexivity.
  - apply forallb_map_falsy with (p := fun x => negb (is_record x)); [|assumption].
    intros x Hx. apply negb_true_iff in Hx. unfold is_record in Hx.
    destruct (typeof x =? "object"); [exact Hx|reflexivity].
  - reflexivity.
Qed.

Lemma getPasswordResetToken_first_record_witness :
  getPasswordResetToken
    (VObj [("app_href", VStr "https://x/v1/applications/app1");
           ("scope",
            VObj [("application",
                   VObj [("app1",
                          VArr [VObj [("passwordResetToken",
                                       VArr [VObj [("slug123", VObj [])]])]])])])])
    (VStr "https://x/v1/applications/app1")
  = Normal (VStr "slug123").
Proof.
  apply (getPasswordResetToken_first_record _ _ "app1" [] [] [] []
           (VObj [("passwordResetToken", VArr [VObj [("slug123", VObj [])]])])
           "slug123" (VObj []) []); reflexivity.
Defined.

(** C1, as the claim words it, fails: with [passwordResetToken] holding the
    record [{slug123: {}}] itself rather than an array of records, the
    second [.map] has no array to work on and a [TypeError] is thrown; and
    a [null] entry, which has no field to read, is not skipped: reading it
    throws. *)
Lemma getPasswordResetToken_bare_record_throws :
  let jwtPayload :=
    VObj [("app_href", VStr "https://x/v1/applications/app1");
          ("scope",
           VObj [("application",
                  VObj [("app1",
                         VArr [VObj [("passwordResetToken",
                                      VObj [("slug123", VObj [])])]])])])] in
  prop jwtPayload "sp_token" = Normal VUndefined /\
  last_segment "https://x/v1/applications/app1" = Some "app1" /\
  (scope <-? prop jwtPayload "scope" ;;
   applications <-? prop scope "application" ;;
   prop applications "app1")
    = Normal (VArr [VObj [("passwordResetToken", VObj [("slug123", VObj [])])]]) /\
  getPasswordResetToken jwtPayload (VStr "https://x/v1/applications/app1")
    = Throw TypeError /\
  getPasswordResetToken jwtPayload (VStr "https://x/v1/applications/app1")
    <> Normal (VStr "slug123") /\
  getPasswordResetToken
    (VObj [("scope",
            VObj [("application",
                   VObj [("app1",
                          VArr [VNull;
                                VObj [("passwordResetToken",
                                       VArr [VObj [("slug123", VObj [])]])]])])])])
    (VStr "https://x/v1/applications/app1")
    = Throw TypeError.
Proof.
  cbv zeta. repeat split; try reflexivity. discriminate.
Qed.

(** ** The base URL *)

Lemma before_first_version_nonempty (s p : string) :
  before_first_version s = Some p -> s <> EmptyString.
Proof. destruct s; [discriminate|discriminate]. Qed.

Lemma before_first_version_cons (c : ascii) (s p : string) :
  version_at (String c s) = false ->
  before_first_version (String c s) = Some p ->
  exists p', p = String c p' /\ before_first_version s = Some p'.
Proof.
  intros Hv H. cbn [before_first_version] in H. rewrite Hv in H.
  destruct (before_first_version s) as [p'|]; [|discriminate].
  injection H as <-. eauto.
Qed.

Lemma version_at_slash (c : ascii) (s : string) :
  version_at (String c s) = true -> c = "/"%char.
Proof.
  destruct s as [|b [|d [|e rest]]]; try discriminate.
  unfold version_at. intros H.
  repeat (apply andb_true_iff in H as [H ?]).
  now apply Ascii.eqb_eq.
Qed.

(** Whether a line terminator starts at a character is settled by that
    character and the next two, which the prefix shares with the string. *)
Lemma line_terminator_at_prefix (c : ascii) (s p : string) :
  before_first_version s = Some p ->
  line_terminator_at (String c s) = line_terminator_at (String c p).
Proof.
  intros H.
  destruct s as [|d s1]; [discriminate|].
  destruct (version_at (String d s1)) eqn:Hv.
  - cbn [before_first_version] in H. rewrite Hv in H. injection H as <-.
    apply version_at_slash in Hv as ->.
    destruct s1 as [|e s2]; cbn; [reflexivity|].
    now rewrite andb_false_r.
  - destruct (before_first_version_cons _ _ _ Hv H) as (p1 & -> & H1).
    destruct s1 as [|e s2]; [discriminate|].
    destruct (version_at (String e s2)) eqn:Hv1.
    + cbn [before_first_version] in H1. rewrite Hv1 in H1. injection H1 as <-.
      apply version_at_slash in Hv1 as ->. reflexivity.
    + destruct (before_first_version_cons _ _ _ Hv1 H1) as (p2 & -> & _).
      reflexivity.
Qed.

Lemma lazy_until_version_spec (s p : string) :
  before_first_version s = Some p ->
  free_of_line_terminators p = true ->
  lazy_until_version s = Some p.
Proof.
  revert p. induction s as [|c s IH]; intros p H Hfree; [discriminate|].
  cbn [lazy_until_version].
  destruct (version_at (String c s)) eqn:Hv.
  - cbn [before_first_version] in H. now rewrite Hv in H.
  - destruct (before_first_version_cons _ _ _ Hv H) as (p' & -> & H').
    cbn [free_of_line_terminators] in Hfree.
    apply andb_true_iff in Hfree as [Hc Hfree]. apply negb_true_iff in Hc.
    rewrite (line_terminator_at_prefix c s p' H'), Hc.
    now rewrite (IH p' H' Hfree).
Qed.

(** C6, as amended: when the first version segment [/v<digit>/] of the
    application href has at least one character before it and no line
    terminator, the base URL is the prefix of the href up to and including
    the slash that opens that segment; for
    ["https://x/v1/applications/app1"] it is ["https://x/"]. *)
Theorem derive_baseurl_before_first_version :
  forall (h p : string),
    before_first_version h = Some p ->
    version_at h = false ->
    free_of_line_terminators p = true ->
    derive_baseurl (VStr h) = Normal p.
Proof.
  intros h p H Hv Hfree.
  destruct h as [|c s]; [discriminate|].
  destruct (before_first_version_cons _ _ _ Hv H) as (p' & -> & H').
  cbn [free_of_line_terminators] in Hfree.
  apply andb_true_iff in Hfree as [Hc Hfree]. apply negb_true_iff in Hc.
  unfold derive_baseurl. cbn [as_string cbind base_prefix].
  rewrite (line_terminator_at_prefix c s p' H'), Hc.
  now rewrite (lazy_until_version_spec s p' H' Hfree).
Qed.

Lemma derive_baseurl_before_first_version_witness :
  derive_baseurl (VStr "https://x/v1/applications/app1") = Normal "https://x/".
Proof.
  apply (derive_baseurl_before_first_version
           "https://x/v1/applications/app1" "https://x/"); reflexivity.
Defined.

(** C6, as the claim words it, fails for an href that starts with its
    version segment: the prefix before the first [/v<digit>/] is ["/"], but
    [.+?] wants a character before the slash, so the match is [null] and
    reading its group throws; when a second version segment follows, the
    base URL runs up to that one; and a line feed before the segment, which
    [.] does not pass, leaves no match either. *)
Lemma derive_baseurl_leading_version :
  before_first_version "/v1/applications/app1" = Some "/" /\
  derive_baseurl (VStr "/v1/applications/app1") = Throw TypeError /\
  derive_baseurl (VStr "/v1/applications/app1") <> Normal "/" /\
  before_first_version "/v1/v2/app1" = Some "/" /\
  derive_baseurl (VStr "/v1/v2/app1") = Normal "/v1/" /\
  before_first_version (String "x" (String "010" "/v1/app1"))
    = Some (String "x" (String "010" "/")) /\
  derive_baseurl (VStr (String "x" (String "010" "/v1/app1"))) = Throw TypeError.
Proof.
  repeat split; try reflexivity. discriminate.
Qed.

(** ** The constructor *)

Lemma bind_lift {A B} (c : completion A) (k : A -> M B) (w : world) :
  bind (lift c) k w = match c with
                      | Normal a => k a w
                      | Throw e => (Throw e, w)
                      end.
Proof. unfold bind, lift. now destruct c. Qed.

Lemma as_string_inv (v : value) (s : string) :
  as_string v = Normal s -> v = VStr s.
Proof. destruct v; simpl; try discriminate. now intros [= ->]. Qed.

(** What a completed construction says about the fields of the client. *)
Lemma initialize_fields (opts : options) (jwt0 : string) (jwtPayload0 : value)
      (w w' : world) (self : client) :
  initialize opts jwt0 jwtPayload0 w = (Normal (Constructed self), w') ->
  prop jwtPayload0 "app_href" = Normal (VStr (appHref self)) /\
  getPasswordResetToken jwtPayload0 (VStr (appHref self)) = Normal (sptoken self) /\
  derive_baseurl (VStr (appHref self)) = Normal (baseurl self) /\
  exists asnk ash,
    prop jwtPayload0 "asnk" = Normal asnk /\
    prop jwtPayload0 "ash" = Normal ash /\
    idSiteParentResource self = (if truthy asnk then ash else VStr (appHref self)).
Proof.
  unfold initialize. intros H.
  rewrite bind_lift in H.
  destruct (prop jwtPayload0 "app_href") as [a|] eqn:Ea; [|discriminate].
  rewrite bind_lift in H.
  destruct (getPasswordResetToken jwtPayload0 a) as [sp|] eqn:Esp; [|discriminate].
  rewrite bind_lift in H.
  destruct (derive_baseurl a) as [b|] eqn:Eb; [|discriminate].
  rewrite bind_lift in H.
  destruct (as_string a) as [h|] eqn:Eh; [|discriminate].
  apply as_string_inv in Eh. subst a.
  rewrite bind_lift in H.
  destruct (prop jwtPayload0 "onk") as [onk|] eqn:Eonk; [|discriminate].
  unfold bind at 1 in H.
  destruct ((if truthy onk then setCachedOrganizationNameKey onk else ret tt) w)
    as [[[]|e] w1] eqn:E1; [|discriminate].
  rewrite bind_lift in H.
  destruct (prop jwtPayload0 "asnk") as [asnk|] eqn:Easnk; [|discriminate].
  rewrite bind_lift in H.
  destruct (prop jwtPayload0 "ash") as [ash|] eqn:Eash; [|discriminate].
  rewrite bind_lift in H.
  destruct (prop jwtPayload0 "require_mfa") as [mfa|] eqn:Emfa; [|discriminate].
  unfold bind at 1 in H. rewrite bind_lift in H.
  destruct (concat _ _) as [target|] eqn:Et; [|discriminate].
  unfold bind, execute, ret in H. injection H as <- _.
  cbn. repeat split; try assumption. exists asnk, ash. now repeat split.
Qed.

Example initialize_app_claims :
  fst (initialize no_options "h.p.s" app_claims (world_with blank_page VUndefined))
  = Normal (Constructed app_client).
Proof. reflexivity. Qed.

Example initialize_org_claims :
  fst (initialize no_options "h.p.s" org_claims (world_with blank_page VUndefined))
  = Normal (Constructed org_client).
Proof. reflexivity. Qed.

(** ** Operations after the handshake *)

(** C4, as amended: for every client whose claims carry a truthy [asnk],
    so that its parent resource is the [ash] of the claims,
    [sendPasswordResetEmail] issues its POST to the application href
    suffixed with [/passwordResetTokens]; the parent resource is not
    used. *)
Theorem sendPasswordResetEmail_posts_to_appHref :
  forall (opts : options) (jwt0 : string) (jwtPayload0 : value) (w w' : world)
         (self : client) (asnk emailOrObject : value) (w1 : world),
    initialize opts jwt0 jwtPayload0 w = (Normal (Constructed self), w') ->
    prop jwtPayload0 "asnk" = Normal asnk ->
    truthy asnk = true ->
    (typeof emailOrObject =? "string") || (typeof emailOrObject =? "object") = true ->
    prop jwtPayload0 "ash" = Normal (idSiteParentResource self) /\
    sendPasswordResetEmail self emailOrObject w1
    = execute {| method := "POST";
                 url := appHref self ++ "/passwordResetTokens";
                 json := if typeof emailOrObject =? "string"
                         then VObj [("email", emailOrObject)]
                         else emailOrObject |} w1.
Proof.
  intros opts jwt0 jwtPayload0 w w' self asnk e w1 Hinit Hasnk Htruthy Htype.
  destruct (initialize_fields _ _ _ _ _ _ Hinit)
    as (_ & _ & _ & asnk' & ash & Ha & Hash & Hparent).
  rewrite Hasnk in Ha. injection Ha as <-. rewrite Htruthy in Hparent.
  split.
  - now rewrite Hparent.
  - unfold sendPasswordResetEmail.
    destruct (typeof e =? "string"); [reflexivity|].
    simpl in Htype. now rewrite Htype.
Qed.

Lemma sendPasswordResetEmail_posts_to_appHref_witness :
  prop org_claims "ash" = Normal (idSiteParentResource org_client) /\
  sendPasswordResetEmail org_client (VStr "jo@example.com")
    (world_with blank_page (VStr "t"))
  = execute {| method := "POST";
               url := "https://x/v1/applications/app1/passwordResetTokens";
               json := VObj [("email", VStr "jo@example.com")] |}
      (world_with blank_page (VStr "t")).
Proof.
  apply (sendPasswordResetEmail_posts_to_appHref
            no_options "h.p.s" org_claims (world_with blank_page VUndefined)
            (snd (initialize no_options "h.p.s" org_claims
                    (world_with blank_page VUndefined)))
            org_client (VStr "org1") (VStr "jo@example.com")
            (world_with blank_page (VStr "t"))); reflexivity.
Defined.

(** C4, as the claim words it, fails: the client built from claims with
    [asnk] has the organization as its parent resource, and the POST still
    goes to the application. *)
Lemma sendPasswordResetEmail_not_to_parent_resource :
  fst (initialize no_options "h.p.s" org_claims (world_with blank_page VUndefined))
    = Normal (Constructed org_client) /\
  (asnk <-? prop org_claims "asnk" ;; Normal (truthy asnk)) = Normal true /\
  prop org_claims "ash" = Normal (idSiteParentResource org_client) /\
  idSiteParentResource org_client = VStr "https://x/v1/organizations/org1" /\
  map url (issued (requestExecutor (snd
    (sendPasswordResetEmail org_client (VStr "jo@example.com")
       (world_with blank_page (VStr "t"))))))
    = ["https://x/v1/applications/app1/passwordResetTokens"] /\
  "https://x/v1/applications/app1/passwordResetTokens"
    <> "https://x/v1/organizations/org1" ++ "/passwordResetTokens".
Proof.
  repeat split; try reflexivity. discriminate.
Qed.

(** The neighbours of [sendPasswordResetEmail]: registration goes to the
    parent resource, the check of a reset token to the application. *)
Example register_posts_to_parent_resource :
  map url (issued (requestExecutor (snd
    (register org_client (VObj [("email", VStr "jo@example.com")])
       (world_with blank_page (VStr "t"))))))
  = ["https://x/v1/organizations/org1/accounts"].
Proof. reflexivity. Qed.

Example verifyPasswordResetToken_gets_from_appHref :
  map url (issued (requestExecutor (snd
    (verifyPasswordResetToken org_client true (world_with blank_page (VStr "t"))))))
  = ["https://x/v1/applications/app1/passwordResetTokens/tok"].
Proof. reflexivity. Qed.

(** C7, as amended: for every client, [verifyEmailToken] issues a POST
    whose URL is the base URL derived from the application href, then
    ["v1/accounts/emailVerificationTokens/"], then the single-use token;
    for the href ["https://x/v1/applications/app1"] and the token ["tok"]
    that is
    ["https://x/v1/accounts/emailVerificationTokens/tok"]. *)
Theorem verifyEmailToken_url :
  forall (opts : options) (jwt0 : string) (jwtPayload0 : value) (w w' : world)
         (self : client) (tok : string) (w1 : world),
    initialize opts jwt0 jwtPayload0 w = (Normal (Constructed self), w') ->
    to_string (sptoken self) = Normal tok ->
    derive_baseurl (VStr (appHref self)) = Normal (baseurl self) /\
    verifyEmailToken self true w1
    = execute {| method := "POST";
                 url := baseurl self ++ "v1/accounts/emailVerificationTokens/" ++ tok;
                 json := VUndefined |} w1.
Proof.
  intros opts jwt0 jwtPayload0 w w' self tok w1 Hinit Htok.
  destruct (initialize_fields _ _ _ _ _ _ Hinit) as (_ & _ & Hbase & _).
  split; [assumption|].
  unfold verifyEmailToken. cbn [negb]. rewrite bind_lift.
  unfold concat. cbn [to_string cbind]. rewrite Htok. cbn [cbind].
  now rewrite append_assoc.
Qed.

Lemma verifyEmailToken_url_witness :
  derive_baseurl (VStr "https://x/v1/applications/app1") = Normal "https://x/" /\
  verifyEmailToken app_client true (world_with blank_page (VStr "t"))
  = execute {| method := "POST";
               url := "https://x/v1/accounts/emailVerificationTokens/tok";
               json := VUndefined |}
      (world_with blank_page (VStr "t")).
Proof.
  apply (verifyEmailToken_url
            no_options "h.p.s" app_claims (world_with blank_page VUndefined)
            (snd (initialize no_options "h.p.s" app_claims
                    (world_with blank_page VUndefined)))
            app_client "tok" (world_with blank_page (VStr "t"))); reflexivity.
Defined.

(** C7, as the claim words it, fails: the URL has [v1] between the base
    URL and [accounts], and no slash is added after the base URL. *)
Lemma verifyEmailToken_url_has_version :
  fst (initialize no_options "h.p.s" app_claims (world_with blank_page VUndefined))
    = Normal (Constructed app_client) /\
  baseurl app_client = "https://x/" /\
  sptoken app_client = VStr "tok" /\
  map url (issued (requestExecutor (snd
    (verifyEmailToken app_client true (world_with blank_page (VStr "t"))))))
    = ["https://x/v1/accounts/emailVerificationTokens/tok"] /\
  "https://x/v1/accounts/emailVerificationTokens/tok"
    <> "https://x/" ++ "/accounts/emailVerificationTokens/" ++ "tok".
Proof.
  repeat split; try reflexivity. discriminate.
Qed.

(** ** The handshake *)

(** C2: when the handshake comes back without an error and the executor
    holds no credential, the callback gets the [NO_AUTH_TOKEN_HEADER] error
    and the world is as it was: nothing was assigned to
    [document.cookie]. *)
Theorem handshake_without_credential :
  forall (opts : options) (err application : value) (w : world),
    truthy err = false ->
    truthy (authToken (requestExecutor w)) = false ->
    handshake_callback opts err application w
      = (Normal [Err NO_AUTH_TOKEN_HEADER], w) /\
    assigned (page (snd (handshake_callback opts err application w)))
      = assigned (page w).
Proof.
  intros opts err application w Herr Htoken.
  assert (H : handshake_callback opts err application w
              = (Normal [Err NO_AUTH_TOKEN_HEADER], w)).
  { unfold handshake_callback. rewrite Herr.
    unfold bind, getSessionToken, read. now rewrite Htoken. }
  split; [exact H|now rewrite H].
Qed.

Lemma handshake_without_credential_witness :
  handshake_callback no_options VNull
    (VObj [("idSiteModel", VObj []); ("customData", VObj [])])
    (world_with blank_page VUndefined)
    = (Normal [Err NO_AUTH_TOKEN_HEADER], world_with blank_page VUndefined) /\
  assigned (page (snd (handshake_callback no_options VNull
    (VObj [("idSiteModel", VObj []); ("customData", VObj [])])
    (world_with blank_page VUndefined)))) = [].
Proof.
  apply (handshake_without_credential no_options VNull
           (VObj [("idSiteModel", VObj []); ("customData", VObj [])])
           (world_with blank_page VUndefined)); reflexivity.
Defined.

(** With a credential in place the same response has the cookie written. *)
Example handshake_with_credential :
  handshake_callback no_options VNull
    (VObj [("idSiteModel", VObj []); ("customData", VObj [])])
    (world_with blank_page (VStr "a.b.c"))
  = (Normal [Val VNull; Val (VObj []); Val (VObj [])],
     {| page := {| href := "https://id.example.com/";
                   jar := [("idSiteJwt", "a.b.c")];
                   assigned := ["idSiteJwt=a.b.c"] |};
        requestExecutor := IdSiteRequestExecutor (VStr "a.b.c") |}).
Proof. reflexivity. Qed.

(** ** Where the token comes from *)

Lemma strip_prefix_spec (p s r : string) :
  strip_prefix p s = Some r -> s = p ++ r.
Proof.
  revert s. induction p as [|a p IH]; intros s H; simpl in *.
  - now injection H as ->.
  - destruct s as [|b s]; [discriminate|].
    destruct (Ascii.eqb_spec a b) as [->|]; [|discriminate].
    now rewrite (IH s H).
Qed.

Lemma take_until_spec (stop : ascii) (s : string) :
  mem_char stop (take_until stop s) = false /\
  exists rest, s = take_until stop s ++ rest /\
               (rest = "" \/ exists rest', rest = String stop rest').
Proof.
  induction s as [|c s (Hmem & rest & Hs & Hrest)]; simpl.
  - split; [reflexivity|]. exists "". split; [reflexivity|now left].
  - destruct (Ascii.eqb_spec c stop) as [->|Hne].
    + split; [reflexivity|]. exists (String stop s). split; [reflexivity|].
      right. now exists s.
    + split.
      * simpl. rewrite Hmem, orb_false_r.
        apply Ascii.eqb_neq. congruence.
      * exists rest. split; [|assumption]. simpl. now rewrite <- Hs.
Qed.

Lemma capture_here_sound (lit : string) (stop : ascii) (s v : string) :
  capture_here lit stop s = Some v ->
  v <> "" /\ mem_char stop v = false /\
  exists rest,
    s = lit ++ v ++ rest /\ (rest = "" \/ exists rest', rest = String stop rest').
Proof.
  unfold capture_here. intros E.
  destruct (strip_prefix lit s) as [r|] eqn:Er; [|discriminate].
  destruct (take_until_spec stop r) as (Hmem & rest & Hr & Hrest).
  destruct (take_until stop r) as [|x t] eqn:Et; [discriminate|].
  injection E as <-. repeat split; [discriminate|assumption|].
  exists rest. split; [|assumption].
  rewrite <- Hr. now apply strip_prefix_spec.
Qed.

(** What [capture] finds is there: the literal, then the value, a
    non-empty run free of the stop character, which the end of the text
    or the stop character closes. *)
Lemma capture_sound (lit : string) (stop : ascii) (s v : string) :
  capture lit stop s = Some v ->
  v <> "" /\ mem_char stop v = false /\
  exists before rest,
    s = before ++ lit ++ v ++ rest /\
    (rest = "" \/ exists rest', rest = String stop rest').
Proof.
  induction s as [|c s IH]; cbn [capture]; intros H.
  - destruct (capture_here lit stop "") as [v'|] eqn:E; [|discriminate].
    injection H as ->.
    destruct (capture_here_sound _ _ _ _ E) as (Hv & Hmem & rest & Hs & Hrest).
    repeat split; try assumption. now exists "", rest.
  - destruct (capture_here lit stop (String c s)) as [v'|] eqn:E.
    + injection H as ->.
      destruct (capture_here_sound _ _ _ _ E) as (Hv & Hmem & rest & Hs & Hrest).
      repeat split; try assumption. now exists "", rest.
    + destruct (IH H) as (Hv & Hmem & before & rest & Hs & Hrest).
      repeat split; try assumption.
      exists (String c before), rest. split; [|assumption].
      simpl. now rewrite Hs.
Qed.

Lemma strip_prefix_app (p r : string) : strip_prefix p (p ++ r) = Some r.
Proof.
  induction p as [|a p IH]; simpl; [reflexivity|].
  now rewrite Ascii.eqb_refl.
Qed.

Lemma take_until_app (stop : ascii) (v rest : string) :
  mem_char stop v = false ->
  (rest = "" \/ exists rest', rest = String stop rest') ->
  take_until stop (v ++ rest) = v.
Proof.
  intros Hmem Hrest. induction v as [|c v IH]; simpl.
  - destruct Hrest as [->|[rest' ->]]; [reflexivity|].
    simpl. now rewrite Ascii.eqb_refl.
  - simpl in Hmem. apply orb_false_iff in Hmem as [Hc Hv].
    rewrite Ascii.eqb_sym, Hc. now rewrite IH.
Qed.

(** A value that follows the literal at the very start is found. *)
Lemma capture_at_start (lit : string) (stop : ascii) (v rest : string) :
  v <> "" ->
  mem_char stop v = false ->
  (rest = "" \/ exists rest', rest = String stop rest') ->
  capture lit stop (lit ++ v ++ rest) = Some v.
Proof.
  intros Hne Hmem Hrest.
  assert (H : capture_here lit stop (lit ++ v ++ rest) = Some v).
  { unfold capture_here. rewrite strip_prefix_app, take_until_app by assumption.
    destruct v; [congruence|reflexivity]. }
  destruct (lit ++ v ++ rest); cbn [capture]; now rewrite H.
Qed.

(** The session cookie, when it heads the jar, is what [getCookie]
    returns. *)
Lemma getCookie_first_cookie (v : string) (others : list (string * string))
      (h : string) (log : list string) :
  v <> "" ->
  mem_char ";" v = false ->
  getCookie "idSiteJwt"
    {| href := h; jar := ("idSiteJwt", v) :: others; assigned := log |}
  = VStr v.
Proof.
  intros Hne Hmem. unfold getCookie, document_cookie.
  cbn [jar map cookie_pair fst snd join].
  destruct (map cookie_pair others) as [|o rest].
  - replace ("idSiteJwt" ++ "=" ++ v) with (("idSiteJwt" ++ "=") ++ v ++ "")
      by (now rewrite append_nil_r).
    rewrite capture_at_start; auto.
  - replace (("idSiteJwt" ++ "=" ++ v) ++ "; " ++ join "; " (o :: rest))
      with (("idSiteJwt" ++ "=") ++ v ++ String ";" (" " ++ join "; " (o :: rest))).
    + rewrite capture_at_start; eauto.
    + reflexivity.
Qed.

Lemma store_cookie_value (name val : string) (cs : list (string * string)) :
  cookie_value name (store name val cs) = Some val.
Proof.
  induction cs as [|[n v] cs IH]; simpl.
  - now rewrite String.eqb_refl.
  - destruct (n =? name) eqn:E; simpl; now rewrite E.
Qed.


(** The address loses the parameter that was read. *)
Example getJwtFromUrl_strips_parameter :
  href (page (snd (getJwtFromUrl (world_with page_with_both VUndefined))))
  = "https://id.example.com/".
Proof. reflexivity. Qed.

(** ** Decoding the token *)

Lemma split_nonempty (sep : ascii) (s : string) : split sep s <> [].
Proof.
  destruct s as [|c s]; simpl; [discriminate|].
  destruct (Ascii.eqb c sep); [discriminate|].
  destruct (split sep s); discriminate.
Qed.

(** The pieces of a split are one more than the separators. *)
Lemma split_length (sep : ascii) (s : string) :
  List.length (split sep s) = S (occurrences sep s).
Proof.
  induction s as [|c s IH]; simpl; [reflexivity|].
  destruct (Ascii.eqb c sep); simpl; [now rewrite IH|].
  destruct (split sep s) as [|seg segs] eqn:E; [now destruct (split_nonempty sep s)|].
  exact IH.
Qed.

(** Lines 34 to 38 on their own: a segment count other than two or three
    ends decoding with the deferred [NOT_A_JWT]. *)
Lemma decode_segment_count (P : platform) (opts : options) (raw : string)
      (w : world) :
  List.length (split "." raw) <> 2 ->
  List.length (split "." raw) <> 3 ->
  decode P opts raw w = (Normal (Deferred [Err NOT_A_JWT]), w).
Proof.
  intros H2 H3. unfold decode.
  destruct (Nat.ltb_spec (List.length (split "." raw)) 2);
    destruct (Nat.ltb_spec 3 (List.length (split "." raw)));
    try reflexivity; lia.
Qed.

(** C5, as amended: for every non-empty token string, given in the
    options or found in the address or the cookie, whose split on [.] does
    not give two or three segments, decoding fails and the completion
    callback is handed, deferred, the [NOT_A_JWT] error. *)
Theorem Client_rejects_segment_count :
  forall (P : platform) (opts : options) (raw : string) (w0 w : world),
    resolve_jwt opts w0 = (Normal (VStr raw), w) ->
    raw <> "" ->
    List.length (split "." raw) <> 2 ->
    List.length (split "." raw) <> 3 ->
    Client P opts w0 = (Normal (Deferred [Err NOT_A_JWT]), w).
Proof.
  intros P opts raw w0 w Hres Hne H2 H3.
  unfold Client, bind. rewrite Hres.
  assert (Ht : truthy (VStr raw) = true) by (destruct raw; [congruence|reflexivity]).
  rewrite Ht. cbn [negb as_string lift].
  now apply decode_segment_count.
Qed.

Lemma Client_rejects_segment_count_witness :
  Client table_platform {| token := VStr "a.b.c.d"; suppliedExecutor := None |}
    (world_with page_with_both VUndefined)
  = (Normal (Deferred [Err NOT_A_JWT]), world_with page_with_both VUndefined).
Proof.
  apply (Client_rejects_segment_count table_platform
           {| token := VStr "a.b.c.d"; suppliedExecutor := None |}
           "a.b.c.d" (world_with page_with_both VUndefined)
           (world_with page_with_both VUndefined));
    [reflexivity | discriminate | simpl; lia | simpl; lia].
Defined.

(** C5, as the claim words it, fails for the empty string: it splits into
    one segment, but an empty token counts as no token, the address and the
    cookie are asked instead, and when they have none the callback is
    handed [JWT_NOT_FOUND]. *)
Lemma Client_empty_token_not_found :
  List.length (split "." "") = 1 /\
  Client table_platform {| token := VStr ""; suppliedExecutor := None |}
    (world_with blank_page VUndefined)
    = (Normal (Deferred [Err JWT_NOT_FOUND]), world_with blank_page VUndefined) /\
  Client table_platform {| token := VStr ""; suppliedExecutor := None |}
    (world_with blank_page VUndefined)
    <> (Normal (Deferred [Err NOT_A_JWT]), world_with blank_page VUndefined).
Proof.
  repeat split; try reflexivity. discriminate.
Qed.

(** The constructor reports a missing token before it decodes anything. *)
Example Client_without_token :
  Client table_platform no_options (world_with blank_page VUndefined)
  = (Normal (Deferred [Err JWT_NOT_FOUND]), world_with blank_page VUndefined).
Proof. reflexivity. Qed.

(** Two segments pass the check, and the claims are looked for in the
    second. *)
Example Client_two_segments :
  fst (Client table_platform {| token := VStr "e30.e30"; suppliedExecutor := None |}
         (world_with blank_page VUndefined))
  = Throw TypeError.
Proof. reflexivity. Qed.

(** ** login *)

Lemma assign_lookup (k : string) (x : value) (props : list (string * value)) :
  lookup k props = Some x -> assign k x props = props.
Proof.
  induction props as [|[k' v] props IH]; simpl; [discriminate|].
  destruct (k' =? k).
  - now intros [= ->].
  - intros H. now rewrite IH.
Qed.

(** Writing back the value a property has changes nothing. *)
Lemma set_prop_same (o : value) (k : string) (x : value) :
  prop o k = Normal x -> truthy x = true -> set_prop o k x = o.
Proof.
  destruct o; simpl; try reflexivity.
  destruct (lookup k props) as [y|] eqn:E.
  - intros [= ->] _. now rewrite assign_lookup.
  - intros [= <-]. discriminate.
Qed.

(** C8: [login] called with an object that has neither a [login] nor a
    [providerData] field throws, and the world is as it was: no request was
    handed to the executor. *)
Theorem login_without_credentials_throws :
  forall (self : client) (credentials options : value) (w : world),
    typeof credentials = "object" ->
    has_field credentials "login" = false ->
    has_field credentials "providerData" = false ->
    login self credentials options w
      = (Throw (Error (if truthy credentials
                       then "unsupported credentials object"
                       else "must provide an object")), w) /\
    issued (requestExecutor (snd (login self credentials options w)))
      = issued (requestExecutor w).
Proof.
  intros self credentials options w Htype Hlogin Hprovider.
  assert (H : login self credentials options w
              = (Throw (Error (if truthy credentials
                               then "unsupported credentials object"
                               else "must provide an object")), w)).
  { unfold has_field in Hlogin, Hprovider.
    destruct credentials as [| | | | |items|props]; try discriminate Htype.
    - reflexivity.
    - reflexivity.
    - unfold login, login_data, bind, lift. cbn in Hlogin, Hprovider |- *.
      destruct (lookup "providerData" props) as [[]|]; try discriminate Hprovider;
        destruct (lookup "login" props) as [[]|]; try discriminate Hlogin;
        reflexivity. }
  split; [exact H|now rewrite H].
Qed.

Lemma login_without_credentials_throws_witness :
  login app_client (VObj []) VUndefined (world_with blank_page (VStr "t"))
    = (Throw (Error "unsupported credentials object"),
       world_with blank_page (VStr "t")) /\
  issued (requestExecutor (snd
    (login app_client (VObj []) VUndefined (world_with blank_page (VStr "t"))))) = [].
Proof.
  apply (login_without_credentials_throws app_client (VObj []) VUndefined
           (world_with blank_page (VStr "t"))); reflexivity.
Defined.

(** C10: when the credentials carry a truthy [providerData], the body of
    the request is the credentials object itself, unchanged, whatever it
    holds as [login]; the basic payload, base64 of [login:password], is
    built only when [providerData] is absent, that is, not truthy. *)
Theorem login_providerData_precedence :
  forall (self : client) (credentials options pd : value) (w : world),
    prop credentials "providerData" = Normal pd ->
    (truthy pd = true ->
       login_data credentials w = (Normal credentials, w) /\
       login self credentials options w
       = (q <- login_query options ;;
          execute {| method := "POST";
                     url := appHref self ++ "/loginAttempts" ++ q;
                     json := credentials |}) w) /\
    (truthy pd = false ->
       forall (data : value) (w' : world),
         login_data credentials w = (Normal data, w') ->
         exists lp,
           (login <-? prop credentials "login" ;;
            l <-? concat login (VStr ":") ;;
            password <-? prop credentials "password" ;;
            concat (VStr l) password) = Normal lp /\
           prop data "type" = Normal (VStr "basic") /\
           prop data "value" = Normal (VStr (base64_btoa lp))).
Proof.
  intros self credentials options pd w Hpd. split.
  - intros Ht.
    assert (Hdata : login_data credentials w = (Normal credentials, w)).
    { destruct credentials as [| | | | |items|props];
        try discriminate Hpd;
        try (cbn in Hpd; injection Hpd as <-; discriminate Ht).
      unfold login_data, bind, lift, ret. cbn [typeof String.eqb Ascii.eqb Bool.eqb].
      cbn [truthy negb]. rewrite Hpd, Ht.
      destruct (prop (VObj props) "accountStore") as [acc|] eqn:Eacc.
      - destruct (truthy acc) eqn:Hacc; [|reflexivity].
        now rewrite (set_prop_same _ _ _ Eacc Hacc).
      - cbn in Eacc. destruct (lookup "accountStore" props); discriminate Eacc. }
    split; [exact Hdata|].
    unfold login. unfold bind at 1. now rewrite Hdata.
  - intros Hf data w' Hdata.
    destruct credentials as [| | | | |items|props];
      try discriminate Hpd; try discriminate Hdata.
    unfold login_data, bind, lift, ret, throw in Hdata.
    cbn [typeof String.eqb Ascii.eqb Bool.eqb truthy negb] in Hdata.
    rewrite Hpd, Hf in Hdata.
    destruct (prop (VObj props) "login") as [l|];
      [|cbv beta iota zeta in Hdata; discriminate Hdata].
    destruct (truthy l);
      [|cbv beta iota zeta in Hdata; discriminate Hdata].
    cbn [cbind].
    destruct (concat l (VStr ":")) as [ls|];
      [|cbv beta iota zeta in Hdata; discriminate Hdata].
    destruct (prop (VObj props) "password") as [pw|];
      [|cbv beta iota zeta in Hdata; discriminate Hdata].
    cbn [cbind].
    destruct (concat (VStr ls) pw) as [lp|];
      [|cbv beta iota zeta in Hdata; discriminate Hdata].
    destruct (prop (VObj props) "accountStore") as [acc|];
      [|cbv beta iota zeta in Hdata; discriminate Hdata].
    cbv beta iota zeta in Hdata. injection Hdata as <- _.
    exists lp. cbn [cbind]. split; [reflexivity|].
    destruct (truthy acc); split; reflexivity.
Qed.

Lemma login_providerData_precedence_witness :
  (login_data social_credentials (world_with blank_page (VStr "t"))
     = (Normal social_credentials, world_with blank_page (VStr "t")) /\
   login app_client social_credentials VUndefined (world_with blank_page (VStr "t"))
     = execute {| method := "POST";
                  url := "https://x/v1/applications/app1/loginAttempts";
                  json := social_credentials |}
         (world_with blank_page (VStr "t"))) /\
  exists lp,
    Normal "u:p" = Normal lp /\
    prop (VObj [("type", VStr "basic"); ("value", VStr "dTpw")]) "type"
      = Normal (VStr "basic") /\
    prop (VObj [("type", VStr "basic"); ("value", VStr "dTpw")]) "value"
      = Normal (VStr (base64_btoa lp)).
Proof.
  split.
  - apply (proj1 (login_providerData_precedence app_client social_credentials
                    VUndefined
                    (VObj [("providerId", VStr "google"); ("accessToken", VStr "abc")])
                    (world_with blank_page (VStr "t")) eq_refl)).
    reflexivity.
  - apply (proj2 (login_providerData_precedence app_client password_credentials
                    VUndefined VUndefined
                    (world_with blank_page (VStr "t")) eq_refl) eq_refl
             (VObj [("type", VStr "basic"); ("value", VStr "dTpw")])
             (world_with blank_page (VStr "t"))).
    reflexivity.
Defined.

Example login_with_password :
  issued (requestExecutor (snd
    (login app_client password_credentials
       (VObj [("redirect", VStr "https://app.example.com/cb?x=1")])
       (world_with blank_page (VStr "t")))))
  = [{| method := "POST";
        url := "https://x/v1/applications/app1/loginAttempts?redirect=https%3A%2F%2Fapp.example.com%2Fcb%3Fx%3D1";
        json := VObj [("type", VStr "basic"); ("value", VStr "dTpw")] |}].
Proof. reflexivity. Qed.

(** ** parseJwt and the session token *)

(** C9, as amended: [parseJwt] returns [false] exactly for the strings
    that split on [.] into fewer than three segments; with three segments
    or more it decodes the first three, the limit of the split dropping the
    others, and never returns [false].  So [getSessionJwt] returns [false]
    whenever the credential of the executor has two segments, a token that
    the decoding of the constructor lets through its segment check. *)
Theorem parseJwt_segment_count :
  forall (P : platform) (raw : string),
    (List.length (split "." raw) < 3 -> parseJwt P (VStr raw) = Normal NoJwt) /\
    (3 <= List.length (split "." raw) ->
       parseJwt P (VStr raw)
       = (h <-? window_atob P (nth 0 (split "." raw) "") ;;
          header <-? JSON_parse P h ;;
          b <-? window_atob P (nth 1 (split "." raw) "") ;;
          body <-? JSON_parse P b ;;
          Normal (Jwt header body (nth 2 (split "." raw) "") raw)) /\
       parseJwt P (VStr raw) <> Normal NoJwt) /\
    (List.length (split "." raw) = 2 ->
       forall (opts : options) (w : world),
         authToken (requestExecutor w) = VStr raw ->
         getSessionJwt P w = (Normal NoJwt, w) /\
         decode P opts raw w
         = match parse_claims P (nth 1 (split "." raw) "") with
           | None => (Normal (Deferred [Err MALFORMED_JWT_CLAIMS]), w)
           | Some jwtPayload => initialize opts raw jwtPayload w
           end).
Proof.
  intros P raw.
  assert (Hfew : List.length (split "." raw) < 3 ->
                 parseJwt P (VStr raw) = Normal NoJwt).
  { intros Hlen. unfold parseJwt, split_limit.
    destruct raw as [|c s]; [reflexivity|].
    cbn [truthy String.eqb negb].
    destruct (split "." (String c s)) as [|x [|y [|z rest]]];
      try reflexivity.
    simpl in Hlen. lia. }
  split; [exact Hfew|split].
  - intros Hlen.
    assert (Heq : parseJwt P (VStr raw)
                  = (h <-? window_atob P (nth 0 (split "." raw) "") ;;
                     header <-? JSON_parse P h ;;
                     b <-? window_atob P (nth 1 (split "." raw) "") ;;
                     body <-? JSON_parse P b ;;
                     Normal (Jwt header body (nth 2 (split "." raw) "") raw))).
    { unfold parseJwt, split_limit.
      destruct raw as [|c s]; [simpl in Hlen; lia|].
      cbn [truthy String.eqb negb].
      destruct (split "." (String c s)) as [|x [|y [|z rest]]];
        try (simpl in Hlen; lia).
      reflexivity. }
    split; [exact Heq|]. rewrite Heq.
    destruct (window_atob P _); [|discriminate]. cbn [cbind].
    destruct (JSON_parse P _); [|discriminate]. cbn [cbind].
    destruct (window_atob P _); [|discriminate]. cbn [cbind].
    destruct (JSON_parse P _); discriminate.
  - intros Hlen opts w Htoken. split.
    + unfold getSessionJwt, bind, getSessionToken, read, lift.
      rewrite Htoken. rewrite Hfew by lia. reflexivity.
    + unfold decode. rewrite Hlen. cbn [Nat.ltb Nat.leb orb].
      now destruct (parse_claims P _).
Qed.

Lemma parseJwt_segment_count_witness :
  parseJwt table_platform (VStr "e30.e30") = Normal NoJwt /\
  (parseJwt table_platform (VStr "e30.e30.sig")
     = Normal (Jwt (VObj []) (VObj []) "sig" "e30.e30.sig") /\
   parseJwt table_platform (VStr "e30.e30.sig") <> Normal NoJwt) /\
  (getSessionJwt table_platform (world_with blank_page (VStr "e30.e30"))
     = (Normal NoJwt, world_with blank_page (VStr "e30.e30")) /\
   decode table_platform no_options "e30.e30" (world_with blank_page (VStr "e30.e30"))
     = initialize no_options "e30.e30" (VObj [])
         (world_with blank_page (VStr "e30.e30"))).
Proof.
  split; [|split].
  - apply (proj1 (parseJwt_segment_count table_platform "e30.e30")).
    simpl. lia.
  - apply (proj1 (proj2 (parseJwt_segment_count table_platform "e30.e30.sig"))).
    simpl. lia.
  - apply (proj2 (proj2 (parseJwt_segment_count table_platform "e30.e30"))
             eq_refl no_options (world_with blank_page (VStr "e30.e30"))).
    reflexivity.
Defined.

(** C9, as the claim words it, fails: a string of four segments is not
    answered with [false]; its first three segments are parsed. *)
Lemma parseJwt_four_segments :
  List.length (split "." "e30.e30.sig.extra") = 4 /\
  parseJwt table_platform (VStr "e30.e30.sig.extra")
    = Normal (Jwt (VObj []) (VObj []) "sig" "e30.e30.sig.extra") /\
  parseJwt table_platform (VStr "e30.e30.sig.extra") <> Normal NoJwt.
Proof.
  repeat split; try reflexivity. discriminate.
Qed.

(* ================================================================== *)
(** * Further properties of the sources                                *)
(* ================================================================== *)

(** ** The callback of the first request *)

(** X1: a response with an error never writes the session cookie, whatever
    credential the executor holds: the callback is handed
    [SESSION_EXPIRED] when the status of the error is the number 401 and
    the error itself otherwise. *)
Theorem handshake_error :
  forall (opts : options) (err application status : value) (w : world),
    truthy err = true ->
    prop err "status" = Normal status ->
    handshake_callback opts err application w
    = (Normal (match status with
               | VNum 401 => [Err SESSION_EXPIRED]
               | _ => [Val err]
               end), w).
Proof.
  intros opts err application status w Herr Hstatus.
  unfold handshake_callback. rewrite Herr, bind_lift, Hstatus.
  destruct status as [| | |n| | |]; try reflexivity.
  destruct n as [|p|p]; try reflexivity.
  do 9 (destruct p as [p|p|]; try reflexivity).
Qed.

Lemma handshake_error_witness :
  handshake_callback no_options (VObj [("status", VNum 401)]) VUndefined
    (world_with blank_page (VStr "a.b.c"))
    = (Normal [Err SESSION_EXPIRED], world_with blank_page (VStr "a.b.c")) /\
  handshake_callback no_options (VObj [("status", VStr "401")]) VUndefined
    (world_with blank_page (VStr "a.b.c"))
    = (Normal [Val (VObj [("status", VStr "401")])],
       world_with blank_page (VStr "a.b.c")).
Proof.
  split.
  - apply (handshake_error no_options (VObj [("status", VNum 401)]) VUndefined
             (VNum 401) (world_with blank_page (VStr "a.b.c"))); reflexivity.
  - apply (handshake_error no_options (VObj [("status", VStr "401")]) VUndefined
             (VStr "401") (world_with blank_page (VStr "a.b.c"))); reflexivity.
Defined.

(** X2: a response without error, with a credential in the executor,
    hands the callback [null], the [idSiteModel] and the [customData] of
    the body; the credential is assigned to the session cookie exactly
    when no token was given in the options. *)
Theorem handshake_success :
  forall (opts : options) (err application credential model data : value)
         (t : string) (w : world),
    truthy err = false ->
    authToken (requestExecutor w) = credential ->
    truthy credential = true ->
    to_string credential = Normal t ->
    prop application "idSiteModel" = Normal model ->
    prop application "customData" = Normal data ->
    handshake_callback opts err application w
    = (Normal [Val VNull; Val model; Val data],
       if truthy (token opts) then w
       else {| page := set_document_cookie ("idSiteJwt=" ++ t) (page w);
               requestExecutor := requestExecutor w |}).
Proof.
  intros opts err application credential model data t w
         Herr Hcred Htruthy Ht Hmodel Hdata.
  unfold handshake_callback. rewrite Herr.
  unfold bind at 1. unfold getSessionToken at 1, read.
  rewrite Hcred, Htruthy. cbn [negb].
  destruct (truthy (token opts)); cbn [negb].
  - unfold bind at 1, ret at 1. now rewrite !bind_lift, Hmodel, Hdata.
  - unfold bind at 1, saveSessionToken, getSessionToken, read.
    unfold bind at 1 2. rewrite Hcred. unfold lift at 1. rewrite Ht.
    unfold on_page. now rewrite !bind_lift, Hmodel, Hdata.
Qed.

Lemma handshake_success_witness :
  handshake_callback {| token := VStr "h.p.s"; suppliedExecutor := None |} VNull
    (VObj [("idSiteModel", VObj []); ("customData", VNull)])
    (world_with blank_page (VStr "a.b.c"))
  = (Normal [Val VNull; Val (VObj []); Val VNull],
     world_with blank_page (VStr "a.b.c")).
Proof.
  apply (handshake_success {| token := VStr "h.p.s"; suppliedExecutor := None |}
           VNull (VObj [("idSiteModel", VObj []); ("customData", VNull)])
           (VStr "a.b.c") (VObj []) VNull "a.b.c"
           (world_with blank_page (VStr "a.b.c"))); reflexivity.
Defined.

(** ** How the constructor ends *)

Lemma setCachedOrganizationNameKey_run (nameKey : value) (w : world) :
  setCachedOrganizationNameKey nameKey w
  = match to_string nameKey with
    | Normal k =>
        (Normal tt,
         {| page := set_document_cookie
                      (encodeURIComponent organizationNameKeyCookieKey ++ "=" ++
                       encodeURIComponent k ++ "; " ++
                       organizationNameKeyCookieExpiration) (page w);
            requestExecutor := requestExecutor w |})
    | Throw e => (Throw e, w)
    end.
Proof.
  unfold setCachedOrganizationNameKey. rewrite bind_lift.
  now destruct (to_string nameKey).
Qed.

(** What a construction that did not throw has done. *)
Lemma initialize_outcome (opts : options) (jwt0 : string) (jwtPayload0 : value)
      (w w' : world) (r : construction) :
  initialize opts jwt0 jwtPayload0 w = (Normal r, w') ->
  exists (self : client) (onk : value) (p : string),
    r = Constructed self /\
    jwt self = jwt0 /\
    prop jwtPayload0 "onk" = Normal onk /\
    (if truthy onk
     then exists k,
         to_string onk = Normal k /\
         page w' = set_document_cookie
                     (encodeURIComponent organizationNameKeyCookieKey ++ "=" ++
                      encodeURIComponent k ++ "; " ++
                      organizationNameKeyCookieExpiration) (page w)
     else page w' = page w) /\
    to_string (idSiteParentResource self) = Normal p /\
    requestExecutor w'
    = (let e0 := match suppliedExecutor opts with
                 | Some e => e
                 | None => IdSiteRequestExecutor (VStr jwt0)
                 end in
       {| authToken := authToken e0;
          issued := issued e0 ++
                    [{| method := "GET";
                        url := p ++ "?expand=idSiteModel,customData";
                        json := VBool true |}] |}).
Proof.
  unfold initialize. intros H.
  rewrite bind_lift in H.
  destruct (prop jwtPayload0 "app_href") as [a|]; [|discriminate].
  rewrite bind_lift in H.
  destruct (getPasswordResetToken jwtPayload0 a) as [sp|]; [|discriminate].
  rewrite bind_lift in H.
  destruct (derive_baseurl a) as [b|]; [|discriminate].
  rewrite bind_lift in H.
  destruct (as_string a) as [h|]; [|discriminate].
  rewrite bind_lift in H.
  destruct (prop jwtPayload0 "onk") as [onk|]; [|discriminate].
  unfold bind at 1 in H.
  destruct ((if truthy onk then setCachedOrganizationNameKey onk else ret tt) w)
    as [[[]|e] w1] eqn:E1; [|discriminate].
  rewrite bind_lift in H.
  destruct (prop jwtPayload0 "asnk") as [asnk|]; [|discriminate].
  rewrite bind_lift in H.
  destruct (prop jwtPayload0 "ash") as [ash|]; [|discriminate].
  rewrite bind_lift in H.
  destruct (prop jwtPayload0 "require_mfa") as [mfa|]; [|discriminate].
  unfold bind at 1 in H. rewrite bind_lift in H.
  destruct (concat (if truthy asnk then ash else a) _) as [target|] eqn:Et;
    [|discriminate].
  unfold bind, execute, ret in H. injection H as <- <-.
  unfold concat in Et.
  destruct (to_string (if truthy asnk then ash else a)) as [p|] eqn:Ep;
    [|discriminate].
  cbn [cbind to_string] in Et. injection Et as <-.
  eexists _, onk, p. cbn [page requestExecutor jwt idSiteParentResource].
  repeat split; try reflexivity; try assumption.
  destruct (truthy onk).
  - rewrite setCachedOrganizationNameKey_run in E1.
    destruct (to_string onk) as [k|]; [|discriminate].
    injection E1 as <-. now exists k.
  - unfold ret in E1. now injection E1 as <-.
Qed.

Lemma getJwtFromUrl_executor (w w' : world) (r : completion value) :
  getJwtFromUrl w = (r, w') -> requestExecutor w' = requestExecutor w.
Proof.
  unfold getJwtFromUrl, bind, read, on_page, lift, ret.
  destruct (capture "jwt=" "&" (href (page w))).
  - destruct (decodeURIComponent s); now intros [= <- <-].
  - destruct (truthy (getCookie "idSiteJwt" (page w))); now intros [= <- <-].
Qed.

Lemma resolve_jwt_executor (opts : options) (w w' : world) (r : completion value) :
  resolve_jwt opts w = (r, w') -> requestExecutor w' = requestExecutor w.
Proof.
  unfold resolve_jwt. destruct (truthy (token opts)).
  - unfold ret. now intros [= <- <-].
  - apply getJwtFromUrl_executor.
Qed.

(** The constructor taken apart: what it found as its token, and how it
    went on from there. *)
Lemma Client_cases (P : platform) (opts : options) (w w' : world)
      (r : construction) :
  Client P opts w = (Normal r, w') ->
  exists (found : value) (w1 : world),
    resolve_jwt opts w = (Normal found, w1) /\
    ((truthy found = false /\ r = Deferred [Err JWT_NOT_FOUND] /\ w' = w1) \/
     (exists raw,
         found = VStr raw /\ raw <> "" /\
         decode P opts raw w1 = (Normal r, w'))).
Proof.
  unfold Client, bind. intros H.
  destruct (resolve_jwt opts w) as [[found|e] w1]; [|discriminate].
  exists found, w1. split; [reflexivity|].
  destruct (truthy found) eqn:Ht; cbn [negb] in H.
  - right. unfold lift in H.
    destruct (as_string found) as [raw|] eqn:Eraw; [|discriminate].
    apply as_string_inv in Eraw. subst found.
    exists raw. repeat split; [|exact H].
    intros ->. discriminate Ht.
  - left. unfold ret in H. injection H as <- <-. now repeat split.
Qed.

Lemma decode_cases (P : platform) (opts : options) (raw : string) (w w' : world)
      (r : construction) :
  decode P opts raw w = (Normal r, w') ->
  (r = Deferred [Err NOT_A_JWT] /\ w' = w /\
   List.length (split "." raw) <> 2 /\ List.length (split "." raw) <> 3) \/
  (r = Deferred [Err MALFORMED_JWT_CLAIMS] /\ w' = w /\
   parse_claims P (nth 1 (split "." raw) "") = None) \/
  (exists jwtPayload0,
      parse_claims P (nth 1 (split "." raw) "") = Some jwtPayload0 /\
      initialize opts raw jwtPayload0 w = (Normal r, w')).
Proof.
  unfold decode. intros H.
  destruct (Nat.ltb_spec (List.length (split "." raw)) 2) as [H2|H2];
    destruct (Nat.ltb_spec 3 (List.length (split "." raw))) as [H3|H3];
    cbn [orb] in H;
    try (unfold ret in H; injection H as <- <-; left; repeat split; lia).
  destruct (parse_claims P _) as [jwtPayload0|].
  - right; right. now exists jwtPayload0.
  - unfold ret in H. injection H as <- <-. right; left. now repeat split.
Qed.

(** X3: whenever the constructor ends with the deferred callback, the
    error is one of [JWT_NOT_FOUND], [NOT_A_JWT] and
    [MALFORMED_JWT_CLAIMS], and nothing has reached the request executor:
    it is the one the world had, with the requests it had. *)
Theorem Client_deferred_before_any_request :
  forall (P : platform) (opts : options) (w w' : world) (args : list cb_arg),
    Client P opts w = (Normal (Deferred args), w') ->
    (args = [Err JWT_NOT_FOUND] \/ args = [Err NOT_A_JWT] \/
     args = [Err MALFORMED_JWT_CLAIMS]) /\
    requestExecutor w' = requestExecutor w.
Proof.
  intros P opts w w' args H.
  destruct (Client_cases _ _ _ _ _ H) as (found & w1 & Hres & Hcase).
  apply resolve_jwt_executor in Hres.
  destruct Hcase as [(_ & Hr & ->)|(raw & _ & _ & Hdec)].
  - injection Hr as ->. split; [now left|assumption].
  - destruct (decode_cases _ _ _ _ _ _ Hdec)
      as [(Hr & -> & _)|[(Hr & -> & _)|(p0 & _ & Hinit)]].
    + injection Hr as ->. split; [right; now left|assumption].
    + injection Hr as ->. split; [right; now right|assumption].
    + destruct (initialize_outcome _ _ _ _ _ _ Hinit) as (self & _ & _ & Hr & _).
      discriminate Hr.
Qed.

Lemma Client_deferred_before_any_request_witness :
  ([Err MALFORMED_JWT_CLAIMS] = [Err JWT_NOT_FOUND] \/
   [Err MALFORMED_JWT_CLAIMS] = [Err NOT_A_JWT] \/
   [Err MALFORMED_JWT_CLAIMS] = [Err MALFORMED_JWT_CLAIMS]) /\
  requestExecutor (snd (Client table_platform
                          {| token := VStr "a.b.c"; suppliedExecutor := None |}
                          (world_with page_with_both (VStr "old"))))
  = requestExecutor (world_with page_with_both (VStr "old")).
Proof.
  apply (Client_deferred_before_any_request table_platform
           {| token := VStr "a.b.c"; suppliedExecutor := None |}
           (world_with page_with_both (VStr "old"))
           (snd (Client table_platform
                   {| token := VStr "a.b.c"; suppliedExecutor := None |}
                   (world_with page_with_both (VStr "old"))))
           [Err MALFORMED_JWT_CLAIMS]).
  reflexivity.
Defined.

(** X4: a constructor that ends with the object built has handed the
    executor one request more, which comes last: the GET of the parent
    resource with [?expand=idSiteModel,customData].  The executor is the
    one given in the options, or a new one that holds the token. *)
Theorem Client_constructed_one_request :
  forall (P : platform) (opts : options) (w w' : world) (self : client),
    Client P opts w = (Normal (Constructed self), w') ->
    exists p,
      to_string (idSiteParentResource self) = Normal p /\
      requestExecutor w'
      = (let e0 := match suppliedExecutor opts with
                   | Some e => e
                   | None => IdSiteRequestExecutor (VStr (jwt self))
                   end in
         {| authToken := authToken e0;
            issued := issued e0 ++
                      [{| method := "GET";
                          url := p ++ "?expand=idSiteModel,customData";
                          json := VBool true |}] |}).
Proof.
  intros P opts w w' self H.
  destruct (Client_cases _ _ _ _ _ H) as (found & w1 & _ & Hcase).
  destruct Hcase as [(_ & Hr & _)|(raw & _ & _ & Hdec)]; [discriminate Hr|].
  destruct (decode_cases _ _ _ _ _ _ Hdec)
    as [(Hr & _)|[(Hr & _)|(p0 & _ & Hinit)]]; try discriminate Hr.
  destruct (initialize_outcome _ _ _ _ _ _ Hinit)
    as (self' & onk & p & Hr & Hjwt & _ & _ & Hp & Hex).
  injection Hr as <-. exists p. split; [assumption|].
  now rewrite Hjwt.
Qed.

Lemma Client_constructed_one_request_witness :
  exists p,
    to_string (VStr "https://x/v1/applications/app1") = Normal p /\
    requestExecutor (snd (initialize no_options "h.p.s" app_claims
                            (world_with blank_page VUndefined)))
    = {| authToken := VStr "h.p.s";
         issued := [] ++
                   [{| method := "GET";
                       url := p ++ "?expand=idSiteModel,customData";
                       json := VBool true |}] |}.
Proof.
  pose (P := {| window_atob := fun _ => Throw InvalidCharacterError;
                JSON_parse := fun _ => Normal app_claims;
                Buffer_base64 := fun s => Normal s |}).
  apply (Client_constructed_one_request P
           {| token := VStr "h.p.s"; suppliedExecutor := None |}
           (world_with blank_page VUndefined)
           (snd (initialize no_options "h.p.s" app_claims
                   (world_with blank_page VUndefined)))
           app_client).
  reflexivity.
Defined.

Lemma decode_tokens_nonempty (ts : list Js.token) (d : string) :
  ts <> [] -> decode_tokens ts = Some d -> d <> "".
Proof.
  destruct ts as [|t ts]; [congruence|]. intros _. cbn [decode_tokens].
  destruct t as [c|b0].
  - destruct (decode_tokens ts); [|discriminate]. now intros [= <-].
  - destruct (b0 <? 128)%N.
    { destruct (decode_tokens ts); [|discriminate]. now intros [= <-]. }
    destruct (between 194 223 b0).
    { destruct ts as [|[|b1] ts]; try discriminate.
      destruct (continuation b1); [|discriminate].
      destruct (decode_tokens ts); [|discriminate]. now intros [= <-]. }
    destruct (between 224 239 b0).
    { destruct ts as [|[|b1] [|[|b2] ts]]; try discriminate.
      destruct (_ && _); [|discriminate].
      destruct (decode_tokens ts); [|discriminate]. now intros [= <-]. }
    destruct (between 240 244 b0); [|discriminate].
    destruct ts as [|[|b1] [|[|b2] [|[|b3] ts]]]; try discriminate.
    destruct (_ && _); [|discriminate].
    destruct (decode_tokens ts); [|discriminate]. now intros [= <-].
Qed.

(** A component that is not empty does not decode to the empty text. *)
Lemma decodeURIComponent_nonempty (m d : string) :
  m <> "" -> decodeURIComponent m = Normal d -> d <> "".
Proof.
  unfold decodeURIComponent. intros Hm.
  destruct (tokens m) as [ts|] eqn:E; [|discriminate].
  destruct (decode_tokens ts) as [d'|] eqn:Ed; [|discriminate].
  cbn [of_option]. intros [= <-].
  apply (decode_tokens_nonempty ts); [|assumption].
  intros ->. destruct m as [|c m]; [congruence|].
  cbn [tokens] in E.
  destruct (Ascii.eqb c "%").
  - destruct m as [|x [|y rest]]; try discriminate.
    destruct (hex_value x), (hex_value y), (tokens rest); discriminate.
  - destruct (tokens m); discriminate.
Qed.

(** The deferred [JWT_NOT_FOUND] comes from the guard on the token: the
    options held no truthy token and neither search found a value; the
    world is then as it was. *)
Lemma Client_not_found_inv (P : platform) (opts : options) (w w' : world) :
  Client P opts w = (Normal (Deferred [Err JWT_NOT_FOUND]), w') ->
  truthy (token opts) = false /\
  capture "jwt=" "&" (href (page w)) = None /\
  getCookie "idSiteJwt" (page w) = VUndefined /\
  w' = w.
Proof.
  intros H.
  destruct (Client_cases _ _ _ _ _ H) as (found & w1 & Hres & Hcase).
  destruct Hcase as [(Hf & _ & ->)|(raw & _ & _ & Hdec)].
  + unfold resolve_jwt in Hres.
    destruct (truthy (token opts)) eqn:Ht.
    { unfold ret in Hres. injection Hres as <- <-. congruence. }
    unfold getJwtFromUrl, bind, read, on_page, lift, ret in Hres.
    destruct (capture "jwt=" "&" (href (page w))) as [m|] eqn:Em.
    { destruct (decodeURIComponent m) as [d|] eqn:Ed; [|discriminate].
      injection Hres as <- <-.
      apply capture_sound in Em as [Hm _].
      apply (decodeURIComponent_nonempty _ _ Hm) in Ed.
      destruct d; [congruence|discriminate Hf]. }
    destruct (truthy (getCookie "idSiteJwt" (page w))) eqn:Hc.
    { injection Hres as <- <-. congruence. }
    injection Hres as <- <-.
    repeat split; try assumption.
    unfold getCookie in Hc |- *.
    destruct (capture _ _ (document_cookie (page w))) as [v|] eqn:Ev;
      [|reflexivity].
    apply capture_sound in Ev as [Hv _].
    destruct v; [congruence|discriminate Hc].
  + destruct (decode_cases _ _ _ _ _ _ Hdec)
      as [(Hr & _)|[(Hr & _)|(p0 & _ & Hinit)]]; try discriminate Hr.
    destruct (initialize_outcome _ _ _ _ _ _ Hinit) as (self & _ & _ & Hr & _).
    discriminate Hr.
Qed.

(** The guard itself: with no truthy token in the options and nothing
    found by either search, the constructor defers [JWT_NOT_FOUND]. *)
Lemma Client_nothing_found (P : platform) (opts : options) (w : world) :
  truthy (token opts) = false ->
  capture "jwt=" "&" (href (page w)) = None ->
  getCookie "idSiteJwt" (page w) = VUndefined ->
  Client P opts w = (Normal (Deferred [Err JWT_NOT_FOUND]), w).
Proof.
  intros Ht Hc Hg. unfold Client, resolve_jwt, bind. rewrite Ht.
  unfold getJwtFromUrl, bind, read. now rewrite Hc, Hg.
Qed.

(** X6: a token of two or three segments whose second segment the base64
    decoding or [JSON.parse] throws on ends the constructor with the
    deferred [MALFORMED_JWT_CLAIMS]; no request is made and the page stays
    as the search for the token left it. *)
Theorem Client_malformed_claims :
  forall (P : platform) (opts : options) (raw : string) (w0 w : world),
    resolve_jwt opts w0 = (Normal (VStr raw), w) ->
    raw <> "" ->
    List.length (split "." raw) = 2 \/ List.length (split "." raw) = 3 ->
    (forall text, Buffer_base64 P (nth 1 (split "." raw) "") = Normal text ->
                  exists e, JSON_parse P text = Throw e) ->
    Client P opts w0 = (Normal (Deferred [Err MALFORMED_JWT_CLAIMS]), w).
Proof.
  intros P opts raw w0 w Hres Hne Hlen Hbad.
  unfold Client, bind. rewrite Hres.
  assert (Ht : truthy (VStr raw) = true) by (destruct raw; [congruence|reflexivity]).
  rewrite Ht. cbn [negb as_string lift]. unfold decode.
  assert (Hcount : ((List.length (split "." raw) <? 2)%nat
                    || (3 <? List.length (split "." raw))%nat) = false).
  { destruct Hlen as [-> | ->]; reflexivity. }
  rewrite Hcount.
  unfold parse_claims, base64_atob, base64Encode.
  destruct (Buffer_base64 P (nth 1 (split "." raw) "")) as [text|e] eqn:E;
    [|reflexivity].
  destruct (Hbad text eq_refl) as [e He]. cbn [cbind]. now rewrite He.
Qed.

Lemma Client_malformed_claims_witness :
  Client table_platform {| token := VStr "e30.bad.sig"; suppliedExecutor := None |}
    (world_with page_with_cookie VUndefined)
  = (Normal (Deferred [Err MALFORMED_JWT_CLAIMS]),
     world_with page_with_cookie VUndefined).
Proof.
  apply (Client_malformed_claims table_platform
           {| token := VStr "e30.bad.sig"; suppliedExecutor := None |}
           "e30.bad.sig" (world_with page_with_cookie VUndefined)
           (world_with page_with_cookie VUndefined));
    [reflexivity | discriminate | right; reflexivity |].
  intros text H. discriminate H.
Defined.

Lemma prop_throw (x : value) (k : string) (e : exn) :
  prop x k = Throw e -> e = TypeError /\ readable x = false.
Proof.
  intros H. destruct (readable x) eqn:Hr.
  - destruct (prop_readable x k Hr) as [v Hv]. congruence.
  - destruct x; try discriminate Hr; cbn in H; now injection H as <-.
Qed.

(** X7: claims that parse but hold no string under [app_href] make the
    constructor throw a [TypeError]; the callback is not called, no cookie
    is written and no request is made. *)
Theorem initialize_without_app_href :
  forall (opts : options) (jwt0 : string) (jwtPayload0 : value) (w : world),
    (forall h, prop jwtPayload0 "app_href" <> Normal (VStr h)) ->
    initialize opts jwt0 jwtPayload0 w = (Throw TypeError, w).
Proof.
  intros opts jwt0 jwtPayload0 w Hno.
  unfold initialize. rewrite bind_lift.
  destruct (prop jwtPayload0 "app_href") as [a|e] eqn:Ea.
  - assert (Has : as_string a = Throw TypeError).
    { destruct a; try reflexivity. now destruct (Hno s). }
    rewrite bind_lift.
    destruct (getPasswordResetToken jwtPayload0 a) as [sp|e] eqn:Esp.
    + rewrite bind_lift. unfold derive_baseurl. now rewrite Has.
    + unfold getPasswordResetToken in Esp.
      destruct (prop jwtPayload0 "sp_token") as [t|e'] eqn:Et.
      * cbn [cbind] in Esp. destruct (truthy t); [discriminate|].
        rewrite Has in Esp. cbn [cbind] in Esp. now injection Esp as <-.
      * apply prop_throw in Et as [_ Hr].
        destruct jwtPayload0; try discriminate Hr; discriminate Ea.
  - now apply prop_throw in Ea as [-> _].
Qed.

Lemma initialize_without_app_href_witness :
  initialize no_options "e30.e30.sig" (VObj [("appHref", VStr "https://x/v1/a")])
    (world_with blank_page VUndefined)
  = (Throw TypeError, world_with blank_page VUndefined).
Proof.
  apply (initialize_without_app_href no_options "e30.e30.sig"
           (VObj [("appHref", VStr "https://x/v1/a")])
           (world_with blank_page VUndefined)).
  intros h H. discriminate H.
Defined.

(** ** What the constructor does to the page *)

(** Whatever way the construction ends, the page is as it was or has had
    the organization name key assigned to its cookie. *)
Lemma initialize_page (opts : options) (jwt0 : string) (jwtPayload0 : value)
      (w w' : world) (r : completion construction) :
  initialize opts jwt0 jwtPayload0 w = (r, w') ->
  page w' = page w \/
  exists k,
    page w' = set_document_cookie
                (encodeURIComponent organizationNameKeyCookieKey ++ "=" ++
                 encodeURIComponent k ++ "; " ++
                 organizationNameKeyCookieExpiration) (page w).
Proof.
  unfold initialize. intros H.
  rewrite bind_lift in H.
  destruct (prop jwtPayload0 "app_href") as [a|];
    [|injection H as <- <-; now left].
  rewrite bind_lift in H.
  destruct (getPasswordResetToken jwtPayload0 a) as [sp|];
    [|injection H as <- <-; now left].
  rewrite bind_lift in H.
  destruct (derive_baseurl a) as [b|]; [|injection H as <- <-; now left].
  rewrite bind_lift in H.
  destruct (as_string a) as [h|]; [|injection H as <- <-; now left].
  rewrite bind_lift in H.
  destruct (prop jwtPayload0 "onk") as [onk|]; [|injection H as <- <-; now left].
  unfold bind at 1 in H.
  destruct ((if truthy onk then setCachedOrganizationNameKey onk else ret tt) w)
    as [[[]|e] w1] eqn:E1.
  - assert (Hpage : page w1 = page w \/
                    exists k,
                      page w1 = set_document_cookie
                        (encodeURIComponent organizationNameKeyCookieKey ++ "=" ++
                         encodeURIComponent k ++ "; " ++
                         organizationNameKeyCookieExpiration) (page w)).
    { destruct (truthy onk).
      - rewrite setCachedOrganizationNameKey_run in E1.
        destruct (to_string onk) as [k|]; [|discriminate].
        injection E1 as <-. right. now exists k.
      - unfold ret in E1. injection E1 as <-. now left. }
    rewrite bind_lift in H.
    destruct (prop jwtPayload0 "asnk") as [asnk|];
      [|injection H as <- <-; exact Hpage].
    rewrite bind_lift in H.
    destruct (prop jwtPayload0 "ash") as [ash|];
      [|injection H as <- <-; exact Hpage].
    rewrite bind_lift in H.
    destruct (prop jwtPayload0 "require_mfa") as [mfa|];
      [|injection H as <- <-; exact Hpage].
    unfold bind at 1 in H. rewrite bind_lift in H.
    destruct (concat (if truthy asnk then ash else a) _) as [target|];
      [|injection H as <- <-; exact Hpage].
    unfold bind, execute, ret in H. injection H as <- <-. exact Hpage.
  - injection H as <- <-.
    destruct (truthy onk).
    + rewrite setCachedOrganizationNameKey_run in E1.
      destruct (to_string onk); [discriminate|]. injection E1 as <- <-. now left.
    + discriminate E1.
Qed.

Lemma store_other (name other val : string) (cs : list (string * string)) :
  (name =? other) = false ->
  cookie_value other (store name val cs) = cookie_value other cs.
Proof.
  intros Hne. induction cs as [|[n v] cs IH]; simpl.
  - rewrite Hne. reflexivity.
  - destruct (n =? name) eqn:E; simpl.
    + apply String.eqb_eq in E. subst n. now rewrite Hne.
    + now rewrite IH.
Qed.

Lemma set_document_cookie_href (s : string) (b : browser) :
  href (set_document_cookie s b) = href b.
Proof.
  unfold set_document_cookie. destruct (all_chars _ s); [|reflexivity].
  cbv zeta. now destruct (cut "=" (take_until ";" s)) as [[n v]|].
Qed.

(** Assigning the organization name key leaves the address and the
    session cookie alone. *)
Lemma organization_cookie_apart (k : string) (b : browser) :
  let b' := set_document_cookie
              (encodeURIComponent organizationNameKeyCookieKey ++ "=" ++
               encodeURIComponent k ++ "; " ++
               organizationNameKeyCookieExpiration) b in
  href b' = href b /\
  cookie_value "idSiteJwt" (jar b') = cookie_value "idSiteJwt" (jar b).
Proof.
  cbv zeta. split; [apply set_document_cookie_href|].
  unfold set_document_cookie. destruct (all_chars _ _); [|reflexivity].
  cbn. now rewrite store_other.
Qed.

(** X8: with a truthy token in the options the constructor, however it
    ends, leaves the address as it is and the session cookie with the
    value it has: the token in the address or in the cookie is neither
    read nor used up. *)
Theorem Client_with_token_leaves_sources :
  forall (P : platform) (opts : options) (w w' : world)
         (r : completion construction),
    truthy (token opts) = true ->
    Client P opts w = (r, w') ->
    href (page w') = href (page w) /\
    cookie_value "idSiteJwt" (jar (page w'))
    = cookie_value "idSiteJwt" (jar (page w)).
Proof.
  intros P opts w w' r Ht H.
  unfold Client in H. unfold bind at 1 in H.
  unfold resolve_jwt in H. rewrite Ht in H. unfold ret at 1 in H.
  rewrite Ht in H. cbn [negb] in H.
  rewrite bind_lift in H.
  destruct (as_string (token opts)) as [raw|]; [|injection H as <- <-; now split].
  unfold decode in H.
  destruct ((List.length (split "." raw) <? 2)%nat
            || (3 <? List.length (split "." raw))%nat).
  { unfold ret in H. injection H as <- <-. now split. }
  destruct (parse_claims P _) as [jwtPayload0|].
  - destruct (initialize_page _ _ _ _ _ _ H) as [->|[k ->]].
    + now split.
    + apply organization_cookie_apart.
  - unfold ret in H. injection H as <- <-. now split.
Qed.

Lemma Client_with_token_leaves_sources_witness :
  href (page (snd (Client table_platform
                     {| token := VStr "e30.e30.sig"; suppliedExecutor := None |}
                     (world_with page_with_both VUndefined))))
    = "https://id.example.com/?jwt=a.b%2Ec" /\
  cookie_value "idSiteJwt"
    (jar (page (snd (Client table_platform
                       {| token := VStr "e30.e30.sig"; suppliedExecutor := None |}
                       (world_with page_with_both VUndefined)))))
    = Some "x.y.z".
Proof.
  apply (Client_with_token_leaves_sources table_platform
           {| token := VStr "e30.e30.sig"; suppliedExecutor := None |}
           (world_with page_with_both VUndefined)
           (snd (Client table_platform
                   {| token := VStr "e30.e30.sig"; suppliedExecutor := None |}
                   (world_with page_with_both VUndefined)))
           (fst (Client table_platform
                   {| token := VStr "e30.e30.sig"; suppliedExecutor := None |}
                   (world_with page_with_both VUndefined))));
    reflexivity.
Defined.

(** ** Percent-encoding *)

Lemma hex_char_cases (c : ascii) :
  let b := N_of_ascii c in
  unreserved (hex_char (b / 16)) = true /\
  unreserved (hex_char (b mod 16)) = true /\
  upper_hex_value (hex_char (b / 16)) = Some (b / 16)%N /\
  upper_hex_value (hex_char (b mod 16)) = Some (b mod 16)%N /\
  hex_value (hex_char (b / 16)) = Some (b / 16)%N /\
  hex_value (hex_char (b mod 16)) = Some (b mod 16)%N /\
  ascii_of_N (16 * (b / 16) + b mod 16) = c.
Proof.
  destruct c as [[] [] [] [] [] [] [] []]; vm_compute; repeat split.
Qed.

Lemma unreserved_not_percent (c : ascii) :
  unreserved c = true -> Ascii.eqb c "%" = false.
Proof.
  destruct (Ascii.eqb_spec c "%") as [->|]; [discriminate|reflexivity].
Qed.

(** [encodeURIComponent] writes unreserved characters and percent signs
    only. *)
Lemma encodeURIComponent_safe (s : string) :
  all_chars uri_safe (encodeURIComponent s) = true.
Proof.
  induction s as [|c s IH]; [reflexivity|].
  cbn [encodeURIComponent].
  destruct (unreserved c) eqn:Hc.
  - cbn [all_chars]. unfold uri_safe at 1. now rewrite Hc.
  - destruct (hex_char_cases c) as (Hh & Hl & _).
    cbn [all_chars]. unfold uri_safe at 1 2 3.
    now rewrite Hh, Hl, IH.
Qed.

Lemma all_chars_not_mem (p : ascii -> bool) (c : ascii) (s : string) :
  all_chars p s = true -> p c = false -> mem_char c s = false.
Proof.
  intros Hall Hc. induction s as [|d s IH]; [reflexivity|].
  cbn [all_chars] in Hall. apply andb_true_iff in Hall as [Hd Hs].
  cbn [mem_char]. rewrite (IH Hs), orb_false_r.
  destruct (Ascii.eqb_spec c d) as [->|]; [congruence|reflexivity].
Qed.

Lemma all_chars_impl (p q : ascii -> bool) (s : string) :
  (forall c, p c = true -> q c = true) ->
  all_chars p s = true -> all_chars q s = true.
Proof.
  intros Hpq. induction s as [|c s IH]; [reflexivity|].
  cbn [all_chars]. intros H. apply andb_true_iff in H as [Hc Hs].
  now rewrite (Hpq c Hc), IH.
Qed.

Lemma uri_safe_not_blank (c : ascii) :
  uri_safe c = true -> negb (is_blank c) = true.
Proof.
  destruct c as [[] [] [] [] [] [] [] []]; vm_compute; congruence.
Qed.

Lemma trim_right_no_blank (s : string) :
  all_chars (fun c => negb (is_blank c)) s = true -> trim_right s = s.
Proof.
  induction s as [|c s IH]; [reflexivity|].
  cbn [all_chars trim_right]. intros H.
  apply andb_true_iff in H as [Hc Hs]. rewrite (IH Hs).
  apply negb_true_iff in Hc. rewrite Hc. now destruct s.
Qed.

Lemma trim_no_blank (s : string) :
  all_chars (fun c => negb (is_blank c)) s = true -> trim s = s.
Proof.
  intros H. unfold trim.
  assert (Hl : trim_left s = s).
  { destruct s as [|c s]; [reflexivity|].
    cbn [all_chars] in H. apply andb_true_iff in H as [Hc _].
    apply negb_true_iff in Hc. cbn [trim_left]. now rewrite Hc. }
  rewrite Hl. now apply trim_right_no_blank.
Qed.

(** The replacement of the escapes undoes the encoding, octet by
    octet. *)
Lemma unescape_encode (s : string) :
  unescape_octets (encodeURIComponent s) = s.
Proof.
  induction s as [|c s IH]; [reflexivity|].
  cbn [encodeURIComponent].
  destruct (unreserved c) eqn:Hc.
  - cbn [unescape_octets]. rewrite (unreserved_not_percent c Hc). now rewrite IH.
  - destruct (hex_char_cases c) as (_ & _ & Hh & Hl & _ & _ & Hb).
    cbn [unescape_octets Ascii.eqb Bool.eqb].
    cbv zeta in Hh, Hl, Hb. rewrite Hh, Hl, Hb. now rewrite IH.
Qed.

Lemma btoa_length (s : string) :
  String.length (btoa s) = 4 * ((String.length s + 2) / 3).
Proof.
  assert (H : forall n s, String.length s <= n ->
                String.length (btoa s) = 4 * ((String.length s + 2) / 3)).
  { induction n as [|n IH]; intros t Hn.
    - destruct t; [reflexivity|simpl in Hn; lia].
    - destruct t as [|a [|b [|c t]]]; try reflexivity.
      cbn [btoa String.length].
      rewrite IH by (simpl in Hn; lia).
      replace (S (S (S (String.length t))) + 2) with (String.length t + 2 + 1 * 3)
        by lia.
      rewrite Nat.div_add by lia. lia. }
  now apply (H (String.length s)).
Qed.

Lemma base64_btoa_octets (str : string) : base64_btoa str = btoa str.
Proof.
  unfold base64_btoa, base64Decode, Utils.b64EncodeUnicode.
  now rewrite unescape_encode.
Qed.

(** X9: [b64EncodeUnicode], and with it [base64.btoa] of both utilities
    modules, is [btoa] of the octets of the string: percent-encoding and
    the replacement of the escapes cancel.  The result has four characters
    for every three octets begun. *)
Theorem b64EncodeUnicode_is_btoa :
  forall (str : string),
    Utils.b64EncodeUnicode str = btoa str /\
    base64_btoa str = btoa str /\
    UtilsUrl.b64EncodeUnicode str = btoa str /\
    String.length (base64_btoa str) = 4 * ((String.length str + 2) / 3).
Proof.
  intros str.
  unfold base64_btoa, base64Decode, Utils.b64EncodeUnicode, UtilsUrl.b64EncodeUnicode.
  rewrite unescape_encode. repeat split. apply btoa_length.
Qed.

(** ** The organization name key in its cookie *)

Lemma all_chars_app (p : ascii -> bool) (a b : string) :
  all_chars p (a ++ b) = all_chars p a && all_chars p b.
Proof.
  induction a as [|c a IH]; [reflexivity|].
  cbn [append all_chars]. now rewrite IH, andb_assoc.
Qed.

Lemma uri_safe_not_control (c : ascii) :
  uri_safe c = true -> negb (control_character c) = true.
Proof.
  destruct c as [[] [] [] [] [] [] [] []]; vm_compute; congruence.
Qed.

Lemma organization_cookie_jar (k : string) (b : browser) :
  jar (set_document_cookie
         (encodeURIComponent organizationNameKeyCookieKey ++ "=" ++
          encodeURIComponent k ++ "; " ++ organizationNameKeyCookieExpiration) b)
  = store "sp.onk" (encodeURIComponent k) (jar b).
Proof.
  pose proof (encodeURIComponent_safe k) as Hsafe.
  assert (Hsemi : mem_char ";" (encodeURIComponent k) = false)
    by (apply (all_chars_not_mem uri_safe); [assumption|reflexivity]).
  assert (Htrim : trim (encodeURIComponent k) = encodeURIComponent k).
  { apply trim_no_blank.
    apply (all_chars_impl uri_safe); [apply uri_safe_not_blank|assumption]. }
  assert (Hplain : all_chars (fun c => negb (control_character c))
                     (encodeURIComponent organizationNameKeyCookieKey ++ "=" ++
                      encodeURIComponent k ++ "; " ++
                      organizationNameKeyCookieExpiration) = true).
  { rewrite !all_chars_app.
    rewrite (all_chars_impl uri_safe _ (encodeURIComponent k)
               uri_safe_not_control Hsafe).
    reflexivity. }
  unfold set_document_cookie. rewrite Hplain. cbn [jar].
  replace (encodeURIComponent organizationNameKeyCookieKey ++ "=" ++
           encodeURIComponent k ++ "; " ++ organizationNameKeyCookieExpiration)
    with (("sp.onk=" ++ encodeURIComponent k) ++
          String ";" (" " ++ organizationNameKeyCookieExpiration)).
  2:{ rewrite append_assoc. reflexivity. }
  rewrite take_until_app.
  - cbn [append cut Ascii.eqb Bool.eqb]. now rewrite Htrim.
  - cbn [append mem_char Ascii.eqb Bool.eqb orb]. exact Hsemi.
  - right. eauto.
Qed.

(** X10: [setCachedOrganizationNameKey] stores the key percent-encoded as
    the value of the cookie [sp.onk], whatever characters the key has; the
    other cookies, the address and the executor stay as they are. *)
Theorem organization_name_key_stored :
  forall (nameKey : value) (k : string) (w : world),
    to_string nameKey = Normal k ->
    fst (setCachedOrganizationNameKey nameKey w) = Normal tt /\
    cookie_value "sp.onk"
      (jar (page (snd (setCachedOrganizationNameKey nameKey w))))
    = Some (encodeURIComponent k) /\
    (forall other,
        ("sp.onk" =? other) = false ->
        cookie_value other
          (jar (page (snd (setCachedOrganizationNameKey nameKey w))))
        = cookie_value other (jar (page w))) /\
    href (page (snd (setCachedOrganizationNameKey nameKey w))) = href (page w) /\
    requestExecutor (snd (setCachedOrganizationNameKey nameKey w))
    = requestExecutor w.
Proof.
  intros nameKey k w Hk.
  rewrite setCachedOrganizationNameKey_run, Hk. cbn [fst snd page requestExecutor].
  rewrite organization_cookie_jar.
  repeat split.
  - apply store_cookie_value.
  - intros other Hother. now apply store_other.
  - apply set_document_cookie_href.
Qed.

Lemma organization_name_key_stored_witness :
  cookie_value "sp.onk"
    (jar (page (snd (setCachedOrganizationNameKey (VStr "my org;1")
                       (world_with page_with_cookie VUndefined)))))
  = Some "my%20org%3B1".
Proof.
  apply (organization_name_key_stored (VStr "my org;1") "my org;1"
           (world_with page_with_cookie VUndefined) eq_refl).
Defined.

(** ** The request of login *)

Lemma login_data_world (credentials : value) (w : world) :
  snd (login_data credentials w) = w.
Proof.
  unfold login_data, bind, lift, throw, ret.
  destruct (negb (truthy (if typeof credentials =? "object" then credentials else VNull)));
    [reflexivity|].
  destruct (prop _ "providerData") as [pd|]; [|reflexivity].
  destruct (truthy pd).
  { destruct (prop _ "accountStore"); reflexivity. }
  destruct (prop _ "login") as [l|]; [|reflexivity].
  destruct (truthy l); [|reflexivity].
  destruct (concat l (VStr ":")) as [ls|]; [|reflexivity].
  destruct (prop _ "password") as [pw|]; [|reflexivity].
  destruct (concat (VStr ls) pw); [|reflexivity].
  destruct (prop _ "accountStore"); reflexivity.
Qed.

Lemma uri_safe_excludes (c : ascii) :
  mem_char c "&=#?/:;+, " = true -> uri_safe c = false.
Proof.
  destruct c as [[] [] [] [] [] [] [] []]; vm_compute; congruence.
Qed.

(** X11: when the options of [login] carry a truthy [redirect], the
    request goes to the application href followed by
    [/loginAttempts?redirect=] and the percent-encoded redirect, in which
    no [&], [=], [#], [?], [/], [:], [;], [+], comma or space is left: the
    redirect cannot add a parameter of its own to the URL.  Without
    options the URL ends with [/loginAttempts]. *)
Theorem login_redirect_encoded :
  forall (self : client) (credentials options redirect data : value)
         (r : string) (w : world),
    fst (login_data credentials w) = Normal data ->
    (truthy options = true ->
     prop options "redirect" = Normal redirect ->
     truthy redirect = true ->
     to_string redirect = Normal r ->
     login self credentials options w
     = execute {| method := "POST";
                  url := appHref self ++ "/loginAttempts" ++
                         "?redirect=" ++ encodeURIComponent r;
                  json := data |} w /\
     forall c, mem_char c "&=#?/:;+, " = true ->
               mem_char c (encodeURIComponent r) = false) /\
    (truthy options = false ->
     login self credentials options w
     = execute {| method := "POST";
                  url := appHref self ++ "/loginAttempts" ++ "";
                  json := data |} w).
Proof.
  intros self credentials options redirect data r w Hdata.
  assert (Hrun : login_data credentials w = (Normal data, w)).
  { pose proof (login_data_world credentials w) as Hw.
    destruct (login_data credentials w) as [c w1].
    cbn [fst snd] in Hdata, Hw. now subst. }
  split.
  - intros Hopt Hprop Hred Hr. split.
    + unfold login. unfold bind at 1. rewrite Hrun.
      unfold bind at 1. unfold login_query. rewrite Hopt.
      unfold bind at 1. rewrite !bind_lift, Hprop, Hred.
      rewrite bind_lift, Hr. unfold ret, lift. reflexivity.
    + intros c Hc. apply (all_chars_not_mem uri_safe).
      * apply encodeURIComponent_safe.
      * now apply uri_safe_excludes.
  - intros Hopt. unfold login. unfold bind at 1. rewrite Hrun.
    unfold bind at 1. unfold login_query. rewrite Hopt.
    unfold bind, ret, lift. reflexivity.
Qed.

Lemma login_redirect_encoded_witness :
  (login app_client password_credentials
     (VObj [("redirect", VStr "https://a.example/cb?x=1&y=2")])
     (world_with blank_page (VStr "t"))
   = execute {| method := "POST";
                url := "https://x/v1/applications/app1/loginAttempts?redirect=https%3A%2F%2Fa.example%2Fcb%3Fx%3D1%26y%3D2";
                json := VObj [("type", VStr "basic"); ("value", VStr "dTpw")] |}
       (world_with blank_page (VStr "t")) /\
   forall c, mem_char c "&=#?/:;+, " = true ->
             mem_char c (encodeURIComponent "https://a.example/cb?x=1&y=2") = false) /\
  login app_client password_credentials VUndefined (world_with blank_page (VStr "t"))
  = execute {| method := "POST";
               url := "https://x/v1/applications/app1/loginAttempts";
               json := VObj [("type", VStr "basic"); ("value", VStr "dTpw")] |}
      (world_with blank_page (VStr "t")).
Proof.
  split.
  - apply (proj1 (login_redirect_encoded app_client password_credentials
                    (VObj [("redirect", VStr "https://a.example/cb?x=1&y=2")])
                    (VStr "https://a.example/cb?x=1&y=2")
                    (VObj [("type", VStr "basic"); ("value", VStr "dTpw")])
                    "https://a.example/cb?x=1&y=2"
                    (world_with blank_page (VStr "t")) eq_refl));
      reflexivity.
  - apply (proj2 (login_redirect_encoded app_client password_credentials
                    VUndefined VUndefined
                    (VObj [("type", VStr "basic"); ("value", VStr "dTpw")])
                    ""
                    (world_with blank_page (VStr "t")) eq_refl)).
    reflexivity.
Defined.

(** X12: for credentials without a truthy [providerData] whose [login]
    and [password] are strings, the body of the request has the fields
    [type] and [value], the [btoa] of [login:password], and after them the
    [accountStore] of the credentials when that is truthy; nothing else of
    the credentials is sent. *)
Theorem login_basic_payload :
  forall (props : list (string * value)) (l p : string) (accountStore : value)
         (w : world),
    falsy_prop (VObj props) "providerData" = true ->
    prop (VObj props) "login" = Normal (VStr l) ->
    l <> "" ->
    prop (VObj props) "password" = Normal (VStr p) ->
    prop (VObj props) "accountStore" = Normal accountStore ->
    login_data (VObj props) w
    = (Normal (VObj ([("type", VStr "basic");
                      ("value", VStr (btoa (l ++ ":" ++ p)))] ++
                     (if truthy accountStore
                      then [("accountStore", accountStore)]
                      else []))), w).
Proof.
  intros props l p accountStore w Hpd Hl Hne Hp Hacc.
  unfold falsy_prop in Hpd.
  destruct (prop (VObj props) "providerData") as [pd|] eqn:Epd; [|discriminate].
  apply negb_true_iff in Hpd.
  unfold login_data, bind, lift, ret, throw.
  cbn [typeof String.eqb Ascii.eqb Bool.eqb truthy negb].
  rewrite Epd, Hpd, Hl.
  assert (Ht : truthy (VStr l) = true) by (destruct l; [congruence|reflexivity]).
  rewrite Ht. cbn [concat to_string cbind]. rewrite Hp. cbn [to_string cbind].
  rewrite Hacc.
  pose proof (base64_btoa_octets ((l ++ ":") ++ p)) as Hb.
  rewrite Hb, append_assoc.
  now destruct (truthy accountStore).
Qed.

Lemma login_basic_payload_witness :
  login_data
    (VObj [("login", VStr "u"); ("password", VStr "p");
           ("accountStore", VObj [("href", VStr "https://x/v1/directories/d1")])])
    (world_with blank_page (VStr "t"))
  = (Normal (VObj [("type", VStr "basic"); ("value", VStr "dTpw");
                   ("accountStore",
                    VObj [("href", VStr "https://x/v1/directories/d1")])]),
     world_with blank_page (VStr "t")).
Proof.
  apply (login_basic_payload
           [("login", VStr "u"); ("password", VStr "p");
            ("accountStore", VObj [("href", VStr "https://x/v1/directories/d1")])]
           "u" "p" (VObj [("href", VStr "https://x/v1/directories/d1")])
           (world_with blank_page (VStr "t")));
    [reflexivity | reflexivity | discriminate | reflexivity | reflexivity].
Defined.

(** ** The other operations *)

(** X13: an operation given an argument of the wrong shape throws and
    leaves the world as it was, so that no request has gone out:
    [register] for a value that is not of type object,
    [sendPasswordResetEmail] for one that is neither a string nor of type
    object, [verifyEmailToken] and [verifyPasswordResetToken] without a
    function, [getFactors] and [createFactor] for an account that is falsy
    or has no truthy [href]. *)
Theorem operations_validate_first :
  forall (self : client) (x data : value) (w : world),
    ((typeof x =? "object") = false ->
     exists m, register self x w = (Throw (Error m), w)) /\
    ((typeof x =? "string") = false -> (typeof x =? "object") = false ->
     exists m, sendPasswordResetEmail self x w = (Throw (Error m), w)) /\
    (exists m, verifyEmailToken self false w = (Throw (Error m), w)) /\
    (exists m, verifyPasswordResetToken self false w = (Throw (Error m), w)) /\
    (truthy x = false \/ falsy_prop x "href" = true ->
     (exists m, getFactors x w = (Throw (Error m), w)) /\
     (exists m, createFactor x data w = (Throw (Error m), w))).
Proof.
  intros self x data w. repeat split.
  - intros H. unfold register. rewrite H. eexists. reflexivity.
  - intros Hs Ho. unfold sendPasswordResetEmail, bind. rewrite Hs, Ho.
    eexists. reflexivity.
  - eexists. reflexivity.
  - eexists. reflexivity.
  - unfold getFactors, href_of, bind, throw.
    destruct (truthy x) eqn:Ht; cbn [negb]; [|eexists; reflexivity].
    destruct H as [H|H]; [discriminate|].
    unfold falsy_prop in H. unfold lift.
    destruct (prop x "href") as [h|]; [|discriminate].
    rewrite H. eexists. reflexivity.
  - unfold createFactor, href_of, bind, throw.
    destruct (truthy x) eqn:Ht; cbn [negb]; [|eexists; reflexivity].
    destruct H as [H|H]; [discriminate|].
    unfold falsy_prop in H. unfold lift.
    destruct (prop x "href") as [h|]; [|discriminate].
    rewrite H. eexists. reflexivity.
Qed.

Lemma operations_validate_first_witness :
  (exists m, register app_client (VStr "jo") (world_with blank_page (VStr "t"))
             = (Throw (Error m), world_with blank_page (VStr "t"))) /\
  (exists m, sendPasswordResetEmail app_client (VNum 7)
               (world_with blank_page (VStr "t"))
             = (Throw (Error m), world_with blank_page (VStr "t"))) /\
  (exists m, getFactors (VObj [("href", VStr "")]) (world_with blank_page (VStr "t"))
             = (Throw (Error m), world_with blank_page (VStr "t"))).
Proof.
  split; [|split].
  - apply (proj1 (operations_validate_first app_client (VStr "jo") VNull
                    (world_with blank_page (VStr "t")))).
    reflexivity.
  - apply (proj1 (proj2 (operations_validate_first app_client (VNum 7) VNull
                           (world_with blank_page (VStr "t")))));
      reflexivity.
  - apply (proj2 (proj2 (proj2 (proj2
             (operations_validate_first app_client (VObj [("href", VStr "")]) VNull
                (world_with blank_page (VStr "t"))))))).
    right. reflexivity.
Defined.

(** X14: [register] posts the data, [null] and arrays included since
    their type is object, to the parent resource followed by [/accounts];
    [getFactors] and [createFactor] address the [href] of the account
    followed by [/factors], and [createFactor] sends an empty object when
    no data is given. *)
Theorem register_and_factors_requests :
  forall (self : client) (account data href0 : value) (p h : string) (w : world),
    ((typeof data =? "object") = true ->
     to_string (idSiteParentResource self) = Normal p ->
     register self data w
     = execute {| method := "POST"; url := p ++ "/accounts"; json := data |} w) /\
    (truthy account = true ->
     prop account "href" = Normal href0 ->
     truthy href0 = true ->
     to_string href0 = Normal h ->
     getFactors account w
     = execute {| method := "GET"; url := h ++ "/factors"; json := VBool true |} w /\
     createFactor account data w
     = execute {| method := "POST"; url := h ++ "/factors";
                  json := if truthy data then data else VObj [] |} w).
Proof.
  intros self account data href0 p h w. split.
  - intros Ho Hp. unfold register. rewrite Ho. cbn [negb].
    rewrite bind_lift. unfold concat. rewrite Hp. reflexivity.
  - intros Ha Hh Ht Hs.
    assert (Hhref : forall m, href_of account m w = (Normal href0, w)).
    { intros m. unfold href_of. rewrite Ha. cbn [negb].
      rewrite bind_lift, Hh, Ht. reflexivity. }
    split.
    + unfold getFactors. unfold bind at 1. rewrite Hhref.
      rewrite bind_lift. unfold concat. rewrite Hs. reflexivity.
    + unfold createFactor. unfold bind at 1. rewrite Hhref.
      rewrite bind_lift. unfold concat. rewrite Hs. reflexivity.
Qed.

Lemma register_and_factors_requests_witness :
  register org_client VNull (world_with blank_page (VStr "t"))
  = execute {| method := "POST";
               url := "https://x/v1/organizations/org1/accounts";
               json := VNull |} (world_with blank_page (VStr "t")) /\
  createFactor (VObj [("href", VStr "https://x/v1/accounts/a1")]) VUndefined
    (world_with blank_page (VStr "t"))
  = execute {| method := "POST";
               url := "https://x/v1/accounts/a1/factors";
               json := VObj [] |} (world_with blank_page (VStr "t")).
Proof.
  split.
  - apply (proj1 (register_and_factors_requests org_client VNull VNull VNull
                    "https://x/v1/organizations/org1" ""
                    (world_with blank_page (VStr "t")))); reflexivity.
  - apply (proj2 (register_and_factors_requests org_client
                    (VObj [("href", VStr "https://x/v1/accounts/a1")]) VUndefined
                    (VStr "https://x/v1/accounts/a1") ""
                    "https://x/v1/accounts/a1"
                    (world_with blank_page (VStr "t")))); reflexivity.
Defined.

(** ** More on the password reset token *)

(** X15: a truthy [sp_token] in the claims is the token, whatever the
    application href and the scope are, missing ones included. *)
Theorem getPasswordResetToken_direct :
  forall (jwtPayload0 appHref0 sp_token : value),
    prop jwtPayload0 "sp_token" = Normal sp_token ->
    truthy sp_token = true ->
    getPasswordResetToken jwtPayload0 appHref0 = Normal sp_token.
Proof.
  intros jwtPayload0 appHref0 sp_token Hprop Ht.
  unfold getPasswordResetToken. rewrite Hprop. cbn [cbind]. now rewrite Ht.
Qed.

Lemma getPasswordResetToken_direct_witness :
  getPasswordResetToken (VObj [("sp_token", VStr "abc"); ("scope", VNum 3)])
    VUndefined
  = Normal (VStr "abc").
Proof.
  apply (getPasswordResetToken_direct
           (VObj [("sp_token", VStr "abc"); ("scope", VNum 3)]) VUndefined
           (VStr "abc")); reflexivity.
Defined.

Lemma fold_or_else_falsy (l : list value) (a : value) :
  truthy a = false ->
  forallb (fun y => negb (truthy y)) l = true ->
  truthy (fold_left or_else l a) = false.
Proof.
  revert a. induction l as [|x l IH]; intros a Ha Hl; [exact Ha|].
  cbn [forallb] in Hl. apply andb_true_iff in Hl as [Hx Hl].
  apply negb_true_iff in Hx.
  cbn [fold_left]. apply IH; [|assumption].
  unfold or_else. now rewrite Ha.
Qed.

(** X16: when no entry of [scope.application[id]] carries a truthy
    [passwordResetToken], the array being empty or not, no [null] comes
    back: a [TypeError] is thrown. *)
Theorem getPasswordResetToken_none_throws :
  forall (jwtPayload0 : value) (h appId : string) (entries : list value),
    falsy_prop jwtPayload0 "sp_token" = true ->
    last_segment h = Some appId ->
    (scope <-? prop jwtPayload0 "scope" ;;
     applications <-? prop scope "application" ;;
     prop applications appId) = Normal (VArr entries) ->
    forallb lacks_token entries = true ->
    getPasswordResetToken jwtPayload0 (VStr h) = Throw TypeError.
Proof.
  intros jwtPayload0 h appId entries Hsp Hseg Happ Hall.
  unfold getPasswordResetToken. unfold falsy_prop in Hsp.
  destruct (prop jwtPayload0 "sp_token") as [sp|]; [|discriminate].
  apply negb_true_iff in Hsp. cbn [cbind as_string]. rewrite Hsp, Hseg.
  cbn [of_option cbind].
  destruct (prop jwtPayload0 "scope") as [scope|]; [|discriminate].
  cbn [cbind] in Happ |- *.
  destruct (prop scope "application") as [apps|]; [|discriminate].
  cbn [cbind] in Happ |- *. rewrite Happ. cbn [cbind].
  pose (token_of := fun x => match prop x "passwordResetToken" with
                             | Normal t => t
                             | Throw _ => VUndefined
                             end).
  rewrite (array_map_normal _ token_of).
  2:{ intros x Hx. unfold token_of.
      rewrite forallb_forall in Hall. specialize (Hall x Hx).
      unfold lacks_token, falsy_prop in Hall.
      destruct (prop x "passwordResetToken"); [reflexivity|discriminate]. }
  cbn [cbind].
  assert (Hfalsy : forallb (fun y => negb (truthy y)) (map token_of entries) = true).
  { apply forallb_map_falsy with (p := lacks_token); [|assumption].
    intros x Hx. unfold lacks_token, falsy_prop in Hx. unfold token_of.
    destruct (prop x "passwordResetToken"); [|discriminate].
    now apply negb_true_iff. }
  destruct (map token_of entries) as [|t ts]; [reflexivity|].
  cbn [forallb] in Hfalsy. apply andb_true_iff in Hfalsy as [Ht Hts].
  apply negb_true_iff in Ht.
  unfold array_reduce. cbn [cbind].
  pose proof (fold_or_else_falsy ts t Ht Hts) as Hf.
  destruct (fold_left or_else ts t); try reflexivity; discriminate Hf.
Qed.

Lemma getPasswordResetToken_none_throws_witness :
  getPasswordResetToken
    (VObj [("scope",
            VObj [("application",
                   VObj [("app1", VArr [VStr "read";
                                        VObj [("idSiteModel", VArr [VStr "read"])]])])])])
    (VStr "https://x/v1/applications/app1")
  = Throw TypeError.
Proof.
  apply (getPasswordResetToken_none_throws _ _ "app1"
           [VStr "read"; VObj [("idSiteModel", VArr [VStr "read"])]]);
    reflexivity.
Defined.

(** X17: once an entry with a truthy [passwordResetToken] array is found,
    [null] is returned when the array is not empty and holds no object,
    and [undefined] when the first object it holds has no key. *)
Theorem getPasswordResetToken_without_slug :
  forall (jwtPayload0 : value) (h appId : string)
         (before after skipped records : list value) (winner first : value),
    falsy_prop jwtPayload0 "sp_token" = true ->
    last_segment h = Some appId ->
    (scope <-? prop jwtPayload0 "scope" ;;
     applications <-? prop scope "application" ;;
     prop applications appId) = Normal (VArr (before ++ winner :: after)) ->
    forallb lacks_token before = true ->
    forallb readable after = true ->
    forallb (fun x => negb (is_record x)) skipped = true ->
    (prop winner "passwordResetToken" = Normal (VArr (first :: skipped)) ->
     is_record first = false ->
     getPasswordResetToken jwtPayload0 (VStr h) = Normal VNull) /\
    (prop winner "passwordResetToken"
       = Normal (VArr (skipped ++ VObj [] :: records)) ->
     getPasswordResetToken jwtPayload0 (VStr h) = Normal VUndefined).
Proof.
  intros jwtPayload0 h appId before after skipped records winner first
         Hsp Hseg Happ Hbefore Hafter Hskipped.
  assert (Hstart : forall toks,
             prop winner "passwordResetToken" = Normal (VArr toks) ->
             getPasswordResetToken jwtPayload0 (VStr h)
             = (objects <-? array_map (VArr toks)
                              (fun contents =>
                                 Normal (if typeof contents =? "object"
                                         then contents else VNull)) ;;
                passwordResetTokens <-? array_reduce objects or_else ;;
                Normal (if truthy passwordResetTokens
                        then first_key (keys passwordResetTokens)
                        else VNull))).
  { intros toks Hwin.
    unfold getPasswordResetToken. unfold falsy_prop in Hsp.
    destruct (prop jwtPayload0 "sp_token") as [sp|]; [|discriminate].
    apply negb_true_iff in Hsp. cbn [cbind as_string]. rewrite Hsp, Hseg.
    cbn [of_option cbind].
    destruct (prop jwtPayload0 "scope") as [scope|]; [|discriminate].
    cbn [cbind] in Happ |- *.
    destruct (prop scope "application") as [apps|]; [|discriminate].
    cbn [cbind] in Happ |- *. rewrite Happ. cbn [cbind].
    pose (token_of := fun x => match prop x "passwordResetToken" with
                               | Normal t => t
                               | Throw _ => VUndefined
                               end).
    rewrite (array_map_normal _ token_of).
    2:{ intros x Hx. unfold token_of.
        apply in_app_or in Hx as [Hx|[Hx|Hx]].
        - rewrite forallb_forall in Hbefore. specialize (Hbefore x Hx).
          unfold lacks_token, falsy_prop in Hbefore.
          destruct (prop x "passwordResetToken"); [reflexivity|discriminate].
        - subst x. now rewrite Hwin.
        - rewrite forallb_forall in Hafter.
          destruct (prop_readable x "passwordResetToken" (Hafter x Hx)) as [t Ht].
          now rewrite Ht. }
    cbn [cbind]. rewrite map_app. cbn [map].
    assert (Hw : token_of winner = VArr toks) by (unfold token_of; now rewrite Hwin).
    rewrite array_reduce_first_truthy.
    - cbn [cbind]. now rewrite Hw.
    - apply forallb_map_falsy with (p := lacks_token); [|assumption].
      intros x Hx. unfold lacks_token, falsy_prop in Hx. unfold token_of.
      destruct (prop x "passwordResetToken"); [|discriminate].
      now apply negb_true_iff.
    - now rewrite Hw. }
  assert (Hfilter : forall l,
             forallb (fun x => negb (is_record x)) l = true ->
             forallb (fun y => negb (truthy y))
               (map (fun contents => if typeof contents =? "object"
                                     then contents else VNull) l) = true).
  { intros l Hl.
    apply forallb_map_falsy with (p := fun x => negb (is_record x)); [|assumption].
    intros x Hx. apply negb_true_iff in Hx. unfold is_record in Hx.
    destruct (typeof x =? "object"); [exact Hx|reflexivity]. }
  split.
  - intros Hwin Hfirst. rewrite (Hstart _ Hwin).
    rewrite (array_map_normal _
               (fun contents => if typeof contents =? "object" then contents else VNull))
      by reflexivity.
    cbn [cbind map]. unfold array_reduce. cbn [cbind].
    assert (Hf : truthy (if typeof first =? "object" then first else VNull) = false).
    { unfold is_record in Hfirst.
      destruct (typeof first =? "object"); [exact Hfirst|reflexivity]. }
    pose proof (fold_or_else_falsy _ _ Hf (Hfilter _ Hskipped)) as Hfold.
    now rewrite Hfold.
  - intros Hwin. rewrite (Hstart _ Hwin).
    rewrite (array_map_normal _
               (fun contents => if typeof contents =? "object" then contents else VNull))
      by reflexivity.
    cbn [cbind]. rewrite map_app. cbn [map].
    rewrite array_reduce_first_truthy; [reflexivity| |reflexivity].
    now apply Hfilter.
Qed.

Lemma getPasswordResetToken_without_slug_witness :
  getPasswordResetToken
    (VObj [("scope",
            VObj [("application",
                   VObj [("app1", VArr [VObj [("passwordResetToken",
                                               VArr [VStr "read"])]])])])])
    (VStr "https://x/v1/applications/app1")
  = Normal VNull /\
  getPasswordResetToken
    (VObj [("scope",
            VObj [("application",
                   VObj [("app1", VArr [VObj [("passwordResetToken",
                                               VArr [VObj []])]])])])])
    (VStr "https://x/v1/applications/app1")
  = Normal VUndefined.
Proof.
  split.
  - apply (proj1 (getPasswordResetToken_without_slug
                    (VObj [("scope",
                            VObj [("application",
                                   VObj [("app1",
                                          VArr [VObj [("passwordResetToken",
                                                       VArr [VStr "read"])]])])])])
                    "https://x/v1/applications/app1" "app1" [] [] [] []
                    (VObj [("passwordResetToken", VArr [VStr "read"])])
                    (VStr "read") eq_refl eq_refl eq_refl eq_refl eq_refl eq_refl));
      reflexivity.
  - apply (proj2 (getPasswordResetToken_without_slug
                    (VObj [("scope",
                            VObj [("application",
                                   VObj [("app1",
                                          VArr [VObj [("passwordResetToken",
                                                       VArr [VObj []])]])])])])
                    "https://x/v1/applications/app1" "app1" [] [] [] []
                    (VObj [("passwordResetToken", VArr [VObj []])])
                    VNull eq_refl eq_refl eq_refl eq_refl eq_refl eq_refl));
      reflexivity.
Defined.

(** ** Searching a text for a literal and its value *)

Lemma starts_with_within (lit u r : string) (c : ascii) :
  mem_char c lit = false ->
  starts_with lit (u ++ String c r) = true ->
  starts_with lit u = true.
Proof.
  unfold starts_with. revert u.
  induction lit as [|x lit IH]; intros u Hc H; [reflexivity|].
  cbn [mem_char] in Hc. apply orb_false_iff in Hc as [Hx Hlit].
  destruct u as [|y u].
  - cbn in H. rewrite Ascii.eqb_sym, Hx in H. discriminate H.
  - cbn [append strip_prefix] in H |- *.
    destruct (Ascii.eqb x y); [|discriminate H].
    now apply IH.
Qed.

Lemma starts_with_occurs (lit s : string) :
  starts_with lit s = true -> occurs lit s = true.
Proof. destruct s; cbn [occurs]; now intros ->. Qed.

Lemma capture_here_starts (lit : string) (stop : ascii) (s : string) :
  starts_with lit s = false -> capture_here lit stop s = None.
Proof.
  unfold starts_with, capture_here. now destruct (strip_prefix lit s).
Qed.

(** A text in which the literal does not occur has no value for it. *)
Lemma capture_not_occurs (lit : string) (stop : ascii) (s : string) :
  occurs lit s = false -> capture lit stop s = None.
Proof.
  induction s as [|c s IH]; cbn [occurs capture]; intros H;
    apply orb_false_iff in H as [Hs Ho].
  - now rewrite capture_here_starts.
  - rewrite capture_here_starts by assumption. now apply IH.
Qed.

(** A piece in which the literal does not occur is passed over when the
    character after it is none of the literal's. *)
Lemma capture_skip_piece (lit : string) (stop c : ascii) (p r : string) :
  occurs lit p = false ->
  mem_char c lit = false ->
  capture lit stop (p ++ String c r) = capture lit stop (String c r).
Proof.
  intros Ho Hc. induction p as [|x p IH]; [reflexivity|].
  cbn [occurs] in Ho. apply orb_false_iff in Ho as [Hs Ho].
  change (String x p ++ String c r) with (String x (p ++ String c r)).
  cbn [capture].
  rewrite capture_here_starts.
  - now apply IH.
  - destruct (starts_with lit (String x (p ++ String c r))) eqn:E; [|reflexivity].
    apply (starts_with_within lit (String x p) r c Hc) in E. congruence.
Qed.

Lemma mem_char_app (c : ascii) (a b : string) :
  mem_char c (a ++ b) = mem_char c a || mem_char c b.
Proof.
  induction a as [|x a IH]; [reflexivity|].
  cbn [append mem_char]. now rewrite IH, orb_assoc.
Qed.

(** The removal passes over a text that does not have the first character
    of the literal. *)
Lemma remove_capture_skip (x : ascii) (lit : string) (stop : ascii) (p s : string) :
  mem_char x p = false ->
  remove_capture (String x lit) stop (p ++ s)
  = p ++ remove_capture (String x lit) stop s.
Proof.
  intros Hx. induction p as [|y p IH]; [reflexivity|].
  cbn [mem_char] in Hx. apply orb_false_iff in Hx as [Hy Hp].
  change (String y p ++ s) with (String y (p ++ s)).
  cbn [remove_capture].
  assert (Hhere : capture_here (String x lit) stop (String y (p ++ s)) = None).
  { unfold capture_here. cbn [strip_prefix]. now rewrite Hy. }
  rewrite Hhere. cbn [append]. now rewrite IH.
Qed.

Lemma drop_app (a b : string) : drop (String.length a) (a ++ b) = b.
Proof. induction a as [|x a IH]; [reflexivity|exact IH]. Qed.

Lemma length_app (a b : string) :
  String.length (a ++ b) = String.length a + String.length b.
Proof. induction a as [|x a IH]; [reflexivity|]. cbn. now rewrite IH. Qed.

Lemma capture_here_at_start (lit : string) (stop : ascii) (v rest : string) :
  v <> "" ->
  mem_char stop v = false ->
  (rest = "" \/ exists rest', rest = String stop rest') ->
  capture_here lit stop (lit ++ v ++ rest) = Some v.
Proof.
  intros Hne Hmem Hrest. unfold capture_here.
  rewrite strip_prefix_app, take_until_app by assumption.
  destruct v; [congruence|reflexivity].
Qed.

Lemma remove_capture_at_start (lit : string) (stop : ascii) (v rest : string) :
  v <> "" ->
  mem_char stop v = false ->
  (rest = "" \/ exists rest', rest = String stop rest') ->
  remove_capture lit stop (lit ++ v ++ rest) = rest.
Proof.
  intros Hne Hmem Hrest.
  pose proof (capture_here_at_start lit stop v rest Hne Hmem Hrest) as H.
  destruct (lit ++ v ++ rest) eqn:E; cbn [remove_capture]; rewrite H.
  - rewrite <- E, <- length_app, <- append_assoc. apply drop_app.
  - rewrite <- E, <- length_app, <- append_assoc. apply drop_app.
Qed.

Lemma remove_capture_none (lit : string) (stop : ascii) (s : string) :
  capture lit stop s = None -> remove_capture lit stop s = s.
Proof.
  induction s as [|c s IH]; cbn [capture remove_capture];
    destruct (capture_here lit stop _); try discriminate; [reflexivity|].
  intros H. now rewrite IH.
Qed.

Lemma capture_finds (lit : string) (stop c : ascii) (pre rest : string) :
  c <> stop ->
  capture lit stop (pre ++ lit ++ String c rest) <> None.
Proof.
  intros Hc.
  assert (Hhere : capture_here lit stop (lit ++ String c rest) <> None).
  { unfold capture_here. rewrite strip_prefix_app. cbn [take_until].
    apply Ascii.eqb_neq in Hc. rewrite Hc. discriminate. }
  induction pre as [|x pre IH].
  - cbn [append]. destruct (capture_here lit stop (lit ++ String c rest)) eqn:E;
      [|congruence].
    destruct (lit ++ String c rest); cbn [capture]; rewrite E; discriminate.
  - change (String x pre ++ lit ++ String c rest)
      with (String x (pre ++ lit ++ String c rest)).
    cbn [capture].
    destruct (capture_here lit stop (String x (pre ++ lit ++ String c rest)));
      [discriminate|exact IH].
Qed.

(** The search finds nothing exactly when the literal is nowhere followed
    by a character other than the stop. *)
Lemma capture_none_iff (lit : string) (stop : ascii) (s : string) :
  capture lit stop s = None <-> ~ value_after lit stop s.
Proof.
  split.
  - intros H (pre & c & rest & -> & Hc).
    now apply (capture_finds lit stop c pre rest Hc).
  - intros H. destruct (capture lit stop s) as [v|] eqn:E; [|reflexivity].
    exfalso. apply H.
    destruct (capture_sound _ _ _ _ E) as (Hv & Hmem & before & rest & -> & _).
    destruct v as [|c v]; [congruence|].
    exists before, c, (v ++ rest). split; [reflexivity|].
    cbn [mem_char] in Hmem. apply orb_false_iff in Hmem as [Hc _].
    apply Ascii.eqb_neq in Hc. congruence.
Qed.

(** ** The token in the address *)

(** X18: when the query of the address starts with [jwt=] and its value,
    the value is what is decoded and returned, and the address is left
    without the question mark, the parameter and its value: what followed
    the value is joined to what came before the question mark. *)
Theorem getJwtFromUrl_strips_first_parameter :
  forall (w : world) (pre v rest : string),
    href (page w) = pre ++ "?jwt=" ++ v ++ rest ->
    mem_char "?" pre = false ->
    occurs "jwt=" pre = false ->
    v <> "" ->
    mem_char "&" v = false ->
    (rest = "" \/ exists rest', rest = String "&" rest') ->
    fst (getJwtFromUrl w) = (d <-? decodeURIComponent v ;; Normal (VStr d)) /\
    href (page (snd (getJwtFromUrl w))) = pre ++ rest.
Proof.
  intros w pre v rest Hhref Hq Ho Hne Hamp Hrest.
  assert (Hcap : capture "jwt=" "&" (href (page w)) = Some v).
  { rewrite Hhref.
    change (pre ++ "?jwt=" ++ v ++ rest)
      with (pre ++ String "?" ("jwt=" ++ v ++ rest)).
    rewrite capture_skip_piece by (assumption || reflexivity).
    cbn [capture].
    change (capture_here "jwt=" "&" (String "?" ("jwt=" ++ v ++ rest)))
      with (@None string).
    now apply capture_at_start. }
  assert (Hrem : remove_capture "?jwt=" "&" (href (page w)) = pre ++ rest).
  { rewrite Hhref, remove_capture_skip by assumption.
    now rewrite remove_capture_at_start. }
  unfold getJwtFromUrl, bind, read. rewrite Hcap.
  unfold on_page, lift, location_replace. cbn [page href].
  destruct (decodeURIComponent v); split; try reflexivity; exact Hrem.
Qed.

Lemma getJwtFromUrl_strips_first_parameter_witness :
  fst (getJwtFromUrl
         (world_with {| href := "https://id.example.com/?jwt=a.b%2Ec&lang=en";
                        jar := []; assigned := [] |} VUndefined))
    = Normal (VStr "a.b.c") /\
  href (page (snd (getJwtFromUrl
         (world_with {| href := "https://id.example.com/?jwt=a.b%2Ec&lang=en";
                        jar := []; assigned := [] |} VUndefined))))
    = "https://id.example.com/&lang=en".
Proof.
  apply (getJwtFromUrl_strips_first_parameter
           (world_with {| href := "https://id.example.com/?jwt=a.b%2Ec&lang=en";
                          jar := []; assigned := [] |} VUndefined)
           "https://id.example.com/" "a.b%2Ec" "&lang=en");
    try reflexivity; [discriminate | right; now exists "lang=en"].
Defined.

(** X19: a [jwt=] value that does not come right after a question mark is
    returned as well, but the address keeps it and nothing else changes:
    the next call finds the same token. *)
Theorem getJwtFromUrl_keeps_later_parameter :
  forall (w : world) (m : string),
    capture "jwt=" "&" (href (page w)) = Some m ->
    capture "?jwt=" "&" (href (page w)) = None ->
    getJwtFromUrl w = ((d <-? decodeURIComponent m ;; Normal (VStr d)), w).
Proof.
  intros w m Hcap Hnone.
  unfold getJwtFromUrl, bind, read. rewrite Hcap.
  unfold on_page, lift, location_replace.
  rewrite (remove_capture_none _ _ _ Hnone).
  destruct w as [[h j a] e]. cbn [page href jar assigned requestExecutor].
  now destruct (decodeURIComponent m).
Qed.

Lemma getJwtFromUrl_keeps_later_parameter_witness :
  getJwtFromUrl
    (world_with {| href := "https://id.example.com/?lang=en&jwt=a.b.c";
                   jar := []; assigned := [] |} VUndefined)
  = (Normal (VStr "a.b.c"),
     world_with {| href := "https://id.example.com/?lang=en&jwt=a.b.c";
                   jar := []; assigned := [] |} VUndefined).
Proof.
  apply (getJwtFromUrl_keeps_later_parameter
           (world_with {| href := "https://id.example.com/?lang=en&jwt=a.b.c";
                          jar := []; assigned := [] |} VUndefined) "a.b.c");
    reflexivity.
Defined.

(** ** The session cookie *)

Lemma join_cookie_texts (before rest : list (string * string)) :
  rest <> [] ->
  join "; " (map cookie_pair (before ++ rest))
  = cookie_texts before ++ join "; " (map cookie_pair rest).
Proof.
  intros Hrest. induction before as [|b before IH]; [reflexivity|].
  cbn [app map cookie_texts join].
  destruct (map cookie_pair (before ++ rest)) as [|x l] eqn:E.
  - destruct before; [destruct rest; [congruence|discriminate E]|discriminate E].
  - transitivity (cookie_pair b ++ "; " ++ join "; " (x :: l)); [reflexivity|].
    rewrite IH, append_assoc. reflexivity.
Qed.

(** Cookies without the text [idSiteJwt=] are passed over by the search
    for the session cookie. *)
Lemma capture_skip_cookies (before : list (string * string)) (s : string) :
  forallb not_session before = true ->
  capture "idSiteJwt=" ";" (cookie_texts before ++ s)
  = capture "idSiteJwt=" ";" s.
Proof.
  induction before as [|c before IH]; [reflexivity|].
  cbn [forallb cookie_texts]. intros H.
  apply andb_true_iff in H as [Hc Hrest].
  apply negb_true_iff in Hc.
  rewrite append_assoc.
  change (("; " ++ cookie_texts before) ++ s)
    with (String ";" (String " " (cookie_texts before ++ s))).
  rewrite capture_skip_piece by (assumption || reflexivity).
  cbn [capture].
  change (capture_here "idSiteJwt=" ";"
            (String ";" (String " " (cookie_texts before ++ s))))
    with (@None string).
  change (capture_here "idSiteJwt=" ";"
            (String " " (cookie_texts before ++ s)))
    with (@None string).
  now apply IH.
Qed.

Lemma capture_join_none (cs : list (string * string)) :
  forallb not_session cs = true ->
  capture "idSiteJwt=" ";" (join "; " (map cookie_pair cs)) = None.
Proof.
  induction cs as [|c cs IH]; [reflexivity|].
  cbn [forallb map]. intros H.
  apply andb_true_iff in H as [Hc Hrest].
  apply negb_true_iff in Hc.
  destruct cs as [|c' cs].
  - cbn [map join]. now apply capture_not_occurs.
  - change (join "; " (cookie_pair c :: map cookie_pair (c' :: cs)))
      with (cookie_pair c ++
            String ";" (String " " (join "; " (map cookie_pair (c' :: cs))))).
    rewrite capture_skip_piece by (assumption || reflexivity).
    cbn [capture].
    change (capture_here "idSiteJwt=" ";"
              (String ";" (String " " (join "; " (map cookie_pair (c' :: cs))))))
      with (@None string).
    change (capture_here "idSiteJwt=" ";"
              (String " " (join "; " (map cookie_pair (c' :: cs)))))
      with (@None string).
    now apply IH.
Qed.

(** The session cookie is found behind cookies that do not have the text
    [idSiteJwt=]. *)
Lemma getCookie_behind (b : browser) (before after : list (string * string))
      (v : string) :
  jar b = (before ++ ("idSiteJwt", v) :: after)%list ->
  forallb not_session before = true ->
  v <> "" ->
  mem_char ";" v = false ->
  getCookie "idSiteJwt" b = VStr v.
Proof.
  intros Hjar Hbefore Hne Hsemi. unfold getCookie, document_cookie.
  rewrite Hjar, join_cookie_texts by discriminate.
  rewrite capture_skip_cookies by assumption.
  pose proof (getCookie_first_cookie v after "" [] Hne Hsemi) as H.
  unfold getCookie, document_cookie in H. cbn [jar] in H.
  exact H.
Qed.

Lemma not_session_name (c : string * string) :
  not_session c = true -> (fst c =? "idSiteJwt") = false.
Proof.
  destruct c as [n v]. unfold not_session. cbn [fst].
  destruct (n =? "idSiteJwt") eqn:E; [|reflexivity].
  apply String.eqb_eq in E. subst n. intros H.
  apply negb_true_iff in H.
  assert (Ho : occurs "idSiteJwt=" (cookie_pair ("idSiteJwt", v)) = true).
  { apply starts_with_occurs. unfold starts_with.
    change (cookie_pair ("idSiteJwt", v)) with ("idSiteJwt=" ++ v).
    now rewrite strip_prefix_app. }
  congruence.
Qed.

Lemma store_behind (val v : string) (before after : list (string * string)) :
  forallb not_session before = true ->
  store "idSiteJwt" val (before ++ ("idSiteJwt", v) :: after)%list
  = (before ++ ("idSiteJwt", val) :: after)%list.
Proof.
  induction before as [|[n x] before IH]; [reflexivity|].
  cbn [forallb app store]. intros H.
  apply andb_true_iff in H as [Hc Hrest].
  apply not_session_name in Hc. cbn [fst] in Hc. rewrite Hc.
  now rewrite IH.
Qed.

Lemma store_session_shape (t : string) (cs : list (string * string)) :
  forallb (fun c => (fst c =? "idSiteJwt") || not_session c) cs = true ->
  exists before after,
    store "idSiteJwt" t cs = (before ++ ("idSiteJwt", t) :: after)%list /\
    forallb not_session before = true.
Proof.
  induction cs as [|[n v] cs IH]; cbn [forallb store fst]; intros H.
  - now exists [], [].
  - apply andb_true_iff in H as [Hc Hrest].
    destruct (n =? "idSiteJwt") eqn:E.
    + apply String.eqb_eq in E. subst n. now exists [], cs.
    + cbn [orb] in Hc. destruct (IH Hrest) as (before & after & Hs & Hb).
      exists ((n, v) :: before), after. rewrite Hs. split; [reflexivity|].
      cbn [forallb]. now rewrite Hc, Hb.
Qed.

Lemma take_until_absent (stop : ascii) (s : string) :
  mem_char stop s = false -> take_until stop s = s.
Proof.
  induction s as [|c s IH]; [reflexivity|].
  cbn [mem_char take_until]. intros H.
  apply orb_false_iff in H as [Hc Hs].
  rewrite Ascii.eqb_sym, Hc. now rewrite IH.
Qed.

Lemma cookie_octet_plain (c : ascii) :
  cookie_octet c = true ->
  negb (is_blank c) = true /\ negb (control_character c) = true.
Proof.
  destruct c as [[] [] [] [] [] [] [] []]; vm_compute; intros H;
    split; congruence.
Qed.

Lemma cookie_safe_inv (t : string) :
  cookie_safe t = true ->
  t <> "" /\ mem_char ";" t = false /\ trim t = t /\
  all_chars (fun c => negb (control_character c)) t = true.
Proof.
  unfold cookie_safe. intros H.
  apply andb_true_iff in H as [Hne Hall].
  apply negb_true_iff in Hne. apply String.eqb_neq in Hne.
  repeat split.
  - exact Hne.
  - apply (all_chars_not_mem cookie_octet); [exact Hall|reflexivity].
  - apply trim_no_blank. apply (all_chars_impl cookie_octet); [|exact Hall].
    intros c Hc. now apply cookie_octet_plain.
  - apply (all_chars_impl cookie_octet); [|exact Hall].
    intros c Hc. now apply cookie_octet_plain.
Qed.

Lemma session_cookie_jar (t : string) (b : browser) :
  all_chars (fun c => negb (control_character c)) t = true ->
  mem_char ";" t = false ->
  trim t = t ->
  jar (set_document_cookie ("idSiteJwt=" ++ t) b) = store "idSiteJwt" t (jar b).
Proof.
  intros Hplain Hsemi Htrim. unfold set_document_cookie.
  rewrite all_chars_app, Hplain. cbn [all_chars andb]. cbv iota.
  cbn [jar]. rewrite take_until_absent.
  - cbn [append cut Ascii.eqb Bool.eqb]. now rewrite Htrim.
  - cbn [append mem_char Ascii.eqb Bool.eqb orb]. exact Hsemi.
Qed.

(** X20: the token that [saveSessionToken] writes is the token that the
    next [getJwtFromUrl] returns.  The credential of the executor is a
    string that is not empty and is made of the characters of a cookie
    value (printable ASCII without space, double quote, comma, semicolon
    and backslash, so no control character), the address has no [jwt=]
    followed by a character other than [&], and no cookie under another
    name has the text [idSiteJwt=]. *)
Theorem saved_session_token_is_read_back :
  forall (w : world) (t : string),
    authToken (requestExecutor w) = VStr t ->
    cookie_safe t = true ->
    forallb (fun c => (fst c =? "idSiteJwt") || not_session c)
            (jar (page w)) = true ->
    ~ value_after "jwt=" "&" (href (page w)) ->
    fst (saveSessionToken w) = Normal tt /\
    getCookie "idSiteJwt" (page (snd (saveSessionToken w))) = VStr t /\
    fst (getJwtFromUrl (snd (saveSessionToken w))) = Normal (VStr t).
Proof.
  intros w t Htok Hsafe Hjar Hhref.
  apply capture_none_iff in Hhref.
  apply cookie_safe_inv in Hsafe as (Hne & Hsemi & Htrim & Hplain).
  unfold saveSessionToken, getSessionToken, bind, read, lift, on_page.
  rewrite Htok. cbn [to_string fst snd page].
  destruct (store_session_shape t (jar (page w)) Hjar)
    as (before & after & Hstore & Hbefore).
  assert (Hcookie : getCookie "idSiteJwt"
                      (set_document_cookie ("idSiteJwt=" ++ t) (page w)) = VStr t).
  { apply (getCookie_behind _ before after); try assumption.
    now rewrite session_cookie_jar by assumption. }
  split; [reflexivity|]. split; [exact Hcookie|].
  unfold getJwtFromUrl, bind, read. cbn [page].
  rewrite set_document_cookie_href.
  rewrite Hhref, Hcookie. cbn [truthy].
  apply String.eqb_neq in Hne. rewrite Hne. reflexivity.
Qed.

Lemma saved_session_token_is_read_back_witness :
  fst (saveSessionToken
         (world_with {| href := "https://id.example.com/";
                        jar := [("lang", "en"); ("idSiteJwt", "old")];
                        assigned := [] |} (VStr "a.b.c"))) = Normal tt /\
  getCookie "idSiteJwt"
    (page (snd (saveSessionToken
         (world_with {| href := "https://id.example.com/";
                        jar := [("lang", "en"); ("idSiteJwt", "old")];
                        assigned := [] |} (VStr "a.b.c"))))) = VStr "a.b.c" /\
  fst (getJwtFromUrl (snd (saveSessionToken
         (world_with {| href := "https://id.example.com/";
                        jar := [("lang", "en"); ("idSiteJwt", "old")];
                        assigned := [] |} (VStr "a.b.c")))))
    = Normal (VStr "a.b.c").
Proof.
  apply (saved_session_token_is_read_back
           (world_with {| href := "https://id.example.com/";
                          jar := [("lang", "en"); ("idSiteJwt", "old")];
                          assigned := [] |} (VStr "a.b.c")) "a.b.c");
    try reflexivity.
  apply capture_none_iff. reflexivity.
Defined.

(** X21: the session cookie is read once.  When the address has no [jwt=]
    value and the jar holds the session cookie among cookies that do not
    have the text [idSiteJwt=], [getJwtFromUrl] returns the value of the
    cookie, and called again it returns the empty token and changes
    nothing. *)
Theorem session_cookie_read_once :
  forall (w : world) (before after : list (string * string)) (v : string),
    jar (page w) = (before ++ ("idSiteJwt", v) :: after)%list ->
    forallb not_session before = true ->
    forallb not_session after = true ->
    v <> "" ->
    mem_char ";" v = false ->
    capture "jwt=" "&" (href (page w)) = None ->
    fst (getJwtFromUrl w) = Normal (VStr v) /\
    getJwtFromUrl (snd (getJwtFromUrl w))
    = (Normal (VStr ""), snd (getJwtFromUrl w)).
Proof.
  intros w before after v Hjar Hbefore Hafter Hne Hsemi Hhref.
  pose proof (getCookie_behind (page w) before after v Hjar Hbefore Hne Hsemi)
    as Hcookie.
  assert (Hrun : getJwtFromUrl w
                 = (Normal (VStr v),
                    {| page := set_document_cookie ("idSiteJwt=" ++ "") (page w);
                       requestExecutor := requestExecutor w |})).
  { unfold getJwtFromUrl, bind, read. rewrite Hhref, Hcookie. cbn [truthy].
    apply String.eqb_neq in Hne. rewrite Hne. reflexivity. }
  rewrite Hrun. cbn [fst snd]. split; [reflexivity|].
  assert (Hgone : getCookie "idSiteJwt"
                    (set_document_cookie ("idSiteJwt=" ++ "") (page w))
                  = VUndefined).
  { unfold getCookie, document_cookie.
    rewrite (session_cookie_jar "" (page w)) by reflexivity.
    rewrite Hjar, store_behind by assumption.
    rewrite join_cookie_texts by discriminate.
    change ("idSiteJwt" ++ "=") with "idSiteJwt=".
    rewrite capture_skip_cookies by assumption.
    destruct after as [|a after]; [reflexivity|].
    change (join "; " (map cookie_pair (("idSiteJwt", "") :: a :: after)))
      with ("idSiteJwt=; " ++ join "; " (map cookie_pair (a :: after))).
    change (capture "idSiteJwt=" ";"
              ("idSiteJwt=; " ++ join "; " (map cookie_pair (a :: after))))
      with (capture "idSiteJwt=" ";" (join "; " (map cookie_pair (a :: after)))).
    now rewrite capture_join_none. }
  unfold getJwtFromUrl, bind, read. cbn [page].
  change (href (set_document_cookie ("idSiteJwt=" ++ "") (page w)))
    with (href (page w)).
  rewrite Hhref, Hgone. reflexivity.
Qed.

Lemma session_cookie_read_once_witness :
  fst (getJwtFromUrl
         (world_with {| href := "https://id.example.com/";
                        jar := [("lang", "en"); ("idSiteJwt", "a.b.c");
                                ("theme", "dark")];
                        assigned := [] |} VUndefined))
    = Normal (VStr "a.b.c") /\
  getJwtFromUrl (snd (getJwtFromUrl
         (world_with {| href := "https://id.example.com/";
                        jar := [("lang", "en"); ("idSiteJwt", "a.b.c");
                                ("theme", "dark")];
                        assigned := [] |} VUndefined)))
  = (Normal (VStr ""),
     snd (getJwtFromUrl
         (world_with {| href := "https://id.example.com/";
                        jar := [("lang", "en"); ("idSiteJwt", "a.b.c");
                                ("theme", "dark")];
                        assigned := [] |} VUndefined))).
Proof.
  apply (session_cookie_read_once
           (world_with {| href := "https://id.example.com/";
                          jar := [("lang", "en"); ("idSiteJwt", "a.b.c");
                                  ("theme", "dark")];
                          assigned := [] |} VUndefined)
           [("lang", "en")] [("theme", "dark")] "a.b.c");
    try reflexivity. discriminate.
Defined.

(** ** The precedence of the token sources *)

Lemma getCookie_none_iff (b : browser) :
  getCookie "idSiteJwt" b = VUndefined <->
  ~ value_after "idSiteJwt=" ";" (document_cookie b).
Proof.
  rewrite <- capture_none_iff. unfold getCookie.
  change ("idSiteJwt" ++ "=") with "idSiteJwt=".
  destruct (capture "idSiteJwt=" ";" (document_cookie b)); split;
    congruence || discriminate.
Qed.




(** X5: the callback is handed [JWT_NOT_FOUND] exactly when nothing is to
    be found: the options hold no truthy token, the address has no [jwt=]
    followed by a character other than [&], and [document.cookie] has no
    [idSiteJwt=] followed by a character other than [;].  The world is
    then left as it was. *)
Theorem Client_not_found_iff :
  forall (P : platform) (opts : options) (w : world),
    ((exists w', Client P opts w = (Normal (Deferred [Err JWT_NOT_FOUND]), w')) <->
     (truthy (token opts) = false /\
      ~ value_after "jwt=" "&" (href (page w)) /\
      ~ value_after "idSiteJwt=" ";" (document_cookie (page w)))) /\
    (forall w', Client P opts w = (Normal (Deferred [Err JWT_NOT_FOUND]), w') ->
                w' = w).
Proof.
  intros P opts w. split; [split|].
  - intros [w' H].
    destruct (Client_not_found_inv _ _ _ _ H) as (Ht & Hc & Hg & _).
    split; [exact Ht|]. split.
    + now apply capture_none_iff.
    + now apply getCookie_none_iff.
  - intros (Ht & Hc & Hg). exists w.
    apply Client_nothing_found; [exact Ht| |].
    + now apply capture_none_iff.
    + now apply getCookie_none_iff.
  - intros w' H. now destruct (Client_not_found_inv _ _ _ _ H) as (_ & _ & _ & ->).
Qed.

Lemma Client_not_found_iff_witness :
  exists w',
    Client table_platform no_options (world_with blank_page VUndefined)
    = (Normal (Deferred [Err JWT_NOT_FOUND]), w').
Proof.
  apply (proj2 (proj1 (Client_not_found_iff table_platform no_options
                         (world_with blank_page VUndefined)))).
  split; [reflexivity|].
  split; apply capture_none_iff; reflexivity.
Defined.

(** ** Decoding what was encoded *)

Lemma tokens_encodeURIComponent (s : string) :
  tokens (encodeURIComponent s)
  = Some (map written_token (list_ascii_of_string s)).
Proof.
  induction s as [|c s IH]; [reflexivity|].
  cbn [encodeURIComponent list_ascii_of_string map]. unfold written_token at 1.
  destruct (unreserved c) eqn:Hc.
  - cbn [tokens]. rewrite (unreserved_not_percent c Hc), IH. reflexivity.
  - destruct (hex_char_cases c) as (_ & _ & _ & _ & Hh & Hl & Hb).
    cbv zeta in Hh, Hl, Hb.
    cbn [tokens Ascii.eqb Bool.eqb]. rewrite Hh, Hl, IH.
    f_equal. f_equal. f_equal.
    rewrite <- Hb at 3. rewrite N_ascii_embedding; [reflexivity|].
    pose proof (N_ascii_bounded c). 
    pose proof (N.div_mod (N_of_ascii c) 16). lia.
Qed.

Lemma written_token_high (c : ascii) :
  (128 <=? N_of_ascii c)%N = true -> written_token c = Esc (N_of_ascii c).
Proof.
  unfold written_token.
  destruct c as [[] [] [] [] [] [] [] []]; vm_compute; congruence.
Qed.

Lemma between_high (lo hi b : N) :
  (128 <= lo)%N -> between lo hi b = true -> (128 <=? b)%N = true.
Proof.
  unfold between. intros Hlo H. apply andb_true_iff in H as [H _].
  apply N.leb_le in H. apply N.leb_le. lia.
Qed.

Lemma between_choice_high (p : bool) (l1 l2 hi b : N) :
  (128 <= l1)%N -> (128 <= l2)%N ->
  between (if p then l1 else l2) hi b = true -> (128 <=? b)%N = true.
Proof.
  intros H1 H2. apply between_high. now destruct p.
Qed.

Lemma decode_written_tokens (s : string) :
  well_formed_utf8 s = true ->
  decode_tokens (map written_token (list_ascii_of_string s)) = Some s.
Proof.
  assert (H : forall n s, String.length s <= n ->
                well_formed_utf8 s = true ->
                decode_tokens (map written_token (list_ascii_of_string s))
                = Some s).
  { clear s. induction n as [|n IH]; intros s Hn Hwf.
    - destruct s; [reflexivity|simpl in Hn; lia].
    - destruct s as [|c0 rest]; [reflexivity|].
      cbn [well_formed_utf8] in Hwf. cbv zeta in Hwf.
      cbn [list_ascii_of_string map].
      destruct (N_of_ascii c0 <? 128)%N eqn:Hlow.
      + unfold written_token at 1. destruct (unreserved c0).
        * cbn [decode_tokens]. rewrite IH by (simpl in Hn; lia || assumption).
          reflexivity.
        * cbn [decode_tokens]. rewrite Hlow.
          rewrite IH by (simpl in Hn; lia || assumption).
          cbn [option_map put fold_right]. now rewrite ascii_N_embedding.
      + rewrite written_token_high
          by (apply N.ltb_ge in Hlow; now apply N.leb_le).
        cbn [decode_tokens]. rewrite Hlow.
        destruct (between 194 223 (N_of_ascii c0)) eqn:H2.
        { destruct rest as [|c1 rest1]; [discriminate Hwf|].
          apply andb_true_iff in Hwf as [Hc1 Hwf].
          cbn [list_ascii_of_string map].
          rewrite (written_token_high c1)
            by (apply (between_high 128 191); [lia|exact Hc1]).
          rewrite Hc1.
          rewrite IH by (simpl in Hn; lia || assumption).
          cbn [option_map put fold_right]. now rewrite !ascii_N_embedding. }
        destruct (between 224 239 (N_of_ascii c0)) eqn:H3.
        { destruct rest as [|c1 [|c2 rest2]]; try discriminate Hwf.
          apply andb_true_iff in Hwf as [Hwf Hrest].
          apply andb_true_iff in Hwf as [Hc1 Hc2].
          cbn [list_ascii_of_string map].
          rewrite (written_token_high c1)
            by (eapply between_choice_high; [..|exact Hc1]; lia).
          rewrite (written_token_high c2)
            by (apply (between_high 128 191); [lia|exact Hc2]).
          rewrite Hc1, Hc2. cbn [andb].
          rewrite IH by (simpl in Hn; lia || assumption).
          cbn [option_map put fold_right]. now rewrite !ascii_N_embedding. }
        destruct (between 240 244 (N_of_ascii c0)) eqn:H4; [|discriminate Hwf].
        destruct rest as [|c1 [|c2 [|c3 rest3]]]; try discriminate Hwf.
        apply andb_true_iff in Hwf as [Hwf Hrest].
        apply andb_true_iff in Hwf as [Hwf Hc3].
        apply andb_true_iff in Hwf as [Hc1 Hc2].
        cbn [list_ascii_of_string map].
        rewrite (written_token_high c1)
          by (eapply between_choice_high; [..|exact Hc1]; lia).
        rewrite (written_token_high c2)
          by (apply (between_high 128 191); [lia|exact Hc2]).
        rewrite (written_token_high c3)
          by (apply (between_high 128 191); [lia|exact Hc3]).
        rewrite Hc1, Hc2, Hc3. cbn [andb].
        rewrite IH by (simpl in Hn; lia || assumption).
        cbn [option_map put fold_right]. now rewrite !ascii_N_embedding. }
  now apply (H (String.length s)).
Qed.

(** What [encodeURIComponent] wrote, [decodeURIComponent] reads back. *)
Lemma decodeURIComponent_encodeURIComponent (s : string) :
  well_formed_utf8 s = true ->
  decodeURIComponent (encodeURIComponent s) = Normal s.
Proof.
  intros Hwf. unfold decodeURIComponent.
  rewrite tokens_encodeURIComponent, (decode_written_tokens s Hwf).
  reflexivity.
Qed.

(** ** The cookie of the organization name key *)

Lemma white_space_2_high (c d : ascii) :
  white_space_2 c d = true ->
  (128 <= N_of_ascii c)%N /\ (128 <= N_of_ascii d)%N.
Proof.
  unfold white_space_2. intros H. apply andb_true_iff in H as [Hc Hd].
  apply Ascii.eqb_eq in Hc, Hd. subst. vm_compute. split; discriminate.
Qed.

Lemma white_space_3_high (c d e : ascii) :
  white_space_3 c d e = true ->
  (128 <= N_of_ascii c)%N /\ (128 <= N_of_ascii d)%N /\ (128 <= N_of_ascii e)%N.
Proof.
  unfold white_space_3. cbv zeta.
  repeat first [rewrite orb_true_iff | rewrite andb_true_iff
               | rewrite N.eqb_eq | rewrite N.leb_le].
  lia.
Qed.

Lemma skip_white_space_cases (s : string) :
  skip_white_space s = s \/
  (exists c r, s = String c r /\ ascii_white_space c = true /\
               skip_white_space s = skip_white_space r) \/
  (exists c d r, s = String c (String d r) /\ white_space_2 c d = true /\
                 skip_white_space s = skip_white_space r) \/
  (exists c d e r, s = String c (String d (String e r)) /\
                   white_space_3 c d e = true /\
                   skip_white_space s = skip_white_space r).
Proof.
  destruct s as [|c r]; [now left|].
  cbn [skip_white_space].
  destruct (ascii_white_space c) eqn:H1; [right; left; now exists c, r|].
  destruct r as [|d r]; [now left|].
  destruct (white_space_2 c d) eqn:H2; [right; right; left; now exists c, d, r|].
  destruct r as [|e r]; [now left|].
  destruct (white_space_3 c d e) eqn:H3; [|now left].
  right; right; right. now exists c, d, e, r.
Qed.

Lemma occurs_tail (lit : string) (c : ascii) (s : string) :
  occurs lit (String c s) = false -> occurs lit s = false.
Proof. cbn [occurs]. intros H. now apply orb_false_iff in H. Qed.

Lemma occurs_cons (lit : string) (c : ascii) (s : string) :
  occurs lit s = true -> occurs lit (String c s) = true.
Proof. cbn [occurs]. intros ->. apply orb_true_r. Qed.

(** White space is skipped inside the text before a semicolon: when the
    key is found behind it, the key occurs in that text. *)
Lemma key_after_white_space (t : string) :
  (t = "" \/ exists r, t = String ";" r) ->
  forall a,
    starts_with "sp.onk" (skip_white_space (a ++ t)) = true ->
    occurs "sp.onk" a = true.
Proof.
  intros Ht.
  assert (Hsemi2 : forall d, white_space_2 ";" d = false).
  { intros d. destruct (white_space_2 ";" d) eqn:E; [|reflexivity].
    apply white_space_2_high in E as [E _]. vm_compute in E. now destruct E. }
  assert (Hsemi2' : forall c, white_space_2 c ";" = false).
  { intros c. destruct (white_space_2 c ";") eqn:E; [|reflexivity].
    apply white_space_2_high in E as [_ E]. vm_compute in E. now destruct E. }
  assert (Hsemi3 : forall d e, white_space_3 ";" d e = false).
  { intros d e. destruct (white_space_3 ";" d e) eqn:E; [|reflexivity].
    apply white_space_3_high in E as (E & _). vm_compute in E. now destruct E. }
  assert (Hsemi3' : forall c e, white_space_3 c ";" e = false).
  { intros c e. destruct (white_space_3 c ";" e) eqn:E; [|reflexivity].
    apply white_space_3_high in E as (_ & E & _). vm_compute in E. now destruct E. }
  assert (Hsemi3'' : forall c d, white_space_3 c d ";" = false).
  { intros c d. destruct (white_space_3 c d ";") eqn:E; [|reflexivity].
    apply white_space_3_high in E as (_ & _ & E). vm_compute in E. now destruct E. }
  assert (H : forall n a, String.length a < n ->
                starts_with "sp.onk" (skip_white_space (a ++ t)) = true ->
                occurs "sp.onk" a = true).
  { induction n as [|n IH]; intros a Hn H; [lia|].
    destruct (skip_white_space_cases (a ++ t))
      as [Hs | [(c & r & Hs & Hw & Hk)
             | [(c & d & r & Hs & Hw & Hk) | (c & d & e & r & Hs & Hw & Hk)]]].
    - rewrite Hs in H. destruct Ht as [-> | [r ->]].
      + rewrite append_nil_r in H. now apply starts_with_occurs.
      + apply starts_with_occurs.
        now apply (starts_with_within "sp.onk" a r ";").
    - rewrite Hk in H. destruct a as [|c' a].
      + destruct Ht as [-> | [r' ->]]; [discriminate Hs|].
        cbn [append] in Hs. injection Hs as <- <-. discriminate Hw.
      + cbn [append] in Hs. injection Hs as -> <-.
        apply occurs_cons, IH; [simpl in Hn; lia|exact H].
    - rewrite Hk in H. destruct a as [|c' [|d' a]].
      + destruct Ht as [-> | [r' ->]]; [discriminate Hs|].
        cbn [append] in Hs. injection Hs as <- _. now rewrite Hsemi2 in Hw.
      + destruct Ht as [-> | [r' ->]]; [discriminate Hs|].
        cbn [append] in Hs. injection Hs as _ <- _. now rewrite Hsemi2' in Hw.
      + cbn [append] in Hs. injection Hs as -> -> <-.
        apply occurs_cons, occurs_cons, IH; [simpl in Hn; lia|exact H].
    - rewrite Hk in H. destruct a as [|c' [|d' [|e' a]]].
      + destruct Ht as [-> | [r' ->]]; [discriminate Hs|].
        cbn [append] in Hs. injection Hs as <- _. now rewrite Hsemi3 in Hw.
      + destruct Ht as [-> | [r' ->]]; [discriminate Hs|].
        cbn [append] in Hs. injection Hs as _ <- _. now rewrite Hsemi3' in Hw.
      + destruct Ht as [-> | [r' ->]]; [discriminate Hs|].
        cbn [append] in Hs. injection Hs as _ _ <- _. now rewrite Hsemi3'' in Hw.
      + cbn [append] in Hs. injection Hs as -> -> -> <-.
        apply occurs_cons, occurs_cons, occurs_cons, IH;
          [simpl in Hn; lia|exact H]. }
  intros a Hs. apply (H (S (String.length a))); [lia|exact Hs].
Qed.

Lemma key_value_none (a t : string) :
  occurs "sp.onk" a = false ->
  (t = "" \/ exists r, t = String ";" r) ->
  key_value (a ++ t) = None.
Proof.
  intros Ho Ht. unfold key_value, organizationNameKeyCookieKey.
  destruct (strip_prefix "sp.onk" (skip_white_space (a ++ t))) eqn:E;
    [|reflexivity].
  assert (H : starts_with "sp.onk" (skip_white_space (a ++ t)) = true)
    by (unfold starts_with; now rewrite E).
  apply (key_after_white_space t Ht) in H. congruence.
Qed.

Lemma after_semicolon_none (s : string) :
  occurs "sp.onk" s = false -> after_semicolon s = None.
Proof.
  induction s as [|c s IH]; [reflexivity|]. intros Ho.
  pose proof (occurs_tail _ _ _ Ho) as Hs.
  cbn [after_semicolon].
  destruct (line_terminator_at (String c s)); [reflexivity|].
  rewrite (IH Hs). destruct (Ascii.eqb c ";"); [|reflexivity].
  rewrite <- (append_nil_r s). apply key_value_none; [exact Hs|now left].
Qed.

Lemma after_semicolon_piece (p r : string) :
  occurs "sp.onk" p = false ->
  after_semicolon (String ";" r) = None ->
  after_semicolon (p ++ String ";" r) = None.
Proof.
  intros Ho Hr. induction p as [|c p IH]; [exact Hr|].
  pose proof (occurs_tail _ _ _ Ho) as Hp.
  change (String c p ++ String ";" r) with (String c (p ++ String ";" r)).
  cbn [after_semicolon].
  destruct (line_terminator_at (String c (p ++ String ";" r))); [reflexivity|].
  rewrite (IH Hp). destruct (Ascii.eqb c ";"); [|reflexivity].
  apply key_value_none; [exact Hp|right; now exists r].
Qed.

Lemma after_semicolon_without (p s : string) :
  mem_char ";" p = false ->
  after_semicolon s = None ->
  after_semicolon (p ++ s) = None.
Proof.
  intros Hp Hs. induction p as [|c p IH]; [exact Hs|].
  cbn [mem_char] in Hp. apply orb_false_iff in Hp as [Hc Hp].
  change (String c p ++ s) with (String c (p ++ s)).
  cbn [after_semicolon].
  destruct (line_terminator_at (String c (p ++ s))); [reflexivity|].
  rewrite (IH Hp), Ascii.eqb_sym, Hc. reflexivity.
Qed.

Lemma after_semicolon_later (p s g : string) :
  free_of_line_terminators (p ++ s) = true ->
  after_semicolon s = Some g ->
  after_semicolon (p ++ s) = Some g.
Proof.
  intros Hfree Hs. induction p as [|c p IH]; [exact Hs|].
  change (String c p ++ s) with (String c (p ++ s)) in Hfree |- *.
  cbn [free_of_line_terminators] in Hfree.
  apply andb_true_iff in Hfree as [Hc Hfree]. apply negb_true_iff in Hc.
  cbn [after_semicolon]. rewrite Hc, (IH Hfree). reflexivity.
Qed.

Lemma after_semicolon_space (s : string) :
  after_semicolon s = None ->
  key_value s = None ->
  after_semicolon (String ";" (String " " s)) = None.
Proof.
  intros Ha Hk. cbn [after_semicolon].
  destruct (line_terminator_at (String ";" (String " " s))); [reflexivity|].
  assert (Hspace : line_terminator_at (String " " s) = false)
    by (now destruct s as [|d [|e s]]).
  rewrite Hspace, Ha. cbn [Ascii.eqb Bool.eqb].
  change (key_value (String " " s)) with (key_value s). exact Hk.
Qed.

Lemma plain_cookie_inv (c : string * string) :
  plain_cookie c = true ->
  occurs "sp.onk" (cookie_pair c) = false /\
  free_of_line_terminators (cookie_pair c) = true.
Proof.
  unfold plain_cookie. intros H. apply andb_true_iff in H as [Ho Hf].
  now apply negb_true_iff in Ho.
Qed.

(** Behind the cookie of the key no other cookie is taken for it. *)
Lemma plain_cookies_no_key (cs : list (string * string)) :
  forallb plain_cookie cs = true ->
  after_semicolon (join "; " (map cookie_pair cs)) = None /\
  key_value (join "; " (map cookie_pair cs)) = None.
Proof.
  induction cs as [|c cs IH]; [now split|].
  cbn [forallb map]. intros H. apply andb_true_iff in H as [Hc Hcs].
  apply plain_cookie_inv in Hc as [Ho _].
  destruct cs as [|c' cs].
  - cbn [map join]. split; [now apply after_semicolon_none|].
    rewrite <- (append_nil_r (cookie_pair c)).
    apply key_value_none; [exact Ho|now left].
  - destruct (IH Hcs) as [Ha Hk].
    change (join "; " (cookie_pair c :: map cookie_pair (c' :: cs)))
      with (cookie_pair c ++
            String ";" (String " " (join "; " (map cookie_pair (c' :: cs))))).
    split.
    + apply after_semicolon_piece; [exact Ho|].
      now apply after_semicolon_space.
    + apply key_value_none; [exact Ho|right; eauto].
Qed.

Lemma uri_safe_low (c : ascii) :
  uri_safe c = true ->
  (N_of_ascii c <? 128)%N = true /\
  ascii_white_space c = false /\
  Ascii.eqb c (ascii_of_N 10) = false /\
  Ascii.eqb c (ascii_of_N 13) = false /\
  Ascii.eqb c (ascii_of_N 226) = false.
Proof.
  destruct c as [[] [] [] [] [] [] [] []]; vm_compute; intros H;
    repeat split; congruence.
Qed.

Lemma skip_white_space_low (c : ascii) (r : string) :
  (N_of_ascii c <? 128)%N = true ->
  ascii_white_space c = false ->
  skip_white_space (String c r) = String c r.
Proof.
  intros Hlow Hw. apply N.ltb_lt in Hlow.
  destruct (skip_white_space_cases (String c r))
    as [Hs | [(c' & r' & Hs & Hw' & _)
           | [(c' & d & r' & Hs & Hw' & _) | (c' & d & e & r' & Hs & Hw' & _)]]].
  - exact Hs.
  - injection Hs as -> _. congruence.
  - injection Hs as -> _. apply white_space_2_high in Hw' as [H _]. lia.
  - injection Hs as -> _. apply white_space_3_high in Hw' as (H & _). lia.
Qed.

(** The pattern of the key, tried where the cookie of the key starts. *)
Lemma key_value_found (v tail : string) :
  all_chars uri_safe v = true ->
  (tail = "" \/ exists r, tail = String ";" r) ->
  free_of_line_terminators tail = true ->
  key_value ("sp.onk=" ++ v ++ tail) = Some v.
Proof.
  intros Hsafe Htail Hfree.
  assert (Hsemi : mem_char ";" v = false)
    by (apply (all_chars_not_mem uri_safe); [assumption|reflexivity]).
  assert (Hbody : skip_white_space (v ++ tail) = v ++ tail).
  { destruct v as [|c v].
    - destruct Htail as [-> | [r ->]]; [reflexivity|].
      now apply skip_white_space_low.
    - cbn [all_chars] in Hsafe. apply andb_true_iff in Hsafe as [Hc _].
      apply uri_safe_low in Hc as (Hlow & Hw & _).
      now apply skip_white_space_low. }
  unfold key_value, organizationNameKeyCookieKey.
  change (skip_white_space ("sp.onk=" ++ v ++ tail))
    with ("sp.onk=" ++ v ++ tail).
  change (strip_prefix "sp.onk" ("sp.onk=" ++ v ++ tail))
    with (Some (String "=" (v ++ tail))).
  cbv iota beta.
  rewrite (skip_white_space_low "=") by reflexivity.
  cbn [Ascii.eqb Bool.eqb].
  rewrite Hbody, take_until_app by assumption.
  rewrite drop_app, Hfree. reflexivity.
Qed.

Lemma line_terminator_at_app (c : ascii) (a b : string) :
  line_terminator_at (String c a) = false ->
  (b = "" \/ exists d r, b = String d r /\ (N_of_ascii d <? 128)%N = true) ->
  line_terminator_at (String c (a ++ b)) = false.
Proof.
  intros H Hb.
  destruct Hb as [-> | (d & r & -> & Hd)]; [now rewrite append_nil_r|].
  assert (H128 : Ascii.eqb d (ascii_of_N 128) = false).
  { destruct (Ascii.eqb_spec d (ascii_of_N 128)) as [->|]; [discriminate|reflexivity]. }
  assert (H168 : Ascii.eqb d (ascii_of_N 168) = false).
  { destruct (Ascii.eqb_spec d (ascii_of_N 168)) as [->|]; [discriminate|reflexivity]. }
  assert (H169 : Ascii.eqb d (ascii_of_N 169) = false).
  { destruct (Ascii.eqb_spec d (ascii_of_N 169)) as [->|]; [discriminate|reflexivity]. }
  unfold line_terminator_at in H |- *.
  destruct a as [|x [|y a]]; cbn [append].
  - rewrite orb_false_r in H. rewrite H.
    destruct r; [reflexivity|]. now rewrite H128, andb_false_r.
  - rewrite orb_false_r in H. rewrite H.
    now rewrite H168, H169, andb_false_r.
  - exact H.
Qed.

Lemma free_app_low (a b : string) :
  free_of_line_terminators a = true ->
  free_of_line_terminators b = true ->
  (b = "" \/ exists d r, b = String d r /\ (N_of_ascii d <? 128)%N = true) ->
  free_of_line_terminators (a ++ b) = true.
Proof.
  intros Ha Hb Hlow. induction a as [|c a IH]; [exact Hb|].
  cbn [free_of_line_terminators] in Ha.
  apply andb_true_iff in Ha as [Hc Ha]. apply negb_true_iff in Hc.
  change (String c a ++ b) with (String c (a ++ b)).
  cbn [free_of_line_terminators].
  rewrite (line_terminator_at_app c a b Hc Hlow), (IH Ha). reflexivity.
Qed.

Lemma free_uri_safe (s : string) :
  all_chars uri_safe s = true -> free_of_line_terminators s = true.
Proof.
  induction s as [|c s IH]; [reflexivity|].
  cbn [all_chars]. intros H. apply andb_true_iff in H as [Hc Hs].
  apply uri_safe_low in Hc as (_ & _ & H10 & H13 & H226).
  cbn [free_of_line_terminators]. rewrite (IH Hs), andb_true_r.
  unfold line_terminator_at. rewrite H10, H13, H226.
  now destruct s as [|d [|e s]].
Qed.

Lemma free_semicolon_space (s : string) :
  free_of_line_terminators (String ";" (String " " s))
  = free_of_line_terminators s.
Proof. now destruct s as [|d [|e s]]. Qed.

Lemma free_cookie_texts (cs : list (string * string)) :
  forallb plain_cookie cs = true ->
  free_of_line_terminators (cookie_texts cs) = true.
Proof.
  induction cs as [|c cs IH]; [reflexivity|].
  cbn [forallb cookie_texts]. intros H. apply andb_true_iff in H as [Hc Hcs].
  apply plain_cookie_inv in Hc as [_ Hf].
  apply free_app_low; [exact Hf| |right; now exists ";"%char, (" " ++ cookie_texts cs)].
  change ("; " ++ cookie_texts cs) with (String ";" (String " " (cookie_texts cs))).
  rewrite free_semicolon_space. now apply IH.
Qed.

Lemma free_join (cs : list (string * string)) :
  forallb plain_cookie cs = true ->
  free_of_line_terminators (join "; " (map cookie_pair cs)) = true.
Proof.
  induction cs as [|c cs IH]; [reflexivity|].
  cbn [forallb map]. intros H. apply andb_true_iff in H as [Hc Hcs].
  apply plain_cookie_inv in Hc as [_ Hf].
  destruct cs as [|c' cs]; [exact Hf|].
  change (join "; " (cookie_pair c :: map cookie_pair (c' :: cs)))
    with (cookie_pair c ++
          String ";" (String " " (join "; " (map cookie_pair (c' :: cs))))).
  apply free_app_low; [exact Hf| |right; eauto].
  rewrite free_semicolon_space. now apply IH.
Qed.

Lemma cookie_texts_end (cs : list (string * string)) :
  cs <> [] -> exists x, cookie_texts cs = x ++ "; ".
Proof.
  induction cs as [|c cs IH]; [congruence|]. intros _.
  destruct cs as [|c' cs].
  - exists (cookie_pair c). cbn [cookie_texts]. reflexivity.
  - destruct IH as [x Hx]; [discriminate|].
    exists (cookie_pair c ++ "; " ++ x).
    change (cookie_texts (c :: c' :: cs))
      with (cookie_pair c ++ "; " ++ cookie_texts (c' :: cs)).
    rewrite Hx, !append_assoc. reflexivity.
Qed.

(** The replacement leaves the value of the cookie of the key, wherever
    the cookie stands among plain cookies. *)
Lemma replace_with_key_value_found
      (before after : list (string * string)) (v : string) :
  forallb plain_cookie before = true ->
  forallb plain_cookie after = true ->
  all_chars uri_safe v = true ->
  replace_with_key_value
    (join "; " (map cookie_pair (before ++ ("sp.onk", v) :: after)))
  = v.
Proof.
  intros Hbefore Hafter Hsafe.
  rewrite join_cookie_texts by discriminate.
  assert (Hshape : exists tail,
            join "; " (map cookie_pair (("sp.onk", v) :: after))
            = "sp.onk=" ++ v ++ tail /\
            (tail = "" \/ exists r, tail = String ";" r) /\
            free_of_line_terminators tail = true /\
            after_semicolon tail = None).
  { destruct after as [|a after].
    - exists "". cbn [map join cookie_pair fst snd].
      rewrite append_nil_r. repeat split; auto.
    - exists (String ";" (String " " (join "; " (map cookie_pair (a :: after))))).
      split; [|split; [right; eauto|split]].
      + change (join "; " (map cookie_pair (("sp.onk", v) :: a :: after)))
          with (("sp.onk=" ++ v) ++
                String ";" (String " " (join "; " (map cookie_pair (a :: after))))).
        now rewrite append_assoc.
      + rewrite free_semicolon_space. now apply free_join.
      + destruct (plain_cookies_no_key (a :: after) Hafter) as [Ha Hk].
        now apply after_semicolon_space. }
  destruct Hshape as (tail & -> & Htail & Hfree & Hnone).
  pose proof (key_value_found v tail Hsafe Htail Hfree) as Hfound.
  assert (Hsemi : mem_char ";" v = false)
    by (apply (all_chars_not_mem uri_safe); [assumption|reflexivity]).
  assert (Hlow : v ++ tail = "" \/
                 exists d r, v ++ tail = String d r /\ (N_of_ascii d <? 128)%N = true).
  { destruct v as [|c v].
    - destruct Htail as [-> | [r ->]]; [now left|right; now exists ";"%char, r].
    - cbn [all_chars] in Hsafe. apply andb_true_iff in Hsafe as [Hc _].
      apply uri_safe_low in Hc as (Hc & _). right. now exists c, (v ++ tail). }
  assert (Hfree' : free_of_line_terminators ("sp.onk=" ++ v ++ tail) = true).
  { apply (free_app_low "sp.onk=" (v ++ tail)); [reflexivity| |exact Hlow].
    apply free_app_low; [now apply free_uri_safe|exact Hfree|].
    destruct Htail as [-> | [r ->]]; [now left|right; now exists ";"%char, r]. }
  destruct before as [|b before].
  - cbn [cookie_texts append]. unfold replace_with_key_value.
    change (String "s" (String "p" (String "." (String "o" (String "n"
              (String "k" (String "=" (v ++ tail))))))))
      with ("sp.onk=" ++ v ++ tail).
    now rewrite Hfound.
  - assert (Hstart : key_value (cookie_texts (b :: before) ++ "sp.onk=" ++ v ++ tail)
                     = None).
    { cbn [cookie_texts]. rewrite append_assoc.
      cbn [forallb] in Hbefore. apply andb_true_iff in Hbefore as [Hb _].
      apply plain_cookie_inv in Hb as [Ho _].
      apply (key_value_none (cookie_pair b)
               (String ";" (String " "
                  (cookie_texts before ++ "sp.onk=" ++ v ++ tail))));
        [exact Ho|right; eauto]. }
    assert (Hlater : after_semicolon
                       (cookie_texts (b :: before) ++ "sp.onk=" ++ v ++ tail)
                     = Some v).
    { assert (Hall : free_of_line_terminators
                       (cookie_texts (b :: before) ++ "sp.onk=" ++ v ++ tail) = true).
      { apply free_app_low; [now apply free_cookie_texts|exact Hfree'|].
        right. now exists "s"%char, ("p.onk=" ++ v ++ tail). }
      destruct (cookie_texts_end (b :: before)) as [x Hx]; [discriminate|].
      rewrite Hx in Hall |- *. rewrite append_assoc in Hall |- *.
      apply after_semicolon_later; [exact Hall|].
      change ("; " ++ "sp.onk=" ++ v ++ tail)
        with (String ";" (String " " ("sp.onk=" ++ v ++ tail))).
      cbn [after_semicolon].
      change (line_terminator_at (String ";" (String " " ("sp.onk=" ++ v ++ tail))))
        with false.
      change (line_terminator_at (String " " ("sp.onk=" ++ v ++ tail)))
        with false.
      cbv iota.
      assert (Hfold : after_semicolon ("sp.onk=" ++ v ++ tail) = None).
      { rewrite <- append_assoc. apply after_semicolon_without; [|exact Hnone].
        cbn [append mem_char Ascii.eqb Bool.eqb orb]. exact Hsemi. }
      rewrite Hfold. cbn [Ascii.eqb Bool.eqb].
      change (key_value (String " " ("sp.onk=" ++ v ++ tail)))
        with (key_value ("sp.onk=" ++ v ++ tail)).
      exact Hfound. }
    unfold replace_with_key_value. now rewrite Hstart, Hlater.
Qed.

Lemma plain_cookie_name (c : string * string) :
  plain_cookie c = true -> organization_cookie c = false.
Proof.
  destruct c as [n v]. unfold organization_cookie. cbn [fst]. intros H.
  apply plain_cookie_inv in H as [Ho _].
  destruct (n =? "sp.onk") eqn:E; [|reflexivity].
  apply String.eqb_eq in E. subst n.
  assert (H : occurs "sp.onk" (cookie_pair ("sp.onk", v)) = true).
  { apply starts_with_occurs. unfold starts_with.
    change (cookie_pair ("sp.onk", v)) with ("sp.onk" ++ "=" ++ v).
    now rewrite strip_prefix_app. }
  congruence.
Qed.

Lemma store_organization_behind
      (val old : string) (before after : list (string * string)) :
  forallb plain_cookie before = true ->
  store "sp.onk" val (before ++ ("sp.onk", old) :: after)
  = (before ++ ("sp.onk", val) :: after)%list.
Proof.
  induction before as [|[n x] before IH]; [reflexivity|].
  cbn [forallb app store]. intros H.
  apply andb_true_iff in H as [Hc Hrest].
  apply plain_cookie_name in Hc. unfold organization_cookie in Hc.
  cbn [fst] in Hc. rewrite Hc. now rewrite IH.
Qed.

Lemma store_organization_last (val : string) (cs : list (string * string)) :
  forallb plain_cookie cs = true ->
  store "sp.onk" val cs = (cs ++ [("sp.onk", val)])%list.
Proof.
  induction cs as [|[n x] cs IH]; [reflexivity|].
  cbn [forallb app store]. intros H.
  apply andb_true_iff in H as [Hc Hrest].
  apply plain_cookie_name in Hc. unfold organization_cookie in Hc.
  cbn [fst] in Hc. rewrite Hc. now rewrite IH.
Qed.

Lemma plain_without_organization (cs : list (string * string)) :
  forallb (fun c => organization_cookie c || plain_cookie c) cs = true ->
  filter organization_cookie cs = [] ->
  forallb plain_cookie cs = true.
Proof.
  induction cs as [|c cs IH]; [reflexivity|].
  cbn [forallb filter]. intros H. apply andb_true_iff in H as [Hc Hcs].
  destruct (organization_cookie c); [discriminate|].
  cbn [orb] in Hc. intros Hf. now rewrite Hc, IH.
Qed.

(** A jar with at most one cookie of the key among plain cookies. *)
Lemma jar_shape (cs : list (string * string)) :
  forallb (fun c => organization_cookie c || plain_cookie c) cs = true ->
  List.length (filter organization_cookie cs) <= 1 ->
  forallb plain_cookie cs = true \/
  exists before old after,
    cs = (before ++ ("sp.onk", old) :: after)%list /\
    forallb plain_cookie before = true /\
    forallb plain_cookie after = true.
Proof.
  induction cs as [|[n v] cs IH]; [now left|].
  cbn [forallb filter]. intros H. apply andb_true_iff in H as [Hc Hcs].
  destruct (organization_cookie (n, v)) eqn:E.
  - cbn [List.length]. intros Hlen. right.
    unfold organization_cookie in E. cbn [fst] in E.
    apply String.eqb_eq in E. subst n.
    exists [], v, cs. repeat split.
    apply plain_without_organization; [exact Hcs|].
    destruct (filter organization_cookie cs); [reflexivity|simpl in Hlen; lia].
  - cbn [orb] in Hc. intros Hlen.
    destruct (IH Hcs Hlen) as [Hall | (before & old & after & -> & Hb & Ha)].
    + left. cbn [forallb]. now rewrite Hc, Hall.
    + right. exists ((n, v) :: before), old, after. repeat split; [|exact Ha].
      cbn [forallb]. now rewrite Hc, Hb.
Qed.

Lemma organization_key_after_store (b : browser) (e : executor) (k : string) :
  well_formed_utf8 k = true ->
  forallb (fun c => organization_cookie c || plain_cookie c) (jar b) = true ->
  List.length (filter organization_cookie (jar b)) <= 1 ->
  fst (getCachedOrganizationNameKey
         {| page := set_document_cookie
                      (encodeURIComponent organizationNameKeyCookieKey ++ "=" ++
                       encodeURIComponent k ++ "; " ++
                       organizationNameKeyCookieExpiration) b;
            requestExecutor := e |})
  = Normal (if k =? "" then VNull else VStr k).
Proof.
  intros Hwf Hjar Hone.
  unfold getCachedOrganizationNameKey, bind, read, lift.
  cbn [page]. unfold document_cookie. rewrite organization_cookie_jar.
  assert (Hread : replace_with_key_value
                    (join "; " (map cookie_pair
                       (store "sp.onk" (encodeURIComponent k) (jar b))))
                  = encodeURIComponent k).
  { destruct (jar_shape _ Hjar Hone)
      as [Hall | (before & old & after & -> & Hb & Ha)].
    - rewrite store_organization_last by assumption.
      now apply replace_with_key_value_found;
        [| |apply encodeURIComponent_safe].
    - rewrite store_organization_behind by assumption.
      now apply replace_with_key_value_found;
        [| |apply encodeURIComponent_safe]. }
  rewrite Hread, (decodeURIComponent_encodeURIComponent k Hwf).
  unfold ret, or_else. cbn [fst truthy].
  now destruct (k =? "").
Qed.

(** X22: the organization name key that was stored is the one that is read
    back: [getCachedOrganizationNameKey] after [setCachedOrganizationNameKey]
    returns the key, and [null] for the empty key, whatever characters the
    key has and wherever the cookie stands in [document.cookie].  The jar
    has at most one cookie [sp.onk], and no other cookie has the text
    [sp.onk] or a line terminator in it. *)
Theorem organization_name_key_read_back :
  forall (nameKey : value) (k : string) (w : world),
    to_string nameKey = Normal k ->
    well_formed_utf8 k = true ->
    forallb (fun c => organization_cookie c || plain_cookie c)
            (jar (page w)) = true ->
    List.length (filter organization_cookie (jar (page w))) <= 1 ->
    fst (getCachedOrganizationNameKey
           (snd (setCachedOrganizationNameKey nameKey w)))
    = Normal (if k =? "" then VNull else VStr k).
Proof.
  intros nameKey k w Hk Hwf Hjar Hone.
  rewrite setCachedOrganizationNameKey_run, Hk. cbn [snd].
  now apply organization_key_after_store.
Qed.

Lemma organization_name_key_read_back_witness :
  fst (getCachedOrganizationNameKey
         (snd (setCachedOrganizationNameKey (VStr "acme & co/eu")
                 (world_with {| href := "https://id.example.com/";
                                jar := [("lang", "en"); ("sp.onk", "old");
                                        ("theme", "dark")];
                                assigned := [] |} VUndefined))))
  = Normal (VStr "acme & co/eu").
Proof.
  apply (organization_name_key_read_back
           (VStr "acme & co/eu") "acme & co/eu"
           (world_with {| href := "https://id.example.com/";
                          jar := [("lang", "en"); ("sp.onk", "old");
                                  ("theme", "dark")];
                          assigned := [] |} VUndefined));
    reflexivity.
Defined.

(** X23: without a cookie of the key, [getCachedOrganizationNameKey]
    returns [null] and changes nothing: the whole text of
    [document.cookie] is replaced by the empty group.  No cookie has the
    text [sp.onk] or a line terminator in it. *)
Theorem organization_name_key_absent :
  forall (w : world),
    forallb plain_cookie (jar (page w)) = true ->
    getCachedOrganizationNameKey w = (Normal VNull, w).
Proof.
  intros w Hplain.
  destruct (plain_cookies_no_key _ Hplain) as [Ha Hk].
  pose proof (free_join _ Hplain) as Hfree.
  unfold getCachedOrganizationNameKey, bind, read, lift, document_cookie.
  unfold replace_with_key_value. rewrite Hk, Ha, Hfree. reflexivity.
Qed.

Lemma organization_name_key_absent_witness :
  getCachedOrganizationNameKey (world_with page_with_cookie VUndefined)
  = (Normal VNull, world_with page_with_cookie VUndefined).
Proof.
  apply (organization_name_key_absent (world_with page_with_cookie VUndefined)).
  reflexivity.
Defined.

(** ** The key of the claims *)

Lemma initialize_claims (opts : options) (jwt0 : string) (jwtPayload0 : value)
      (w w' : world) (self : client) :
  initialize opts jwt0 jwtPayload0 w = (Normal (Constructed self), w') ->
  jwtPayload self = jwtPayload0.
Proof.
  unfold initialize. intros H.
  rewrite bind_lift in H.
  destruct (prop jwtPayload0 "app_href") as [a|]; [|discriminate].
  rewrite bind_lift in H.
  destruct (getPasswordResetToken jwtPayload0 a) as [sp|]; [|discriminate].
  rewrite bind_lift in H.
  destruct (derive_baseurl a) as [b|]; [|discriminate].
  rewrite bind_lift in H.
  destruct (as_string a) as [h|]; [|discriminate].
  rewrite bind_lift in H.
  destruct (prop jwtPayload0 "onk") as [onk|]; [|discriminate].
  unfold bind at 1 in H.
  destruct ((if truthy onk then setCachedOrganizationNameKey onk else ret tt) w)
    as [[[]|e] w1]; [|discriminate].
  rewrite bind_lift in H.
  destruct (prop jwtPayload0 "asnk") as [asnk|]; [|discriminate].
  rewrite bind_lift in H.
  destruct (prop jwtPayload0 "ash") as [ash|]; [|discriminate].
  rewrite bind_lift in H.
  destruct (prop jwtPayload0 "require_mfa") as [mfa|]; [|discriminate].
  unfold bind at 1 in H. rewrite bind_lift in H.
  destruct (concat _ _) as [target|]; [|discriminate].
  unfold bind, execute, ret in H.
  now injection H as <- _.
Qed.

Lemma store_session_keeps_plain (cs : list (string * string)) :
  forallb (fun c => organization_cookie c || plain_cookie c) cs = true ->
  forallb (fun c => organization_cookie c || plain_cookie c)
          (store "idSiteJwt" "" cs) = true.
Proof.
  induction cs as [|[n v] cs IH]; [reflexivity|].
  cbn [forallb store]. intros H. apply andb_true_iff in H as [Hc Hcs].
  destruct (n =? "idSiteJwt") eqn:E.
  - apply String.eqb_eq in E. subst n. cbn [forallb]. now rewrite Hcs.
  - cbn [forallb]. now rewrite Hc, IH.
Qed.

Lemma store_session_keeps_count (cs : list (string * string)) :
  filter organization_cookie (store "idSiteJwt" "" cs)
  = filter organization_cookie cs.
Proof.
  induction cs as [|[n v] cs IH]; [reflexivity|].
  cbn [store]. destruct (n =? "idSiteJwt") eqn:E.
  - apply String.eqb_eq in E. subst n. reflexivity.
  - cbn [filter]. now rewrite IH.
Qed.

Lemma getJwtFromUrl_jar (w w' : world) (r : completion value) :
  getJwtFromUrl w = (r, w') ->
  jar (page w') = jar (page w) \/
  jar (page w') = store "idSiteJwt" "" (jar (page w)).
Proof.
  unfold getJwtFromUrl, bind, read, on_page, lift, ret.
  destruct (capture "jwt=" "&" (href (page w))).
  - destruct (decodeURIComponent s); intros [= <- <-]; now left.
  - destruct (truthy (getCookie "idSiteJwt" (page w))); intros [= <- <-];
      [right|left]; reflexivity.
Qed.

(** X24: the constructor caches the organization name key of the claims:
    when the object is built from claims whose [onk] is a string that is
    not empty, [getCachedOrganizationNameKey] returns that string
    afterwards, whether the token came from the options, the address or
    the session cookie.  The jar had at most one cookie [sp.onk], and no
    other cookie with the text [sp.onk] or a line terminator in it. *)
Theorem Client_caches_organization_name_key :
  forall (P : platform) (opts : options) (w w' : world) (self : client)
         (k : string),
    Client P opts w = (Normal (Constructed self), w') ->
    prop (jwtPayload self) "onk" = Normal (VStr k) ->
    k <> "" ->
    well_formed_utf8 k = true ->
    forallb (fun c => organization_cookie c || plain_cookie c)
            (jar (page w)) = true ->
    List.length (filter organization_cookie (jar (page w))) <= 1 ->
    fst (getCachedOrganizationNameKey w') = Normal (VStr k).
Proof.
  intros P opts w w' self k H Honk Hne Hwf Hjar Hone.
  destruct (Client_cases _ _ _ _ _ H) as (found & w1 & Hfound & Hcase).
  destruct Hcase as [(_ & Hr & _)|(raw & _ & _ & Hdec)]; [discriminate Hr|].
  destruct (decode_cases _ _ _ _ _ _ Hdec)
    as [(Hr & _)|[(Hr & _)|(p0 & _ & Hinit)]]; try discriminate Hr.
  pose proof (initialize_claims _ _ _ _ _ _ Hinit) as Hclaims.
  destruct (initialize_outcome _ _ _ _ _ _ Hinit)
    as (self' & onk & p & _ & _ & Honk' & Hpage & _ & Hex).
  rewrite <- Hclaims, Honk in Honk'. injection Honk' as <-.
  cbn [truthy] in Hpage. apply String.eqb_neq in Hne. rewrite Hne in Hpage.
  cbn [negb] in Hpage. destruct Hpage as (k' & Hk' & Hpage).
  cbn [to_string] in Hk'. injection Hk' as <-.
  assert (Hjar1 : forallb (fun c => organization_cookie c || plain_cookie c)
                          (jar (page w1)) = true /\
                  List.length (filter organization_cookie (jar (page w1))) <= 1).
  { unfold resolve_jwt in Hfound. destruct (truthy (token opts)).
    - unfold ret in Hfound. injection Hfound as _ <-. now split.
    - destruct (getJwtFromUrl_jar _ _ _ Hfound) as [-> | ->]; [now split|].
      split; [now apply store_session_keeps_plain|].
      now rewrite store_session_keeps_count. }
  destruct Hjar1 as [Hjar1 Hone1].
  pose proof (organization_key_after_store (page w1) (requestExecutor w') k
                Hwf Hjar1 Hone1) as Hgot.
  rewrite <- Hpage, Hne in Hgot.
  destruct w' as [pg ex]. exact Hgot.
Qed.

Lemma Client_caches_organization_name_key_witness :
  fst (getCachedOrganizationNameKey
         (snd (initialize no_options "h.p.s"
                 (VObj [("app_href", VStr "https://x/v1/applications/app1");
                        ("sp_token", VStr "tok");
                        ("onk", VStr "acme & co")])
                 (world_with page_with_cookie VUndefined))))
  = Normal (VStr "acme & co").
Proof.
  pose (claims := VObj [("app_href", VStr "https://x/v1/applications/app1");
                        ("sp_token", VStr "tok");
                        ("onk", VStr "acme & co")]).
  pose (P := {| window_atob := fun _ => Throw InvalidCharacterError;
                JSON_parse := fun _ => Normal claims;
                Buffer_base64 := fun s => Normal s |}).
  apply (Client_caches_organization_name_key P
           {| token := VStr "h.p.s"; suppliedExecutor := None |}
           (world_with page_with_cookie VUndefined)
           (snd (initialize no_options "h.p.s" claims
                   (world_with page_with_cookie VUndefined)))
           {| jwt := "h.p.s"; jwtPayload := claims;
              appHref := "https://x/v1/applications/app1";
              sptoken := VStr "tok"; baseurl := "https://x/";
              idSiteParentResource := VStr "https://x/v1/applications/app1";
              requireMfa := VUndefined |}
           "acme & co");
    try reflexivity; [discriminate | simpl; lia].
Defined.

(** ** The operations as a whole *)

Lemma login_query_world (options : value) (w : world) :
  snd (login_query options w) = w.
Proof.
  unfold login_query, bind, lift, ret.
  destruct (truthy options); [|reflexivity].
  destruct (prop options "redirect") as [r|]; [|reflexivity].
  destruct (truthy r); [|reflexivity].
  destruct (to_string r) as [t|]; [|reflexivity].
  cbn [truthy]. destruct (negb _); reflexivity.
Qed.

Lemma href_of_world (resource : value) (message : string) (w : world) :
  snd (href_of resource message w) = w.
Proof.
  unfold href_of, bind, lift, throw, ret.
  destruct (negb (truthy resource)); [reflexivity|].
  destruct (prop resource "href") as [h|]; [|reflexivity].
  destruct (negb (truthy h)); reflexivity.
Qed.

Lemma all_or_nothing_execute (r : request) (w : world) :
  all_or_nothing (execute r) w.
Proof. right. now exists r. Qed.

Lemma all_or_nothing_bind {A} (m : M A) (k : A -> M unit) (w : world) :
  snd (m w) = w ->
  (forall a, all_or_nothing (k a) w) ->
  all_or_nothing (bind m k) w.
Proof.
  intros Hm Hk. unfold all_or_nothing, bind in *.
  destruct (m w) as [[a|e] w1]; cbn [snd] in Hm; subst w1.
  - apply Hk.
  - left. now exists e.
Qed.

(** X25: every operation of the client is all or nothing.  [login],
    [register], [verifyEmailToken], [verifyPasswordResetToken],
    [sendPasswordResetEmail], [getFactors] and [createFactor] either throw
    with the world as it was, or return with exactly one request handed to
    the executor; in the call itself none of them writes a cookie, changes
    the address or touches the credential of the executor.  (What a
    callback does when the response has come is not part of the call.) *)
Theorem operations_all_or_nothing :
  forall (self : client) (x y : value) (callback : bool) (w : world),
    all_or_nothing (login self x y) w /\
    all_or_nothing (register self x) w /\
    all_or_nothing (verifyEmailToken self callback) w /\
    all_or_nothing (verifyPasswordResetToken self callback) w /\
    all_or_nothing (sendPasswordResetEmail self x) w /\
    all_or_nothing (getFactors x) w /\
    all_or_nothing (createFactor x y) w.
Proof.
  intros self x y callback w. repeat split.
  - unfold login.
    apply all_or_nothing_bind; [apply login_data_world|]. intros data.
    apply all_or_nothing_bind; [apply login_query_world|]. intros q.
    apply all_or_nothing_execute.
  - unfold register. destruct (negb _); [left; eexists; reflexivity|].
    apply all_or_nothing_bind; [reflexivity|]. intros target.
    apply all_or_nothing_execute.
  - unfold verifyEmailToken. destruct (negb _); [left; eexists; reflexivity|].
    apply all_or_nothing_bind; [reflexivity|]. intros target.
    apply all_or_nothing_execute.
  - unfold verifyPasswordResetToken.
    destruct (negb _); [left; eexists; reflexivity|].
    apply all_or_nothing_bind; [reflexivity|]. intros target.
    apply all_or_nothing_execute.
  - unfold sendPasswordResetEmail.
    apply all_or_nothing_bind.
    + destruct (typeof x =? "string"); [reflexivity|].
      destruct (typeof x =? "object"); reflexivity.
    + intros body. apply all_or_nothing_execute.
  - unfold getFactors.
    apply all_or_nothing_bind; [apply href_of_world|]. intros h.
    apply all_or_nothing_bind; [reflexivity|]. intros target.
    apply all_or_nothing_execute.
  - unfold createFactor.
    apply all_or_nothing_bind; [apply href_of_world|]. intros h.
    apply all_or_nothing_bind; [reflexivity|]. intros target.
    apply all_or_nothing_execute.
Qed.

(** X26: the two requests of a password reset.  With a function for its
    callback and a string for the single-use token,
    [verifyPasswordResetToken] hands the executor the GET of
    [appHref + '/passwordResetTokens/' + sptoken] with [json: true].
    [sendPasswordResetEmail] posts [{email: s}] for a string [s], and the
    argument itself for a value of type object, [null] included. *)
Theorem password_reset_requests :
  forall (self : client) (w : world),
    (forall t,
        sptoken self = VStr t ->
        verifyPasswordResetToken self true w
        = (Normal tt,
           handed {| method := "GET";
                     url := appHref self ++ "/passwordResetTokens/" ++ t;
                     json := VBool true |} w)) /\
    (forall s,
        sendPasswordResetEmail self (VStr s) w
        = (Normal tt,
           handed {| method := "POST";
                     url := appHref self ++ "/passwordResetTokens";
                     json := VObj [("email", VStr s)] |} w)) /\
    (forall x,
        (typeof x =? "object") = true ->
        sendPasswordResetEmail self x w
        = (Normal tt,
           handed {| method := "POST";
                     url := appHref self ++ "/passwordResetTokens";
                     json := x |} w)).
Proof.
  intros self w. split; [|split].
  - intros t Ht. unfold verifyPasswordResetToken. cbn [negb].
    rewrite Ht, bind_lift. cbn [concat to_string cbind].
    now rewrite append_assoc.
  - intros s. reflexivity.
  - intros x Hx. destruct x; try discriminate Hx; reflexivity.
Qed.

Lemma password_reset_requests_witness :
  verifyPasswordResetToken app_client true (world_with blank_page (VStr "t"))
  = (Normal tt,
     handed {| method := "GET";
               url := "https://x/v1/applications/app1/passwordResetTokens/tok";
               json := VBool true |} (world_with blank_page (VStr "t"))) /\
  sendPasswordResetEmail app_client VNull (world_with blank_page (VStr "t"))
  = (Normal tt,
     handed {| method := "POST";
               url := "https://x/v1/applications/app1/passwordResetTokens";
               json := VNull |} (world_with blank_page (VStr "t"))).
Proof.
  destruct (password_reset_requests app_client (world_with blank_page (VStr "t")))
    as (Hverify & _ & Hsend).
  split; [apply (Hverify "tok")|apply (Hsend VNull)]; reflexivity.
Defined.

(** ** From base64url to base64 *)

Lemma replace_char_length (a b : ascii) (s : string) :
  String.length (replace_char a b s) = String.length s.
Proof. induction s as [|c s IH]; [reflexivity|]. cbn. now rewrite IH. Qed.

Lemma replace_char_absent (a b : ascii) (s : string) :
  mem_char a s = false -> replace_char a b s = s.
Proof.
  induction s as [|c s IH]; [reflexivity|].
  cbn [mem_char replace_char]. intros H. apply orb_false_iff in H as [Hc Hs].
  rewrite Ascii.eqb_sym, Hc. now rewrite IH.
Qed.

Lemma base64urlToBase64_chars (s : string) :
  all_chars (fun c => negb (Ascii.eqb c "-") && negb (Ascii.eqb c "_"))
            (UtilsUrl.base64urlToBase64 s) = true.
Proof.
  unfold UtilsUrl.base64urlToBase64.
  induction s as [|c s IH]; [reflexivity|].
  cbn [replace_char all_chars]. rewrite IH, andb_true_r.
  destruct c as [[] [] [] [] [] [] [] []]; reflexivity.
Qed.

Lemma base64urlToBase64_alphabet_char (c : ascii) :
  UtilsUrl.base64url_alphabet c = true ->
  UtilsUrl.base64_alphabet
    (if Ascii.eqb (if Ascii.eqb c "-" then "+"%char else c) "_"
     then "/"%char else if Ascii.eqb c "-" then "+"%char else c) = true.
Proof.
  destruct c as [[] [] [] [] [] [] [] []]; vm_compute; congruence.
Qed.

(** X27: [base64urlToBase64] keeps the length of its argument, leaves no
    [-] and no [_], and leaves a text without them as it is; a text over
    the base64url alphabet becomes a text over the base64 alphabet. *)
Theorem base64urlToBase64_alphabet :
  forall (s : string),
    String.length (UtilsUrl.base64urlToBase64 s) = String.length s /\
    mem_char "-" (UtilsUrl.base64urlToBase64 s) = false /\
    mem_char "_" (UtilsUrl.base64urlToBase64 s) = false /\
    (mem_char "-" s = false -> mem_char "_" s = false ->
     UtilsUrl.base64urlToBase64 s = s) /\
    (all_chars UtilsUrl.base64url_alphabet s = true ->
     all_chars UtilsUrl.base64_alphabet (UtilsUrl.base64urlToBase64 s) = true).
Proof.
  intros s. pose proof (base64urlToBase64_chars s) as Hchars.
  repeat split.
  - unfold UtilsUrl.base64urlToBase64. now rewrite !replace_char_length.
  - apply (all_chars_not_mem _ _ _ Hchars). reflexivity.
  - apply (all_chars_not_mem _ _ _ Hchars). reflexivity.
  - intros Hd Hu. unfold UtilsUrl.base64urlToBase64.
    rewrite (replace_char_absent "-" "+" s Hd).
    now apply replace_char_absent.
  - unfold UtilsUrl.base64urlToBase64.
    induction s as [|c s IH]; [reflexivity|].
    cbn [all_chars replace_char]. intros H. apply andb_true_iff in H as [Hc Hs].
    rewrite (base64urlToBase64_alphabet_char c Hc).
    apply IH; [apply base64urlToBase64_chars|exact Hs].
Qed.

Lemma base64urlToBase64_alphabet_witness :
  String.length (UtilsUrl.base64urlToBase64 "e-_9") = 4 /\
  UtilsUrl.base64urlToBase64 "e309" = "e309" /\
  all_chars UtilsUrl.base64_alphabet (UtilsUrl.base64urlToBase64 "e-_9") = true.
Proof.
  destruct (base64urlToBase64_alphabet "e-_9") as (Hlen & _ & _ & _ & Halpha).
  destruct (base64urlToBase64_alphabet "e309") as (_ & _ & _ & Hsame & _).
  split; [exact Hlen|]. split; [apply Hsame; reflexivity|].
  apply Halpha. reflexivity.
Defined.
